(** * Identity resolution and conversation routing: a shallow embedding

    The development follows the TypeScript services of the repository:
    the repositories over the three DynamoDB tables, [CustomerService],
    [ThreadService], [MessageService], the Lark notification service,
    [InboundService.processMessage], [OutboundService.sendReply] and
    [AutomationService.evaluate]; then the three provider clients, the
    Lark card actions with the outbound handler, and the Twilio adapter
    with the inbound handler.

    Conventions.
    - A JavaScript string is a [string] holding the bytes of its UTF-8
      encoding, so ASCII text is written as it is.  Where the code counts
      UTF-16 code units ([substring]), the model counts them on the
      encoding.
    - An optional field ([x?: T]) is an [option]; [undefined] is [None].
    - An [async] method is a computation in the monad [M]: it threads the
      [World] (the three tables, the uuid source, the log of provider
      calls) and either returns a value or throws.
    - What the services call but do not define is a field of the
      environment record [Env], and theorems quantify over it: the Lark
      SDK, the uuid generator, [String.prototype.toLowerCase], and the
      [sendMessage] operation of the three provider clients.  The
      clients wrap the provider's API in a [try]/[catch] of their own;
      here their operation may return any [SendResult] or throw, which
      covers what they do. *)

From Stdlib Require Import String Ascii List Bool Arith Lia.
From Stdlib Require Import DecimalString DecimalNat.
Import ListNotations.
Local Open Scope string_scope.
Local Open Scope list_scope.

Set Implicit Arguments.

(** ** JavaScript values used by the services *)

Module Js.

(** What a [throw] carries: an [Error] with its message, or any other
    value ([error instanceof Error] is false for it), known by what
    [String(value)] shows. *)
Inductive Thrown : Type :=
| JsError (message : string)
| JsNonError (shown : string).

(** [String(error)]. *)
Definition String_of (e : Thrown) : string :=
  match e with
  | JsError message => "Error: " ++ message
  | JsNonError shown => shown
  end.

(** [error instanceof Error ? error.message : 'Unknown error']. *)
Definition message_of (e : Thrown) : string :=
  match e with
  | JsError message => message
  | JsNonError _ => "Unknown error"
  end.

(** Outcome of a call: a returned value or a thrown one. *)
Inductive Result (A : Type) : Type :=
| Ok (a : A)
| Throw (e : Thrown).
Arguments Throw {A} e.

(** Truthiness of an optional string: [undefined] and [''] are falsy. *)
Definition truthy (o : option string) : bool :=
  match o with
  | Some s => negb (s =? "")
  | None => false
  end.

(** [o || d] where [d] is a string. *)
Definition or_str (o : option string) (d : string) : string :=
  match o with
  | Some s => if s =? "" then d else s
  | None => d
  end.

(** [o || d] where [d] may itself be [undefined]. *)
Definition or_opt (o d : option string) : option string :=
  if truthy o then o else d.

(** [o || d] for a value that is truthy whenever it is present. *)
Definition or_default {A : Type} (o : option A) (d : A) : A :=
  match o with
  | Some a => a
  | None => d
  end.

(** [s.startsWith(p)], compared on the encoding. *)
Fixpoint startsWith (p s : string) : bool :=
  match p, s with
  | EmptyString, _ => true
  | String a p', String b s' => Ascii.eqb a b && startsWith p' s'
  | String _ _, EmptyString => false
  end.

(** [s.includes(p)]: [p] occurs in [s] as a contiguous run. *)
Fixpoint includes (s p : string) : bool :=
  startsWith p s ||
  match s with
  | EmptyString => false
  | String _ s' => includes s' p
  end.

(** [s.split(sep)] for a one-character separator: the segments between
    the occurrences of [sep]; never the empty array. *)
Fixpoint split (sep : ascii) (s : string) : list string :=
  match s with
  | EmptyString => [EmptyString]
  | String a s' =>
      if Ascii.eqb a sep then EmptyString :: split sep s'
      else match split sep s' with
           | seg :: rest => String a seg :: rest
           | [] => [String a EmptyString]
           end
  end.

(** [arr.includes(x)] on an array of strings. *)
Definition arr_includes (l : list string) (x : string) : bool :=
  existsb (String.eqb x) l.

(** *** UTF-16 code units

    The length and the indices of a JavaScript string count UTF-16 code
    units.  On the UTF-8 encoding a character of one, two or three bytes
    is one code unit, and a character of four bytes is two, a surrogate
    pair. *)

(** The bytes of the sequence that a lead byte opens; one for a byte that
    opens none. *)
Definition utf8_bytes (b : ascii) : nat :=
  let n := nat_of_ascii b in
  if (n <? 192)%nat then 1
  else if (n <? 224)%nat then 2
  else if (n <? 240)%nat then 3
  else 4.

(** The code units of the character that the lead byte opens. *)
Definition utf16_units (b : ascii) : nat :=
  if (utf8_bytes b =? 4)%nat then 2 else 1.

(** [s.length], with [pending] bytes of the current character still to
    pass. *)
Fixpoint utf16_length_from (pending : nat) (s : string) : nat :=
  match s with
  | EmptyString => 0
  | String b rest =>
      match pending with
      | S pending' => utf16_length_from pending' rest
      | 0 => utf16_units b + utf16_length_from (utf8_bytes b - 1) rest
      end
  end.

Definition utf16_length (s : string) : nat := utf16_length_from 0 s.

(** The first code unit of a character of four bytes, its high
    surrogate, alone: the three bytes that generalized UTF-8 gives a lone
    surrogate.  [b0] is the lead byte and [rest] holds the bytes after
    it. *)
Definition highSurrogate (b0 : ascii) (rest : string) : string :=
  let b1 :=
    match rest with
    | String c _ => nat_of_ascii c
    | EmptyString => 0
    end in
  let b2 :=
    match rest with
    | String _ (String c _) => nat_of_ascii c
    | _ => 0
    end in
  let x := (nat_of_ascii b0 mod 8) * 256 + (b1 mod 64) * 4 + (b2 mod 64) / 16 in
  String (ascii_of_nat 237)
    (String (ascii_of_nat (128 + (31 + x / 64) mod 64))
       (String (ascii_of_nat (128 + x mod 64)) EmptyString)).

(** [s.substring(0, n)]: the first [n] code units.  When the cut falls
    inside a surrogate pair, the high surrogate is kept alone. *)
Fixpoint substring0_from (pending n : nat) (s : string) : string :=
  match s with
  | EmptyString => EmptyString
  | String b rest =>
      match pending with
      | S pending' => String b (substring0_from pending' n rest)
      | 0 =>
          if (utf16_units b <=? n)%nat
          then String b (substring0_from (utf8_bytes b - 1)
                           (n - utf16_units b) rest)
          else if (n =? 1)%nat then highSurrogate b rest
          else EmptyString
      end
  end.

Definition substring0 (n : nat) (s : string) : string :=
  substring0_from 0 n s.

(** No character of the text lies outside the Basic Multilingual Plane:
    no byte opens a sequence of four. *)
Fixpoint withinBmp (s : string) : bool :=
  match s with
  | EmptyString => true
  | String b rest => (nat_of_ascii b <? 240)%nat && withinBmp rest
  end.

(** The text is ASCII. *)
Fixpoint isAscii (s : string) : bool :=
  match s with
  | EmptyString => true
  | String b rest => (nat_of_ascii b <? 128)%nat && isAscii rest
  end.

End Js.
Export Js.

(** ** Data model: [types/channel.ts], [types/message.ts], the customer types *)

Inductive ChannelType : Type :=
| LINE | SMS | WHATSAPP | EMAIL | WEBCHAT | FACEBOOK | INSTAGRAM | LINKEDIN.

(** The string value of each member of the [ChannelType] enum. *)
Definition ChannelType_value (c : ChannelType) : string :=
  match c with
  | LINE => "line" | SMS => "sms" | WHATSAPP => "whatsapp" | EMAIL => "email"
  | WEBCHAT => "webchat" | FACEBOOK => "facebook" | INSTAGRAM => "instagram"
  | LINKEDIN => "linkedin"
  end.

Definition ChannelType_eqb (a b : ChannelType) : bool :=
  match a, b with
  | LINE, LINE | SMS, SMS | WHATSAPP, WHATSAPP | EMAIL, EMAIL
  | WEBCHAT, WEBCHAT | FACEBOOK, FACEBOOK | INSTAGRAM, INSTAGRAM
  | LINKEDIN, LINKEDIN => true
  | _, _ => false
  end.

Inductive ChannelProvider : Type :=
| twilio | meta | linkedin | direct.

Definition CHANNEL_PROVIDERS (c : ChannelType) : ChannelProvider :=
  match c with
  | LINE => twilio
  | SMS => twilio
  | WHATSAPP => twilio
  | WEBCHAT => twilio
  | EMAIL => direct
  | FACEBOOK => meta
  | INSTAGRAM => meta
  | LINKEDIN => linkedin
  end.

Inductive MessageDirection : Type := inbound | outbound.

Inductive ContentType : Type :=
| text | image | file | audio | video | location | sticker.

Inductive MessageStatus : Type :=
| msg_pending | msg_sent | msg_delivered | msg_read | msg_failed.

Inductive ThreadStatus : Type :=
| open | pending | closed.

Definition ThreadStatus_eqb (a b : ThreadStatus) : bool :=
  match a, b with
  | open, open | pending, pending | closed, closed => true
  | _, _ => false
  end.

(** [Record<string, unknown>]: an opaque bag the engine only copies. *)
Definition Metadata : Type := list (string * string).

Record MessageAttachment : Type := {
  att_type : ContentType;
  att_url : string;
  att_filename : option string;
  att_mimeType : option string;
  att_size : option nat
}.

Record UnifiedMessage : Type := {
  messageId : string;
  msg_threadId : string;
  msg_customerId : string;
  msg_channel : ChannelType;
  direction : MessageDirection;
  content : string;
  contentType : ContentType;
  attachments : option (list MessageAttachment);
  senderId : string;
  senderName : option string;
  senderAvatar : option string;
  timestamp : string;
  msg_status : MessageStatus;
  externalMessageId : option string;
  msg_metadata : option Metadata
}.

Record OutboundMessageRequest : Type := {
  req_threadId : string;
  req_content : string;
  req_contentType : option ContentType;
  req_attachments : option (list MessageAttachment);
  operatorId : string;
  operatorName : string
}.

Record SendResult : Type := {
  success : bool;
  res_messageId : option string;
  res_externalMessageId : option string;
  error : option string;
  res_timestamp : string
}.

(** [IdentifierType] is a union of string literals; the inbound pipeline
    receives it as a plain [string] and casts it, so it is a string here. *)
Definition IdentifierType : Type := string.

Record CustomerIdentifier : Type := {
  id_type : IdentifierType;
  id_value : string;
  id_channel : ChannelType;
  verified : bool
}.

(** [displayName], [createdAt] and [updatedAt] are declared as strings,
    but [mapToCustomer] copies whatever the stored item holds, and the
    index records written by [CustomerRepository.save] hold none of
    them: at run time they can be [undefined]. *)
Record Customer : Type := {
  customerId : string;
  displayName : option string;
  avatarUrl : option string;
  identifiers : list CustomerIdentifier;
  tags : list string;
  notes : option string;
  isVip : bool;
  cust_metadata : option Metadata;
  cust_createdAt : option string;
  cust_updatedAt : option string
}.

Record Thread : Type := {
  threadId : string;
  thr_customerId : string;
  channel : ChannelType;
  externalConversationId : option string;
  status : ThreadStatus;
  assignedTo : option string;
  assignedToName : option string;
  larkGroupId : option string;
  larkMessageId : option string;
  subject : option string;
  lastMessageAt : option string;
  lastMessagePreview : option string;
  unreadCount : nat;
  thr_metadata : option Metadata;
  createdAt : string;
  updatedAt : string
}.

(** ** The DynamoDB tables

    A table is the list of its items; an item is found by its partition
    key.  [PutCommand] replaces the item that has the same key, and adds
    the item when there is none.  The order of the list stands for the
    order in which a [QueryCommand] walks an index.  The tables are
    always available: a command on them does not fail. *)

Section Table.

Variable Item : Type.
Variable key : Item -> string.

(** [GetCommand]: the item stored under [k]. *)
Definition ddb_get (k : string) (tbl : list Item) : option Item :=
  find (fun it => key it =? k) tbl.

(** [PutCommand]. *)
Fixpoint ddb_put (it : Item) (tbl : list Item) : list Item :=
  match tbl with
  | [] => [it]
  | x :: rest =>
      if key x =? key it then it :: rest else x :: ddb_put it rest
  end.

(** [QueryCommand] with a key condition, an optional filter expression
    and a [Limit]: DynamoDB reads at most [limit] items that satisfy the
    key condition and only then applies the filter to what it read. *)
Definition ddb_query (keyCondition filterExpression : Item -> bool)
    (limit : nat) (tbl : list Item) : list Item :=
  filter filterExpression (firstn limit (filter keyCondition tbl)).

End Table.

(** An item of the customers table: the main record of a customer, or an
    index record for one of its further identifiers. *)
Record CustomerItem : Type := {
  customer_id : string;
  display_name : option string;
  avatar_url : option string;
  item_identifiers : option (list CustomerIdentifier);
  item_tags : option (list string);
  item_notes : option string;
  is_vip : option bool;
  item_metadata : option Metadata;
  created_at : option string;
  updated_at : option string;
  identifier_type : option IdentifierType;
  identifier_value : option string;
  primary_customer_id : option string
}.

(** The arguments of one [sendMessage] call on a provider client. *)
Record ProviderCall : Type := {
  call_provider : ChannelProvider;
  call_thread : Thread;
  call_content : string;
  call_attachments : option (list MessageAttachment)
}.

(** What [new Date()] shows: the ISO string, the local hour and the day of
    the week (0 is Sunday). *)
Record Clock : Type := {
  toISOString : string;
  getHours : nat;
  getDay : nat
}.

(** The mutable state the services run against.  Thread and message items
    are stored field by field ([save]) and read back field by field
    ([mapToThread], [mapToMessage]), so the tables hold the records
    themselves.  A call reads the clock without moving it; the clock is
    whatever the world holds when the call starts. *)
Record World : Type := {
  customers : list CustomerItem;
  threads : list Thread;
  messages : list UnifiedMessage;
  uuid_ix : nat;
  clock : Clock;
  providerCalls : list ProviderCall
}.

Definition with_customers (tbl : list CustomerItem) (w : World) : World :=
  {| customers := tbl; threads := threads w; messages := messages w;
     uuid_ix := uuid_ix w; clock := clock w;
     providerCalls := providerCalls w |}.

Definition with_threads (tbl : list Thread) (w : World) : World :=
  {| customers := customers w; threads := tbl; messages := messages w;
     uuid_ix := uuid_ix w; clock := clock w;
     providerCalls := providerCalls w |}.

Definition with_messages (tbl : list UnifiedMessage) (w : World) : World :=
  {| customers := customers w; threads := threads w; messages := tbl;
     uuid_ix := uuid_ix w; clock := clock w;
     providerCalls := providerCalls w |}.

Definition with_uuid_ix (n : nat) (w : World) : World :=
  {| customers := customers w; threads := threads w; messages := messages w;
     uuid_ix := n; clock := clock w;
     providerCalls := providerCalls w |}.

Definition with_providerCalls (l : list ProviderCall) (w : World) : World :=
  {| customers := customers w; threads := threads w; messages := messages w;
     uuid_ix := uuid_ix w; clock := clock w;
     providerCalls := l |}.

(** The card built by [buildMessageCard]: an opaque JSON value for the
    engine, determined by the message, the customer and the thread. *)
Record Card : Type := {
  card_message : UnifiedMessage;
  card_customer : Customer;
  card_thread : Thread
}.

(** The collaborators outside the repository. *)
Record Env : Type := {
  (** the successive results of [uuidv4()] *)
  uuid_at : nat -> string;
  (** [process.env.LARK_DEFAULT_GROUP_ID], [process.env.LARK_VIP_GROUP] *)
  LARK_DEFAULT_GROUP_ID : option string;
  LARK_VIP_GROUP : option string;
  (** [client.im.message.create]: the [message_id] of the response, or a
      thrown error *)
  im_message_create : string -> Card -> Result (option string);
  (** [client.im.message.patch] with the status note of a send result *)
  im_message_patch : string -> SendResult -> Result unit;
  (** [sendMessage] of [TwilioClient], [MetaClient] and [LinkedInClient] *)
  twilio_sendMessage :
    Thread -> string -> option (list MessageAttachment) -> Result SendResult;
  meta_sendMessage :
    Thread -> string -> option (list MessageAttachment) -> Result SendResult;
  linkedin_sendMessage : Thread -> string -> Result SendResult;
  (** [String.prototype.toLowerCase] *)
  toLowerCase : string -> string
}.

(** ** The monad of the [async] methods *)

Definition M (A : Type) : Type := World -> Result A * World.

Definition ret {A : Type} (a : A) : M A := fun w => (Ok a, w).

Definition bind {A B : Type} (m : M A) (k : A -> M B) : M B :=
  fun w =>
    match m w with
    | (Ok a, w') => k a w'
    | (Throw e, w') => (Throw e, w')
    end.

(** [throw new Error(msg)]. *)
Definition throw {A : Type} (e : Thrown) : M A := fun w => (Throw e, w).

(** [try { m } catch (error) { h error }]: the writes [m] made before it
    threw stay. *)
Definition try_catch {A : Type} (m : M A) (h : Thrown -> M A) : M A :=
  fun w =>
    match m w with
    | (Ok a, w') => (Ok a, w')
    | (Throw e, w') => h e w'
    end.

Definition gets {A : Type} (f : World -> A) : M A := fun w => (Ok (f w), w).

Definition modify (f : World -> World) : M unit := fun w => (Ok tt, f w).

(** The value of a call made by the environment, as a computation. *)
Definition lift_result {A : Type} (r : Result A) : M A := fun w => (r, w).

Declare Scope m_scope.
Delimit Scope m_scope with m.
Notation "x <- m ;; k" := (bind m (fun x => k))
  (at level 61, m at next level, right associativity) : m_scope.
Notation "m ;;; k" := (bind m (fun _ => k))
  (at level 61, right associativity) : m_scope.
Local Open Scope m_scope.

(** [new Date().toISOString()]. *)
Definition now : M string := gets (fun w => toISOString (clock w)).

(** [uuidv4()]: the next value of the generator. *)
Definition uuidv4 (env : Env) : M string :=
  fun w => (Ok (uuid_at env (uuid_ix w)), with_uuid_ix (S (uuid_ix w)) w).

(** ** [repositories/customerRepository.ts] *)

Module CustomerRepository.

Definition mapToCustomer (item : CustomerItem) : Customer :=
  {| customerId := customer_id item;
     displayName := display_name item;
     avatarUrl := avatar_url item;
     identifiers := or_default (item_identifiers item) [];
     tags := or_default (item_tags item) [];
     notes := item_notes item;
     isVip := or_default (is_vip item) false;
     cust_metadata := item_metadata item;
     cust_createdAt := created_at item;
     cust_updatedAt := updated_at item |}.

Definition getById (cid : string) : M (option Customer) :=
  gets (fun w => option_map mapToCustomer (ddb_get customer_id cid (customers w))).

(** The key condition of the query on [identifier-index]. *)
Definition identifierKey (type : IdentifierType) (value : string)
    (item : CustomerItem) : bool :=
  match identifier_type item, identifier_value item with
  | Some t, Some v => (t =? type) && (v =? value)
  | _, _ => false
  end.

Definition findByIdentifier (type : IdentifierType) (value : string)
    : M (option Customer) :=
  gets (fun w =>
    match ddb_query (identifierKey type value) (fun _ => true) 1 (customers w) with
    | [] => None
    | item :: _ => Some (mapToCustomer item)
    end).

(** The main record; its index attributes come from [identifiers[0]]. *)
Definition mainItem (customer : Customer) : CustomerItem :=
  {| customer_id := customerId customer;
     display_name := displayName customer;
     avatar_url := avatarUrl customer;
     item_identifiers := Some (identifiers customer);
     item_tags := Some (tags customer);
     item_notes := notes customer;
     is_vip := Some (isVip customer);
     item_metadata := cust_metadata customer;
     created_at := cust_createdAt customer;
     updated_at := cust_updatedAt customer;
     identifier_type := option_map id_type (hd_error (identifiers customer));
     identifier_value := option_map id_value (hd_error (identifiers customer));
     primary_customer_id := None |}.

(** The index record of a further identifier, keyed by
    [`${customerId}#${id.type}#${id.value}`]. *)
Definition indexItem (cid : string) (id : CustomerIdentifier) : CustomerItem :=
  {| customer_id := cid ++ "#" ++ id_type id ++ "#" ++ id_value id;
     display_name := None;
     avatar_url := None;
     item_identifiers := None;
     item_tags := None;
     item_notes := None;
     is_vip := None;
     item_metadata := None;
     created_at := None;
     updated_at := None;
     identifier_type := Some (id_type id);
     identifier_value := Some (id_value id);
     primary_customer_id := Some cid |}.

Definition putItem (item : CustomerItem) : M unit :=
  modify (fun w => with_customers (ddb_put customer_id item (customers w)) w).

(** The loop [for (let i = 1; i < identifiers.length; i++)], over the
    identifiers from index 1 on. *)
Fixpoint saveIndexRecords (cid : string) (ids : list CustomerIdentifier)
    : M unit :=
  match ids with
  | [] => ret tt
  | id :: rest => putItem (indexItem cid id) ;;; saveIndexRecords cid rest
  end.

Definition save (customer : Customer) : M unit :=
  putItem (mainItem customer) ;;;
  saveIndexRecords (customerId customer) (tl (identifiers customer)).

End CustomerRepository.

(** ** [repositories/threadRepository.ts] *)

Module ThreadRepository.

Definition getById (tid : string) : M (option Thread) :=
  gets (fun w => ddb_get threadId tid (threads w)).

(** Query on [customer-index] with the filter
    [channel = :channel AND #status <> :closed] and [Limit: 1]. *)
Definition findActiveByCustomerAndChannel (cid : string) (ch : ChannelType)
    : M (option Thread) :=
  gets (fun w =>
    match ddb_query (fun t => thr_customerId t =? cid)
            (fun t => ChannelType_eqb (channel t) ch
                      && negb (ThreadStatus_eqb (status t) closed))
            1 (threads w) with
    | [] => None
    | t :: _ => Some t
    end).

Definition findByStatus (st : ThreadStatus) (limit : nat) : M (list Thread) :=
  gets (fun w =>
    ddb_query (fun t => ThreadStatus_eqb (status t) st) (fun _ => true)
      limit (threads w)).

Definition save (thread : Thread) : M unit :=
  modify (fun w => with_threads (ddb_put threadId thread (threads w)) w).

End ThreadRepository.

(** ** [repositories/messageRepository.ts] *)

Module MessageRepository.

Definition getById (mid : string) : M (option UnifiedMessage) :=
  gets (fun w => ddb_get messageId mid (messages w)).

Definition findByThreadId (tid : string) (limit : nat)
    : M (list UnifiedMessage) :=
  gets (fun w =>
    ddb_query (fun m => msg_threadId m =? tid) (fun _ => true)
      limit (messages w)).

Definition save (message : UnifiedMessage) : M unit :=
  modify (fun w => with_messages (ddb_put messageId message (messages w)) w).

End MessageRepository.

(** ** [services/customer.ts] *)

Record CreateCustomerInput : Type := {
  in_displayName : string;
  in_identifier : CustomerIdentifier;
  in_avatarUrl : option string;
  in_metadata : option Metadata
}.

(** [i.type === identifier.type && i.value === identifier.value]. *)
Definition sameIdentifier (identifier i : CustomerIdentifier) : bool :=
  (id_type i =? id_type identifier) && (id_value i =? id_value identifier).

(** [customer.identifiers.push(identifier); customer.updatedAt = ...]. *)
Definition pushIdentifier (customer : Customer) (identifier : CustomerIdentifier)
    (updated : string) : Customer :=
  {| customerId := customerId customer;
     displayName := displayName customer;
     avatarUrl := avatarUrl customer;
     identifiers := identifiers customer ++ [identifier];
     tags := tags customer;
     notes := notes customer;
     isVip := isVip customer;
     cust_metadata := cust_metadata customer;
     cust_createdAt := cust_createdAt customer;
     cust_updatedAt := Some updated |}.

(** [Partial<Customer>], the argument of [CustomerService.update]: a key
    the object does not have is [None]. *)
Record CustomerUpdates : Type := {
  upd_customerId : option string;
  upd_displayName : option string;
  upd_avatarUrl : option string;
  upd_identifiers : option (list CustomerIdentifier);
  upd_tags : option (list string);
  upd_notes : option string;
  upd_isVip : option bool;
  upd_metadata : option Metadata;
  upd_createdAt : option string;
  upd_updatedAt : option string
}.

(** [{}]. *)
Definition noUpdates : CustomerUpdates :=
  {| upd_customerId := None; upd_displayName := None; upd_avatarUrl := None;
     upd_identifiers := None; upd_tags := None; upd_notes := None;
     upd_isVip := None; upd_metadata := None; upd_createdAt := None;
     upd_updatedAt := None |}.

(** [{ isVip }] and [{ tags }]. *)
Definition isVipUpdate (flag : bool) : CustomerUpdates :=
  {| upd_customerId := None; upd_displayName := None; upd_avatarUrl := None;
     upd_identifiers := None; upd_tags := None; upd_notes := None;
     upd_isVip := Some flag; upd_metadata := None; upd_createdAt := None;
     upd_updatedAt := None |}.

Definition tagsUpdate (l : list string) : CustomerUpdates :=
  {| upd_customerId := None; upd_displayName := None; upd_avatarUrl := None;
     upd_identifiers := None; upd_tags := Some l; upd_notes := None;
     upd_isVip := None; upd_metadata := None; upd_createdAt := None;
     upd_updatedAt := None |}.

(** A spread key: the value of [updates] when it has the key. *)
Definition spread {A : Type} (old : A) (new : option A) : A :=
  match new with
  | Some v => v
  | None => old
  end.

Definition spread_opt {A : Type} (old new : option A) : option A :=
  match new with
  | Some v => Some v
  | None => old
  end.

(** [{ ...customer, ...updates, customerId: customer.customerId,
    updatedAt: new Date().toISOString() }]. *)
Definition applyUpdates (customer : Customer) (updates : CustomerUpdates)
    (now_ : string) : Customer :=
  {| customerId := customerId customer; (* Prevent ID change *)
     displayName := spread_opt (displayName customer) (upd_displayName updates);
     avatarUrl := spread_opt (avatarUrl customer) (upd_avatarUrl updates);
     identifiers := spread (identifiers customer) (upd_identifiers updates);
     tags := spread (tags customer) (upd_tags updates);
     notes := spread_opt (notes customer) (upd_notes updates);
     isVip := spread (isVip customer) (upd_isVip updates);
     cust_metadata := spread_opt (cust_metadata customer) (upd_metadata updates);
     cust_createdAt :=
       spread_opt (cust_createdAt customer) (upd_createdAt updates);
     cust_updatedAt := Some now_ |}.

(** The object literal of [CustomerService.create]. *)
Definition newCustomer (input : CreateCustomerInput) (cid now_ : string)
    : Customer :=
  {| customerId := cid;
     displayName := Some (in_displayName input);
     avatarUrl := in_avatarUrl input;
     identifiers := [in_identifier input];
     tags := [];
     notes := None;
     isVip := false;
     cust_metadata := in_metadata input;
     cust_createdAt := Some now_;
     cust_updatedAt := Some now_ |}.

Module CustomerService.

Definition findByIdentifier (type : IdentifierType) (value : string)
    : M (option Customer) :=
  CustomerRepository.findByIdentifier type value.

Definition getById (cid : string) : M (option Customer) :=
  CustomerRepository.getById cid.

Definition create (env : Env) (input : CreateCustomerInput) : M Customer :=
  now_ <- now ;;
  cid <- uuidv4 env ;;
  let customer := newCustomer input cid now_ in
  CustomerRepository.save customer ;;;
  ret customer.

Definition addIdentifier (cid : string) (identifier : CustomerIdentifier)
    : M unit :=
  found <- getById cid ;;
  match found with
  | None => throw (JsError "Customer not found")
  | Some customer =>
      (* Check if identifier already exists *)
      if existsb (sameIdentifier identifier) (identifiers customer)
      then ret tt
      else
        now_ <- now ;;
        CustomerRepository.save (pushIdentifier customer identifier now_)
  end.

Definition update (cid : string) (updates : CustomerUpdates) : M Customer :=
  found <- getById cid ;;
  match found with
  | None => throw (JsError "Customer not found")
  | Some customer =>
      now_ <- now ;;
      let updated := applyUpdates customer updates now_ in
      CustomerRepository.save updated ;;;
      ret updated
  end.

Definition setVip (cid : string) (flag : bool) : M unit :=
  update cid (isVipUpdate flag) ;;; ret tt.

(** [customer.tags.push(tag)] and then [update] with the grown array,
    only when the tag is not there yet. *)
Definition addTag (cid tag : string) : M unit :=
  found <- getById cid ;;
  match found with
  | None => throw (JsError "Customer not found")
  | Some customer =>
      if negb (arr_includes (tags customer) tag)
      then update cid (tagsUpdate (tags customer ++ [tag])) ;;; ret tt
      else ret tt
  end.

End CustomerService.

(** ** [services/thread.ts] *)

Record CreateThreadInput : Type := {
  in_customerId : string;
  in_channel : ChannelType;
  in_externalConversationId : option string;
  in_subject : option string
}.

(** [thread.status = status; thread.updatedAt = ...]. *)
Definition setStatus (t : Thread) (st : ThreadStatus) (updated : string)
    : Thread :=
  {| threadId := threadId t; thr_customerId := thr_customerId t;
     channel := channel t;
     externalConversationId := externalConversationId t;
     status := st;
     assignedTo := assignedTo t; assignedToName := assignedToName t;
     larkGroupId := larkGroupId t; larkMessageId := larkMessageId t;
     subject := subject t;
     lastMessageAt := lastMessageAt t;
     lastMessagePreview := lastMessagePreview t;
     unreadCount := unreadCount t;
     thr_metadata := thr_metadata t;
     createdAt := createdAt t; updatedAt := updated |}.

(** [thread.assignedTo = ...; thread.assignedToName = ...]. *)
Definition setAssignee (t : Thread) (assigneeId assigneeName updated : string)
    : Thread :=
  {| threadId := threadId t; thr_customerId := thr_customerId t;
     channel := channel t;
     externalConversationId := externalConversationId t;
     status := status t;
     assignedTo := Some assigneeId; assignedToName := Some assigneeName;
     larkGroupId := larkGroupId t; larkMessageId := larkMessageId t;
     subject := subject t;
     lastMessageAt := lastMessageAt t;
     lastMessagePreview := lastMessagePreview t;
     unreadCount := unreadCount t;
     thr_metadata := thr_metadata t;
     createdAt := createdAt t; updatedAt := updated |}.

(** The assignments of [updateLastMessage]: the preview is
    [message.content.substring(0, 100)], and the unread count grows only
    for an inbound message. *)
Definition setLastMessage (t : Thread) (message : UnifiedMessage)
    (updated : string) : Thread :=
  {| threadId := threadId t; thr_customerId := thr_customerId t;
     channel := channel t;
     externalConversationId := externalConversationId t;
     status := status t;
     assignedTo := assignedTo t; assignedToName := assignedToName t;
     larkGroupId := larkGroupId t; larkMessageId := larkMessageId t;
     subject := subject t;
     lastMessageAt := Some (timestamp message);
     lastMessagePreview := Some (substring0 100 (content message));
     unreadCount :=
       match direction message with
       | inbound => unreadCount t + 1
       | outbound => unreadCount t
       end;
     thr_metadata := thr_metadata t;
     createdAt := createdAt t; updatedAt := updated |}.

(** [thread.unreadCount = 0]. *)
Definition setRead (t : Thread) (updated : string) : Thread :=
  {| threadId := threadId t; thr_customerId := thr_customerId t;
     channel := channel t;
     externalConversationId := externalConversationId t;
     status := status t;
     assignedTo := assignedTo t; assignedToName := assignedToName t;
     larkGroupId := larkGroupId t; larkMessageId := larkMessageId t;
     subject := subject t;
     lastMessageAt := lastMessageAt t;
     lastMessagePreview := lastMessagePreview t;
     unreadCount := 0;
     thr_metadata := thr_metadata t;
     createdAt := createdAt t; updatedAt := updated |}.

(** [thread.larkGroupId = groupId; thread.larkMessageId = messageId]. *)
Definition setLark (t : Thread) (groupId larkId updated : string) : Thread :=
  {| threadId := threadId t; thr_customerId := thr_customerId t;
     channel := channel t;
     externalConversationId := externalConversationId t;
     status := status t;
     assignedTo := assignedTo t; assignedToName := assignedToName t;
     larkGroupId := Some groupId; larkMessageId := Some larkId;
     subject := subject t;
     lastMessageAt := lastMessageAt t;
     lastMessagePreview := lastMessagePreview t;
     unreadCount := unreadCount t;
     thr_metadata := thr_metadata t;
     createdAt := createdAt t; updatedAt := updated |}.

(** The object literal of [ThreadService.create]. *)
Definition newThread (input : CreateThreadInput) (tid now_ : string) : Thread :=
  {| threadId := tid;
     thr_customerId := in_customerId input;
     channel := in_channel input;
     externalConversationId := in_externalConversationId input;
     status := open;
     assignedTo := None; assignedToName := None;
     larkGroupId := None; larkMessageId := None;
     subject := in_subject input;
     lastMessageAt := None; lastMessagePreview := None;
     unreadCount := 0;
     thr_metadata := None;
     createdAt := now_; updatedAt := now_ |}.

Module ThreadService.

Definition getById (tid : string) : M (option Thread) :=
  ThreadRepository.getById tid.

Definition getActiveThread (cid : string) (ch : ChannelType)
    : M (option Thread) :=
  ThreadRepository.findActiveByCustomerAndChannel cid ch.

Definition create (env : Env) (input : CreateThreadInput) : M Thread :=
  now_ <- now ;;
  tid <- uuidv4 env ;;
  let thread := newThread input tid now_ in
  ThreadRepository.save thread ;;;
  ret thread.

(** The common shape of the five updating methods: load the thread, throw
    when it is absent, assign, save. *)
Definition withThread (tid : string) (assign : Thread -> string -> Thread)
    : M unit :=
  found <- getById tid ;;
  match found with
  | None => throw (JsError "Thread not found")
  | Some thread =>
      now_ <- now ;;
      ThreadRepository.save (assign thread now_)
  end.

Definition updateStatus (tid : string) (st : ThreadStatus) : M unit :=
  withThread tid (fun thread => setStatus thread st).

Definition assign (tid assigneeId assigneeName : string) : M unit :=
  withThread tid (fun thread => setAssignee thread assigneeId assigneeName).

Definition updateLastMessage (tid : string) (message : UnifiedMessage)
    : M unit :=
  withThread tid (fun thread => setLastMessage thread message).

Definition markAsRead (tid : string) : M unit :=
  withThread tid setRead.

Definition setLarkInfo (tid groupId larkId : string) : M unit :=
  withThread tid (fun thread => setLark thread groupId larkId).

(** [limit: number = 50]. *)
Definition getByStatus (st : ThreadStatus) (limit : option nat)
    : M (list Thread) :=
  ThreadRepository.findByStatus st (or_default limit 50).

End ThreadService.

(** ** [services/message.ts] *)

(** [message.status = status]. *)
Definition setMessageStatus (m : UnifiedMessage) (st : MessageStatus)
    : UnifiedMessage :=
  {| messageId := messageId m; msg_threadId := msg_threadId m;
     msg_customerId := msg_customerId m; msg_channel := msg_channel m;
     direction := direction m; content := content m;
     contentType := contentType m; attachments := attachments m;
     senderId := senderId m; senderName := senderName m;
     senderAvatar := senderAvatar m; timestamp := timestamp m;
     msg_status := st;
     externalMessageId := externalMessageId m;
     msg_metadata := msg_metadata m |}.

Module MessageService.

Definition store (message : UnifiedMessage) : M unit :=
  MessageRepository.save message.

Definition getById (mid : string) : M (option UnifiedMessage) :=
  MessageRepository.getById mid.

Definition updateStatus (mid : string) (st : MessageStatus) : M unit :=
  found <- getById mid ;;
  match found with
  | None => throw (JsError "Message not found")
  | Some message => MessageRepository.save (setMessageStatus message st)
  end.

(** [limit: number = 50]. *)
Definition getThreadHistory (tid : string) (limit : option nat)
    : M (list UnifiedMessage) :=
  MessageRepository.findByThreadId tid (or_default limit 50).

End MessageService.

(** ** [lark/client.ts] and the Lark notification service *)

Record LarkSendResult : Type := {
  lark_success : bool;
  lark_messageId : option string;
  lark_error : option string
}.

Module LarkClient.

(** The SDK call sits in a [try]; a thrown error is logged and turned
    into [{ success: false, error: String(error) }]. *)
Definition sendInteractiveCard (env : Env) (chatId : string) (card : Card)
    : M LarkSendResult :=
  try_catch
    (mid <- lift_result (im_message_create env chatId card) ;;
     ret {| lark_success := true; lark_messageId := mid; lark_error := None |})
    (fun error =>
     ret {| lark_success := false; lark_messageId := None;
            lark_error := Some (String_of error) |}).

Definition updateCard (env : Env) (larkId : string) (result : SendResult)
    : M LarkSendResult :=
  try_catch
    (lift_result (im_message_patch env larkId result) ;;;
     ret {| lark_success := true; lark_messageId := Some larkId;
            lark_error := None |})
    (fun error =>
     ret {| lark_success := false; lark_messageId := None;
            lark_error := Some (String_of error) |}).

End LarkClient.

Definition buildMessageCard (message : UnifiedMessage) (customer : Customer)
    (thread : Thread) : Card :=
  {| card_message := message; card_customer := customer;
     card_thread := thread |}.

Module LarkNotificationService.

(** [process.env.LARK_DEFAULT_GROUP_ID || '']. *)
Definition defaultGroupId (env : Env) : string :=
  or_str (LARK_DEFAULT_GROUP_ID env) "".

Definition sendMessageNotification (env : Env) (message : UnifiedMessage)
    (customer : Customer) (thread : Thread) : M unit :=
  let groupId := or_str (larkGroupId thread) (defaultGroupId env) in
  if groupId =? "" then ret tt
  else
    result <- LarkClient.sendInteractiveCard env groupId
                (buildMessageCard message customer thread) ;;
    if truthy (lark_messageId result) && negb (truthy (larkMessageId thread))
    then
      (* Store Lark message ID in thread for later updates *)
      ThreadService.setLarkInfo (threadId thread) groupId
        (or_str (lark_messageId result) "")
    else ret tt.

Definition updateMessageStatus (env : Env) (thread : Thread)
    (result : SendResult) : M unit :=
  if negb (truthy (larkMessageId thread)) then ret tt
  else
    LarkClient.updateCard env (or_str (larkMessageId thread) "") result ;;;
    ret tt.

End LarkNotificationService.

(** ** [services/inbound.ts] *)

(** The normalized tuple a channel adapter hands over:
    [Partial<UnifiedMessage> & { identifierType; identifierValue }].
    [processMessage] reads [channel] with a non-null assertion, so the
    channel is a plain field; the other fields it reads are optional. *)
Record RawMessage : Type := {
  raw_channel : ChannelType;
  identifierType : IdentifierType;
  identifierValue : string;
  raw_content : option string;
  raw_contentType : option ContentType;
  raw_attachments : option (list MessageAttachment);
  raw_senderId : option string;
  raw_senderName : option string;
  raw_senderAvatar : option string;
  raw_timestamp : option string;
  raw_externalMessageId : option string;
  raw_metadata : option Metadata
}.

(** The customer input of step 1 and the thread input of step 2. *)
Definition customerInput (rawMessage : RawMessage) : CreateCustomerInput :=
  {| in_displayName := or_str (raw_senderName rawMessage) "Unknown";
     in_identifier :=
       {| id_type := identifierType rawMessage;
          id_value := identifierValue rawMessage;
          id_channel := raw_channel rawMessage;
          verified := true |};
     in_avatarUrl := raw_senderAvatar rawMessage;
     in_metadata := None |}.

Definition threadInput (rawMessage : RawMessage) (customer : Customer)
    : CreateThreadInput :=
  {| in_customerId := customerId customer;
     in_channel := raw_channel rawMessage;
     in_externalConversationId := raw_externalMessageId rawMessage;
     in_subject := None |}.

(** The message literal of step 3. *)
Definition inboundMessage (rawMessage : RawMessage) (customer : Customer)
    (thread : Thread) (mid now_ : string) : UnifiedMessage :=
  {| messageId := mid;
     msg_threadId := threadId thread;
     msg_customerId := customerId customer;
     msg_channel := raw_channel rawMessage;
     direction := inbound;
     content := or_str (raw_content rawMessage) "";
     contentType := or_default (raw_contentType rawMessage) text;
     attachments := raw_attachments rawMessage;
     senderId := or_str (raw_senderId rawMessage) (customerId customer);
     senderName := or_opt (raw_senderName rawMessage) (displayName customer);
     senderAvatar :=
       or_opt (raw_senderAvatar rawMessage) (avatarUrl customer);
     timestamp := or_str (raw_timestamp rawMessage) now_;
     msg_status := msg_delivered;
     externalMessageId := raw_externalMessageId rawMessage;
     msg_metadata := raw_metadata rawMessage |}.

Module InboundService.

(** Step 1: find or create the customer. *)
Definition resolveCustomer (env : Env) (rawMessage : RawMessage) : M Customer :=
  found <- CustomerService.findByIdentifier (identifierType rawMessage)
             (identifierValue rawMessage) ;;
  match found with
  | Some customer => ret customer
  | None => CustomerService.create env (customerInput rawMessage)
  end.

(** Step 2: find or create the thread. *)
Definition resolveThread (env : Env) (rawMessage : RawMessage)
    (customer : Customer) : M Thread :=
  found <- ThreadService.getActiveThread (customerId customer)
             (raw_channel rawMessage) ;;
  match found with
  | Some thread => ret thread
  | None => ThreadService.create env (threadInput rawMessage customer)
  end.

(** Step 3: a fresh [messageId]; the timestamp falls back on the clock. *)
Definition buildMessage (env : Env) (rawMessage : RawMessage)
    (customer : Customer) (thread : Thread) : M UnifiedMessage :=
  mid <- uuidv4 env ;;
  now_ <- now ;;
  ret (inboundMessage rawMessage customer thread mid now_).

(** Steps 1 to 4 of [processMessage]: everything before the notification.
    The result is what step 5 is given: the message, the customer and the
    thread object obtained in step 2. *)
Definition persistInbound (env : Env) (rawMessage : RawMessage)
    : M (UnifiedMessage * Customer * Thread) :=
  customer <- resolveCustomer env rawMessage ;;
  thread <- resolveThread env rawMessage customer ;;
  message <- buildMessage env rawMessage customer thread ;;
  MessageService.store message ;;;
  ThreadService.updateLastMessage (threadId thread) message ;;;
  ret (message, customer, thread).

Definition processMessage (env : Env) (rawMessage : RawMessage) : M unit :=
  persisted <- persistInbound env rawMessage ;;
  let '(message, customer, thread) := persisted in
  (* 5. Send Lark notification *)
  LarkNotificationService.sendMessageNotification env message customer thread.

End InboundService.

(** ** [OutboundService] *)

Module OutboundService.

(** One [sendMessage] call on a provider client: the call is recorded and
    its outcome is the provider's. *)
Definition callProvider (p : ChannelProvider) (thread : Thread)
    (text_ : string) (atts : option (list MessageAttachment))
    (outcome : Result SendResult) : M SendResult :=
  fun w =>
    (outcome,
     with_providerCalls
       ({| call_provider := p; call_thread := thread;
           call_content := text_; call_attachments := atts |}
        :: providerCalls w) w).

(** The [switch (provider)] inside the [try]. *)
Definition dispatch (env : Env) (thread : Thread)
    (request : OutboundMessageRequest) : M SendResult :=
  match CHANNEL_PROVIDERS (channel thread) with
  | twilio =>
      callProvider twilio thread (req_content request)
        (req_attachments request)
        (twilio_sendMessage env thread (req_content request)
           (req_attachments request))
  | meta =>
      callProvider meta thread (req_content request)
        (req_attachments request)
        (meta_sendMessage env thread (req_content request)
           (req_attachments request))
  | linkedin =>
      callProvider linkedin thread (req_content request) None
        (linkedin_sendMessage env thread (req_content request))
  | direct =>
      now_ <- now ;;
      ret {| success := false; res_messageId := None;
             res_externalMessageId := None;
             error := Some "Unsupported channel"; res_timestamp := now_ |}
  end.

Definition sendReply (env : Env) (request : OutboundMessageRequest)
    : M SendResult :=
  (* 1. Get thread info *)
  found <- ThreadService.getById (req_threadId request) ;;
  match found with
  | None =>
      now_ <- now ;;
      ret {| success := false; res_messageId := None;
             res_externalMessageId := None;
             error := Some "Thread not found"; res_timestamp := now_ |}
  | Some thread =>
      (* 2. Route to appropriate channel *)
      sendResult <-
        try_catch (dispatch env thread request)
          (fun error =>
             now_ <- now ;;
             ret {| success := false; res_messageId := None;
                    res_externalMessageId := None;
                    error := Some (message_of error);
                    res_timestamp := now_ |}) ;;
      (* 3. Store outbound message *)
      (if success sendResult then
         mid <- uuidv4 env ;;
         now_ <- now ;;
         let message :=
           {| messageId := mid;
              msg_threadId := threadId thread;
              msg_customerId := thr_customerId thread;
              msg_channel := channel thread;
              direction := outbound;
              content := req_content request;
              contentType := or_default (req_contentType request) text;
              attachments := req_attachments request;
              senderId := operatorId request;
              senderName := Some (operatorName request);
              senderAvatar := None;
              timestamp := now_;
              msg_status := msg_sent;
              externalMessageId := res_externalMessageId sendResult;
              msg_metadata := None |} in
         MessageService.store message ;;;
         ThreadService.updateLastMessage (threadId thread) message
       else ret tt) ;;;
      (* 4. Update Lark card with result *)
      LarkNotificationService.updateMessageStatus env thread sendResult ;;;
      ret sendResult
  end.

Definition updateThreadStatus (tid : string) (st : ThreadStatus) : M unit :=
  ThreadService.updateStatus tid st.

Definition assignThread (tid assigneeId assigneeName : string) : M unit :=
  ThreadService.assign tid assigneeId assigneeName.

End OutboundService.

(** ** [AutomationService] *)

Inductive ConditionType : Type :=
| cond_channel | cond_keyword | cond_customer_attribute | cond_time.

Inductive ConditionOperator : Type :=
| op_equals | op_contains | op_in | op_not_in.

(** [value: string | string[]]. *)
Inductive ConditionValue : Type :=
| One (s : string)
| Many (l : list string).

Record RuleCondition : Type := {
  cond_type : ConditionType;
  cond_operator : ConditionOperator;
  cond_value : ConditionValue
}.

Inductive ActionType : Type :=
| act_notify | act_assign | act_tag | act_priority | act_auto_reply.

Record RuleAction : Type := {
  act_type : ActionType;
  params : list (string * string)
}.

Record AutomationRule : Type := {
  rule_id : string;
  rule_name : string;
  enabled : bool;
  conditions : list RuleCondition;
  actions : list RuleAction
}.

Module AutomationService.

(** The rules installed by the constructor. *)
Definition loadRules (env : Env) : list AutomationRule :=
  [ {| rule_id := "vip-notification";
       rule_name := "VIP Customer Notification";
       enabled := true;
       conditions :=
         [ {| cond_type := cond_customer_attribute;
              cond_operator := op_equals;
              cond_value := One "vip:true" |} ];
       actions :=
         [ {| act_type := act_notify;
              params := [("groupId", or_str (LARK_VIP_GROUP env) "");
                         ("mention", "@all")] |};
           {| act_type := act_priority; params := [("level", "high")] |} ] |};
    {| rule_id := "urgent-keyword";
       rule_name := "Urgent Keyword Detection";
       enabled := true;
       conditions :=
         [ {| cond_type := cond_keyword;
              cond_operator := op_contains;
              cond_value := Many ["urgent"; "緊急"; "ASAP"; "クレーム"] |} ];
       actions :=
         [ {| act_type := act_priority; params := [("level", "high")] |};
           {| act_type := act_tag; params := [("tag", "urgent")] |} ] |} ].

Definition matchValue (value : string) (condition : RuleCondition) : bool :=
  match cond_operator condition with
  | op_equals =>
      match cond_value condition with
      | One s => value =? s
      | Many _ => false
      end
  | op_in =>
      match cond_value condition with
      | One _ => false
      | Many l => arr_includes l value
      end
  | op_not_in =>
      match cond_value condition with
      | One _ => false
      | Many l => negb (arr_includes l value)
      end
  | op_contains => false
  end.

Definition matchKeywords (env : Env) (content_ : string)
    (condition : RuleCondition) : bool :=
  let keywords :=
    match cond_value condition with
    | Many l => l
    | One s => [s]
    end in
  let lowerContent := toLowerCase env content_ in
  existsb (fun kw => includes lowerContent (toLowerCase env kw)) keywords.

(** [(condition.value as string).split(':')]: the cast does nothing at run
    time, and an array has no [split], so the call throws a [TypeError]
    when the value is an array.  [val] is [undefined] when the value has
    no colon. *)
Definition matchCustomerAttribute (customer : Customer)
    (condition : RuleCondition) : M bool :=
  match cond_value condition with
  | Many _ => throw (JsError "condition.value.split is not a function")
  | One s =>
      let parts := split ":" s in
      let attr := nth_error parts 0 in
      let val := nth_error parts 1 in
      match attr with
      | None => ret false
      | Some a =>
          if a =? "vip" then
            ret (Bool.eqb (isVip customer)
                   match val with
                   | Some v => v =? "true"
                   | None => false
                   end)
          else if a =? "tag" then
            ret match val with
                | Some v => arr_includes (tags customer) v
                | None => false
                end
          else ret false
      end
  end.

(** Default business hours: Mon-Fri, 9-18. *)
Definition isBusinessHours (d : Clock) : bool :=
  ((1 <=? getDay d) && (getDay d <=? 5) && (9 <=? getHours d)
   && (getHours d <? 18))%nat.

Definition matchTime (condition : RuleCondition) : M bool :=
  d <- gets clock ;;
  ret match cond_value condition with
      | One s =>
          if s =? "business_hours" then isBusinessHours d
          else negb (isBusinessHours d)
      | Many _ => negb (isBusinessHours d)
      end.

Definition evaluateCondition (env : Env) (condition : RuleCondition)
    (message : UnifiedMessage) (customer : Customer) (thread : Thread)
    : M bool :=
  match cond_type condition with
  | cond_channel =>
      ret (matchValue (ChannelType_value (msg_channel message)) condition)
  | cond_keyword => ret (matchKeywords env (content message) condition)
  | cond_customer_attribute => matchCustomerAttribute customer condition
  | cond_time => matchTime condition
  end.

(** [conditions.every(f)]: stops at the first condition that is false. *)
Fixpoint every {A : Type} (f : A -> M bool) (l : list A) : M bool :=
  match l with
  | [] => ret true
  | x :: rest =>
      b <- f x ;;
      if b then every f rest else ret false
  end.

(** The [for] loop of [evaluate] over the rules that are left, with the
    actions triggered so far. *)
Fixpoint evaluateLoop (env : Env) (rules : list AutomationRule)
    (message : UnifiedMessage) (customer : Customer) (thread : Thread)
    (triggeredActions : list RuleAction) : M (list RuleAction) :=
  match rules with
  | [] => ret triggeredActions
  | rule :: rest =>
      if negb (enabled rule)
      then evaluateLoop env rest message customer thread triggeredActions
      else
        conditionsMet <-
          every (fun condition =>
                   evaluateCondition env condition message customer thread)
                (conditions rule) ;;
        if conditionsMet
        then evaluateLoop env rest message customer thread
               (triggeredActions ++ actions rule)
        else evaluateLoop env rest message customer thread triggeredActions
  end.

(** [evaluate] with [this.rules] made explicit. *)
Definition evaluateRules (env : Env) (rules : list AutomationRule)
    (message : UnifiedMessage) (customer : Customer) (thread : Thread)
    : M (list RuleAction) :=
  evaluateLoop env rules message customer thread [].

Definition evaluate (env : Env) (message : UnifiedMessage)
    (customer : Customer) (thread : Thread) : M (list RuleAction) :=
  evaluateRules env (loadRules env) message customer thread.

End AutomationService.

(** * The statements of the specification, and sample data *)

(** The status stored for a thread, and for a message. *)
Definition storedThreadStatus (tid : string) (w : World) : option ThreadStatus :=
  option_map status (ddb_get threadId tid (threads w)).

Definition storedMessageStatus (mid : string) (w : World)
    : option MessageStatus :=
  option_map msg_status (ddb_get messageId mid (messages w)).

(** An outcome that is a thrown error. *)
Definition throws {A : Type} (r : Result A) : Prop :=
  match r with
  | Ok _ => False
  | Throw _ => True
  end.

(** "closed is terminal": a request to move a closed thread to open or to
    pending is rejected and the stored status stays closed. *)
Definition closedIsTerminal : Prop :=
  forall (tid : string) (requested : ThreadStatus) (w : World),
    storedThreadStatus tid w = Some closed ->
    requested = open \/ requested = pending ->
    throws (fst (ThreadService.updateStatus tid requested w)) /\
    storedThreadStatus tid (snd (ThreadService.updateStatus tid requested w))
    = Some closed.

(** "a message status never regresses", in the instance the
    specification names: a message whose status is sent, or any later
    one, is never put back to pending. *)
Definition messageStatusMonotonic : Prop :=
  forall (mid : string) (requested before : MessageStatus) (w : World),
    storedMessageStatus mid w = Some before ->
    before <> msg_pending ->
    storedMessageStatus mid (snd (MessageService.updateStatus mid requested w))
    <> Some msg_pending.

Module Sample.

Definition noon : Clock :=
  {| toISOString := "2025-12-05T03:00:00.000Z"; getHours := 12; getDay := 5 |}.

(** ASCII lower-casing, for the sample environment. *)
Definition lowerAscii (a : ascii) : ascii :=
  let n := nat_of_ascii a in
  if (65 <=? n)%nat && (n <=? 90)%nat then ascii_of_nat (n + 32) else a.

Fixpoint lower (s : string) : string :=
  match s with
  | EmptyString => EmptyString
  | String a s' => String (lowerAscii a) (lower s')
  end.

Definition sentTo (externalId : string) : SendResult :=
  {| success := true; res_messageId := None;
     res_externalMessageId := Some externalId; error := None;
     res_timestamp := "2025-12-05T03:00:01.000Z" |}.

(** An environment in which the Lark SDK and the Twilio client throw. *)
Definition env : Env :=
  {| uuid_at := fun n => ("uuid-" ++ String (ascii_of_nat (48 + n)) "")%string;
     LARK_DEFAULT_GROUP_ID := Some "oc_default";
     LARK_VIP_GROUP := None;
     im_message_create := fun _ _ => Throw (JsError "lark unavailable");
     im_message_patch := fun _ _ => Throw (JsError "lark unavailable");
     twilio_sendMessage := fun _ _ _ => Throw (JsError "socket hang up");
     meta_sendMessage := fun _ _ _ => Ok (sentTo "X1");
     linkedin_sendMessage := fun _ _ => Ok (sentTo "L1");
     toLowerCase := lower |}.

Definition empty : World :=
  {| customers := []; threads := []; messages := []; uuid_ix := 0;
     clock := noon; providerCalls := [] |}.

Definition thread1 (ch : ChannelType) (st : ThreadStatus) : Thread :=
  {| threadId := "t-1"; thr_customerId := "c-1"; channel := ch;
     externalConversationId := Some "CH1"; status := st;
     assignedTo := None; assignedToName := None;
     larkGroupId := None; larkMessageId := None; subject := None;
     lastMessageAt := None; lastMessagePreview := None;
     unreadCount := 0; thr_metadata := None;
     createdAt := "2025-12-01T00:00:00.000Z";
     updatedAt := "2025-12-01T00:00:00.000Z" |}.

Definition message1 (st : MessageStatus) : UnifiedMessage :=
  {| messageId := "m-1"; msg_threadId := "t-1"; msg_customerId := "c-1";
     msg_channel := SMS; direction := outbound; content := "hi back";
     contentType := text; attachments := None; senderId := "op-1";
     senderName := Some "Operator"; senderAvatar := None;
     timestamp := "2025-12-01T00:00:00.000Z"; msg_status := st;
     externalMessageId := Some "X1"; msg_metadata := None |}.

(** A world with one thread on channel [ch] in status [st], and one
    outbound message in status [mst]. *)
Definition world (ch : ChannelType) (st : ThreadStatus) (mst : MessageStatus)
    : World :=
  {| customers := []; threads := [thread1 ch st]; messages := [message1 mst];
     uuid_ix := 0; clock := noon; providerCalls := [] |}.

End Sample.

(** The customer stored under an id, as [getById] maps it. *)
Definition storedCustomer (cid : string) (w : World) : option Customer :=
  option_map CustomerRepository.mapToCustomer
    (ddb_get customer_id cid (customers w)).

(** The customer has an identifier of the same type and value. *)
Definition owns (c : Customer) (identifier : CustomerIdentifier) : bool :=
  existsb (sameIdentifier identifier) (identifiers c).

(** "attaching an identifier owned by a different customer fails": for
    two distinct stored customers, [a] owning the identifier,
    [addIdentifier] on [b] throws and leaves [b]'s identifiers as they
    were. *)
Definition identifierConflictRaised : Prop :=
  forall (a b : string) (identifier : CustomerIdentifier) (w : World)
         (ca cb : Customer),
    a <> b ->
    storedCustomer a w = Some ca -> storedCustomer b w = Some cb ->
    owns ca identifier = true ->
    throws (fst (CustomerService.addIdentifier b identifier w)) /\
    option_map identifiers
      (storedCustomer b (snd (CustomerService.addIdentifier b identifier w)))
    = Some (identifiers cb).

Module SampleCustomers.

Definition phone : CustomerIdentifier :=
  {| id_type := "phone"; id_value := "+81900000001"; id_channel := SMS;
     verified := true |}.

Definition mail : CustomerIdentifier :=
  {| id_type := "email"; id_value := "b@example.com"; id_channel := EMAIL;
     verified := true |}.

Definition customer (cid name : string) (ids : list CustomerIdentifier)
    (vip : bool) : Customer :=
  {| customerId := cid; displayName := Some name; avatarUrl := None;
     identifiers := ids; tags := []; notes := None; isVip := vip;
     cust_metadata := None;
     cust_createdAt := Some "2025-12-01T00:00:00.000Z";
     cust_updatedAt := Some "2025-12-01T00:00:00.000Z" |}.

(** A phone number nobody holds in the sample world. *)
Definition phone2 : CustomerIdentifier :=
  {| id_type := "phone"; id_value := "+81900000002"; id_channel := SMS;
     verified := false |}.

Definition alice : Customer := customer "c-A" "Alice" [phone] false.
Definition bob : Customer := customer "c-B" "Bob" [mail] false.

(** Alice owns the phone number, Bob owns the mail address. *)
Definition world : World :=
  {| customers :=
       [CustomerRepository.mainItem alice; CustomerRepository.mainItem bob];
     threads := []; messages := []; uuid_ix := 0; clock := Sample.noon;
     providerCalls := [] |}.

(** [{ customerId: 'c-Z', isVip: true, updatedAt: '1970-...' }]. *)
Definition moveAndPromote : CustomerUpdates :=
  {| upd_customerId := Some "c-Z"; upd_displayName := None;
     upd_avatarUrl := None; upd_identifiers := None; upd_tags := None;
     upd_notes := None; upd_isVip := Some true; upd_metadata := None;
     upd_createdAt := None;
     upd_updatedAt := Some "1970-01-01T00:00:00.000Z" |}.

End SampleCustomers.

(** What the provider client mapped to the thread's channel answers to
    the reply, when the [switch] reaches one of the three clients. *)
Definition providerAnswer (env : Env) (thread : Thread)
    (request : OutboundMessageRequest) : option (Result SendResult) :=
  match CHANNEL_PROVIDERS (channel thread) with
  | twilio =>
      Some (twilio_sendMessage env thread (req_content request)
              (req_attachments request))
  | meta =>
      Some (meta_sendMessage env thread (req_content request)
              (req_attachments request))
  | linkedin => Some (linkedin_sendMessage env thread (req_content request))
  | direct => None
  end.

(** The call [sendReply] makes on that client. *)
Definition providerCallOf (thread : Thread) (request : OutboundMessageRequest)
    : ProviderCall :=
  {| call_provider := CHANNEL_PROVIDERS (channel thread);
     call_thread := thread;
     call_content := req_content request;
     call_attachments :=
       match CHANNEL_PROVIDERS (channel thread) with
       | linkedin => None
       | _ => req_attachments request
       end |}.

(** A failed [SendResult] with the given error text. *)
Definition failedResult (text_ : string) (at_ : string) : SendResult :=
  {| success := false; res_messageId := None; res_externalMessageId := None;
     error := Some text_; res_timestamp := at_ |}.

(** "every channel is dispatched to its provider": for every stored
    thread, [sendReply] makes exactly one send call, on the provider the
    table maps the thread's channel to. *)
Definition everyChannelDispatched : Prop :=
  forall (env : Env) (request : OutboundMessageRequest) (w : World)
         (t : Thread),
    ddb_get threadId (req_threadId request) (threads w) = Some t ->
    exists call,
      providerCalls (snd (OutboundService.sendReply env request w))
      = call :: providerCalls w /\
      call_provider call = CHANNEL_PROVIDERS (channel t).

Module SampleReply.

Definition reply (tid : string) : OutboundMessageRequest :=
  {| req_threadId := tid; req_content := "hi back"; req_contentType := None;
     req_attachments := None; operatorId := "op-1";
     operatorName := "Operator" |}.

End SampleReply.

(** A condition evaluates to true. *)
Definition holds (env : Env) (message : UnifiedMessage) (customer : Customer)
    (thread : Thread) (w : World) (condition : RuleCondition) : bool :=
  match
    fst (AutomationService.evaluateCondition env condition message customer
           thread w)
  with
  | Ok true => true
  | _ => false
  end.

(** An enabled rule all of whose conditions evaluate to true. *)
Definition fires (env : Env) (message : UnifiedMessage) (customer : Customer)
    (thread : Thread) (w : World) (rule : AutomationRule) : bool :=
  enabled rule && forallb (holds env message customer thread w) (conditions rule).

(** The result of [evaluate] in the words of the specification: the
    action lists of the rules that fire, concatenated in rule-list
    order. *)
Definition firedActions (env : Env) (rules : list AutomationRule)
    (message : UnifiedMessage) (customer : Customer) (thread : Thread)
    (w : World) : list RuleAction :=
  concat (map actions (filter (fires env message customer thread w) rules)).

(** The cast [condition.value as string] is respected: a
    [customer_attribute] condition carries a single string. *)
Definition attributeIsString (condition : RuleCondition) : bool :=
  match cond_type condition, cond_value condition with
  | cond_customer_attribute, Many _ => false
  | _, _ => true
  end.

(** A disabled rule is never looked at; an enabled rule is well formed
    when its conditions respect the cast. *)
Definition wellFormed (rule : AutomationRule) : bool :=
  negb (enabled rule) || forallb attributeIsString (conditions rule).

(** "for every rule list, [evaluate] returns the fired actions". *)
Definition evaluateAccumulatesAlways : Prop :=
  forall (env : Env) (rules : list AutomationRule) (message : UnifiedMessage)
         (customer : Customer) (thread : Thread) (w : World),
    AutomationService.evaluateRules env rules message customer thread w
    = (Ok (firedActions env rules message customer thread w), w).

Module SampleRules.

Definition high : RuleAction :=
  {| act_type := act_priority; params := [("level", "high")] |}.

(** The rule of scenario 5: [{customer_attribute vip:true}] gives
    [{priority: high}]. *)
Definition vipRule (acts : list RuleAction) : AutomationRule :=
  {| rule_id := "vip"; rule_name := "VIP"; enabled := true;
     conditions :=
       [ {| cond_type := cond_customer_attribute;
            cond_operator := op_equals;
            cond_value := One "vip:true" |} ];
     actions := acts |}.

(** A rule the declared type allows: a [customer_attribute] condition
    whose value is an array. *)
Definition arrayRule : AutomationRule :=
  {| rule_id := "vip-array"; rule_name := "VIP"; enabled := true;
     conditions :=
       [ {| cond_type := cond_customer_attribute;
            cond_operator := op_in;
            cond_value := Many ["vip:true"] |} ];
     actions := [high] |}.

Definition vipCustomer : Customer :=
  SampleCustomers.customer "c-V" "Vera" [SampleCustomers.phone] true.

End SampleRules.

(** The condition [{type: 'customer_attribute', operator: 'equals',
    value: 'vip:true'}]. *)
Definition vipCondition : RuleCondition :=
  {| cond_type := cond_customer_attribute; cond_operator := op_equals;
     cond_value := One "vip:true" |}.

(** The group a notification goes to:
    [thread.larkGroupId || this.defaultGroupId]. *)
Definition notificationGroup (env : Env) (thread : Thread) : string :=
  or_str (larkGroupId thread) (LarkNotificationService.defaultGroupId env).

(** What a notification may leave behind: nothing, or the Lark ids
    recorded on the thread [stored] by [setLarkInfo]. *)
Definition larkRecorded (stored : Thread) (w w' : World) : Prop :=
  w' = w \/
  exists groupId larkId,
    w' = with_threads
           (ddb_put threadId
              (setLark stored groupId larkId (toISOString (clock w)))
              (threads w)) w.

(** The items the query of [findByIdentifier] returns. *)
Definition identifierHits (type : IdentifierType) (value : string) (w : World)
    : list CustomerItem :=
  ddb_query (CustomerRepository.identifierKey type value) (fun _ => true) 1
    (customers w).

(** The items the query of [findActiveByCustomerAndChannel] returns. *)
Definition activeThreadHits (cid : string) (ch : ChannelType) (w : World)
    : list Thread :=
  ddb_query (fun t => thr_customerId t =? cid)
    (fun t => ChannelType_eqb (channel t) ch
              && negb (ThreadStatus_eqb (status t) closed))
    1 (threads w).

(** The world after steps 3 and 4: the message stored and the stored
    thread updated with it. *)
Definition afterInbound (m : UnifiedMessage) (stored : Thread) (w : World)
    : World :=
  with_threads
    (ddb_put threadId (setLastMessage stored m (toISOString (clock w)))
       (threads w))
    (with_messages (ddb_put messageId m (messages w))
       (with_uuid_ix (S (uuid_ix w)) w)).

(** The thread with the Lark ids the notification recorded, if any. *)
Definition withLark (recorded : option (string * string)) (t : Thread)
    (now_ : string) : Thread :=
  match recorded with
  | None => t
  | Some (groupId, larkId) => setLark t groupId larkId now_
  end.

(** The world at the end of [processMessage]: the message stored, the
    stored thread updated with it and, when the notification recorded
    them, carrying the Lark ids. *)
Definition inboundDone (recorded : option (string * string))
    (m : UnifiedMessage) (stored : Thread) (w : World) : World :=
  with_threads
    (ddb_put threadId
       (withLark recorded
          (setLastMessage stored m (toISOString (clock w)))
          (toISOString (clock w)))
       (threads w))
    (with_messages (ddb_put messageId m (messages w))
       (with_uuid_ix (S (uuid_ix w)) w)).

(** The ids the generator hands out next are not in use: the next one is
    no customer id and no thread refers to it, the one after is no thread
    id, and the two after that are distinct and are no message ids. *)
Record freshIds (env : Env) (w : World) : Prop := {
  fresh_customer :
    ddb_get customer_id (uuid_at env (uuid_ix w)) (customers w) = None;
  fresh_customer_threads :
    filter (fun t => thr_customerId t =? uuid_at env (uuid_ix w)) (threads w)
    = [];
  fresh_thread :
    ddb_get threadId (uuid_at env (1 + uuid_ix w)) (threads w) = None;
  fresh_message :
    ddb_get messageId (uuid_at env (2 + uuid_ix w)) (messages w) = None;
  fresh_next_message :
    ddb_get messageId (uuid_at env (3 + uuid_ix w)) (messages w) = None;
  fresh_distinct :
    uuid_at env (3 + uuid_ix w) <> uuid_at env (2 + uuid_ix w)
}.


(** "every tag action of the rule engine is applied": after
    [processMessage], each tag named by an action that [evaluate] returns
    for the persisted message, customer and thread is among the tags of
    the stored customer. *)
Definition tagActionsApplied : Prop :=
  forall (env : Env) (raw : RawMessage) (w w1 w' : World)
         (m : UnifiedMessage) (c : Customer) (t : Thread)
         (acts : list RuleAction),
    InboundService.persistInbound env raw w = (Ok (m, c, t), w1) ->
    InboundService.processMessage env raw w = (Ok tt, w') ->
    AutomationService.evaluate env m c t w1 = (Ok acts, w1) ->
    forall a tg,
      In a acts -> act_type a = act_tag -> In ("tag", tg) (params a) ->
      exists c',
        storedCustomer (customerId c) w' = Some c' /\ In tg (tags c').

Module SampleInbound.

(** The inbound message of scenario 1. *)
Definition inboundWith (text_ : string) : RawMessage :=
  {| raw_channel := SMS; identifierType := "phone";
     identifierValue := "+81900000001"; raw_content := Some text_;
     raw_contentType := None; raw_attachments := None;
     raw_senderId := None; raw_senderName := None; raw_senderAvatar := None;
     raw_timestamp := None; raw_externalMessageId := None;
     raw_metadata := None |}.

Definition hello : RawMessage := inboundWith "hello".
Definition urgent : RawMessage := inboundWith "URGENT: call me back".


Definition at_ : string := toISOString Sample.noon.

Definition customer (raw : RawMessage) : Customer :=
  newCustomer (customerInput raw) "uuid-0" at_.

Definition thread (raw : RawMessage) : Thread :=
  newThread (threadInput raw (customer raw)) "uuid-1" at_.

Definition message (raw : RawMessage) : UnifiedMessage :=
  inboundMessage raw (customer raw) (thread raw) "uuid-2" at_.

(** The empty world after one inbound message. *)
Definition after (raw : RawMessage) : World :=
  {| customers := [CustomerRepository.mainItem (customer raw)];
     threads := [setLastMessage (thread raw) (message raw) at_];
     messages := [message raw];
     uuid_ix := 3; clock := Sample.noon; providerCalls := [] |}.

End SampleInbound.

(** The customer, the thread and the message that the first message of an
    unknown identifier creates. *)
Definition firstCustomer (env : Env) (raw : RawMessage) (w : World)
    : Customer :=
  newCustomer (customerInput raw) (uuid_at env (uuid_ix w))
    (toISOString (clock w)).

Definition firstThread (env : Env) (raw : RawMessage) (w : World) : Thread :=
  newThread (threadInput raw (firstCustomer env raw w))
    (uuid_at env (1 + uuid_ix w)) (toISOString (clock w)).

Definition firstMessage (env : Env) (raw : RawMessage) (w : World)
    : UnifiedMessage :=
  inboundMessage raw (firstCustomer env raw w) (firstThread env raw w)
    (uuid_at env (2 + uuid_ix w)) (toISOString (clock w)).

(** The thread as it is stored once that message is processed. *)
Definition firstThreadStored (recorded : option (string * string))
    (env : Env) (raw : RawMessage) (w : World) : Thread :=
  withLark recorded
    (setLastMessage (firstThread env raw w) (firstMessage env raw w)
       (toISOString (clock w)))
    (toISOString (clock w)).

Definition afterFirst (recorded : option (string * string)) (env : Env)
    (raw : RawMessage) (w : World) : World :=
  {| customers :=
       customers w ++ [CustomerRepository.mainItem (firstCustomer env raw w)];
     threads := threads w ++ [firstThreadStored recorded env raw w];
     messages := messages w ++ [firstMessage env raw w];
     uuid_ix := 3 + uuid_ix w;
     clock := clock w;
     providerCalls := providerCalls w |}.




(** The action lists of the two rules the constructor installs, and the
    test of the keyword rule on a message text. *)
Definition vipActions (env : Env) : list RuleAction :=
  [ {| act_type := act_notify;
       params := [("groupId", or_str (LARK_VIP_GROUP env) "");
                  ("mention", "@all")] |};
    {| act_type := act_priority; params := [("level", "high")] |} ].

Definition urgentActions : list RuleAction :=
  [ {| act_type := act_priority; params := [("level", "high")] |};
    {| act_type := act_tag; params := [("tag", "urgent")] |} ].

Definition mentionsUrgent (env : Env) (text_ : string) : bool :=
  existsb (fun kw => includes (toLowerCase env text_) (toLowerCase env kw))
    ["urgent"; "緊急"; "ASAP"; "クレーム"].

(** A run of [updateLastMessage] calls on one thread, one per message. *)
Fixpoint updateLastMessages (tid : string) (ms : list UnifiedMessage)
    : M unit :=
  match ms with
  | [] => ret tt
  | m :: rest =>
      ThreadService.updateLastMessage tid m ;;; updateLastMessages tid rest
  end.

(** The number of inbound messages of a list. *)
Definition inboundCount (ms : list UnifiedMessage) : nat :=
  length (filter (fun m => match direction m with
                           | inbound => true
                           | outbound => false
                           end) ms).

Module SampleRouting.

Definition thread (tid : string) (ch : ChannelType) (st : ThreadStatus)
    : Thread :=
  {| threadId := tid; thr_customerId := "c-A"; channel := ch;
     externalConversationId := None; status := st;
     assignedTo := None; assignedToName := None;
     larkGroupId := None; larkMessageId := None; subject := None;
     lastMessageAt := None; lastMessagePreview := None;
     unreadCount := 0; thr_metadata := None;
     createdAt := "2025-12-01T00:00:00.000Z";
     updatedAt := "2025-12-01T00:00:00.000Z" |}.

(** Alice and Bob, with the given threads of Alice. *)
Definition world (ts : list Thread) : World :=
  {| customers := customers SampleCustomers.world; threads := ts;
     messages := []; uuid_ix := 0; clock := Sample.noon;
     providerCalls := [] |}.

(** Alice's only thread, on sms, is closed. *)
Definition closedOnly : World := world [thread "t-A1" SMS closed].

(** Alice has an open email thread, walked first, and an open sms
    thread. *)
Definition twoChannels : World :=
  world [thread "t-A0" EMAIL open; thread "t-A1" SMS open].

End SampleRouting.

(** The message literal of step 3 of [sendReply]. *)
Definition outboundMessage (request : OutboundMessageRequest) (thread : Thread)
    (sendResult : SendResult) (mid now_ : string) : UnifiedMessage :=
  {| messageId := mid;
     msg_threadId := threadId thread;
     msg_customerId := thr_customerId thread;
     msg_channel := channel thread;
     direction := outbound;
     content := req_content request;
     contentType := or_default (req_contentType request) text;
     attachments := req_attachments request;
     senderId := operatorId request;
     senderName := Some (operatorName request);
     senderAvatar := None;
     timestamp := now_;
     msg_status := msg_sent;
     externalMessageId := res_externalMessageId sendResult;
     msg_metadata := None |}.

(** ** The provider clients

    Each client is given the one call it makes on its provider's API, and
    the time [new Date().toISOString()] shows when it builds its
    result. *)

(** A successful [SendResult] with the provider's message id. *)
Definition sentResult (externalId : option string) (at_ : string)
    : SendResult :=
  {| success := true; res_messageId := None;
     res_externalMessageId := externalId; error := None;
     res_timestamp := at_ |}.

(** [attachments?.length]: there is at least one attachment. *)
Definition hasAttachments (atts : option (list MessageAttachment)) : bool :=
  match atts with
  | Some (_ :: _) => true
  | _ => false
  end.

(** [thread.metadata?.[key]]. *)
Definition metadataField (key : string) (md : option Metadata)
    : option string :=
  match md with
  | None => None
  | Some l => option_map snd (find (fun p => fst p =? key) l)
  end.

Module TwilioClient.

(** [messageData]: the body, and the attachment urls as [mediaSid] when
    there are attachments. *)
Record MessageData : Type := {
  body : string;
  mediaSid : option (list string)
}.

(** [conversations(sid).messages.create(messageData)]: the [sid] of the
    created message, or a thrown error. *)
Definition MessagesCreate : Type := string -> MessageData -> Result string.

Definition sendMessage (create : MessagesCreate) (at_ : string)
    (thread : Thread) (text_ : string)
    (atts : option (list MessageAttachment)) : Result SendResult :=
  match externalConversationId thread with
  | None => Ok (failedResult "No conversation ID" at_)
  | Some conversationSid =>
      if conversationSid =? "" then Ok (failedResult "No conversation ID" at_)
      else
        let messageData :=
          {| body := text_;
             mediaSid :=
               if hasAttachments atts
               then Some (map att_url (or_default atts []))
               else None |} in
        match create conversationSid messageData with
        | Ok sid => Ok (sentResult (Some sid) at_)
        | Throw error_ => Ok (failedResult (message_of error_) at_)
        end
  end.

End TwilioClient.

(** What [axios.post] gives: the id field of [response.data], or a
    rejection with an [AxiosError], whose [message] is a string and whose
    [response] may carry the provider's error message. *)
Inductive AxiosOutcome : Type :=
| Resolved (id : option string)
| Rejected (message : string) (responseMessage : option string).

Module MetaClient.

(** [payload.message]: the text, or, when there are attachments, the
    first attachment alone. *)
Inductive Message : Type :=
| Text (text_ : string)
| Attachment (isImage : bool) (url : string).

Record Payload : Type := {
  recipient : string;
  message : Message
}.

Definition Post : Type := Payload -> AxiosOutcome.

Definition payloadMessage (text_ : string)
    (atts : option (list MessageAttachment)) : Message :=
  match atts with
  | Some (first :: _) =>
      Attachment
        match att_type first with
        | image => true
        | _ => false
        end
        (att_url first)
  | _ => Text text_
  end.

Definition sendMessage (post : Post) (at_ : string) (thread : Thread)
    (text_ : string) (atts : option (list MessageAttachment))
    : Result SendResult :=
  let recipientId :=
    or_opt (metadataField "recipientPsid" (thr_metadata thread))
      (externalConversationId thread) in
  if negb (truthy recipientId) then Ok (failedResult "No recipient ID" at_)
  else
    match post {| recipient := or_str recipientId "";
                  message := payloadMessage text_ atts |} with
    | Resolved id => Ok (sentResult id at_)
    | Rejected message_ responseMessage =>
        (* error.response?.data?...message || error.message *)
        Ok (failedResult (or_str responseMessage message_) at_)
    end.

End MetaClient.

Module LinkedInClient.

(** [{ recipients: [recipientUrn], subject: 'Message from support',
    body: content }]. *)
Record Payload : Type := {
  recipients : list string;
  subject_ : string;
  body : string
}.

Definition Post : Type := Payload -> AxiosOutcome.

Definition sendMessage (post : Post) (at_ : string) (thread : Thread)
    (text_ : string) : Result SendResult :=
  let recipientUrn :=
    or_opt (metadataField "recipientUrn" (thr_metadata thread))
      (externalConversationId thread) in
  if negb (truthy recipientUrn) then Ok (failedResult "No recipient URN" at_)
  else
    match post {| recipients := [or_str recipientUrn ""];
                  subject_ := "Message from support";
                  body := text_ |} with
    | Resolved id => Ok (sentResult id at_)
    | Rejected message_ responseMessage =>
        (* error.response?.data?...message || error.message *)
        Ok (failedResult (or_str responseMessage message_) at_)
    end.

End LinkedInClient.

(** The environment in which the three provider operations are the
    repository's own clients. *)
Definition withClients (env : Env) (create : TwilioClient.MessagesCreate)
    (metaPost : MetaClient.Post) (linkedInPost : LinkedInClient.Post)
    (at_ : string) : Env :=
  {| uuid_at := uuid_at env;
     LARK_DEFAULT_GROUP_ID := LARK_DEFAULT_GROUP_ID env;
     LARK_VIP_GROUP := LARK_VIP_GROUP env;
     im_message_create := im_message_create env;
     im_message_patch := im_message_patch env;
     twilio_sendMessage := TwilioClient.sendMessage create at_;
     meta_sendMessage := MetaClient.sendMessage metaPost at_;
     linkedin_sendMessage := LinkedInClient.sendMessage linkedInPost at_;
     toLowerCase := toLowerCase env |}.

(** ** Replies and notifications, end to end *)

(** The destination each client reads off the thread: the conversation
    sid, [metadata.recipientPsid || externalConversationId], or
    [metadata.recipientUrn || externalConversationId]. *)
Definition replyDestination (t : Thread) : option string :=
  match CHANNEL_PROVIDERS (channel t) with
  | twilio => externalConversationId t
  | meta =>
      or_opt (metadataField "recipientPsid" (thr_metadata t))
        (externalConversationId t)
  | linkedin =>
      or_opt (metadataField "recipientUrn" (thr_metadata t))
        (externalConversationId t)
  | direct => None
  end.

(** The error text of each client when that destination is missing. *)
Definition noDestinationError (p : ChannelProvider) : string :=
  match p with
  | twilio => "No conversation ID"
  | meta => "No recipient ID"
  | linkedin => "No recipient URN"
  | direct => "Unsupported channel"
  end.

(** The Lark ids [sendMessageNotification] records on the thread: those of
    the card the SDK created, when the thread passed in has no Lark
    message id yet. *)
Definition larkIdsRecorded (env : Env) (m : UnifiedMessage) (c : Customer)
    (t : Thread) : option (string * string) :=
  if notificationGroup env t =? "" then None
  else
    match im_message_create env (notificationGroup env t)
            (buildMessageCard m c t) with
    | Ok mid =>
        if truthy mid && negb (truthy (larkMessageId t))
        then Some (notificationGroup env t, or_str mid "")
        else None
    | Throw _ => None
    end.

Module SampleLark.

(** The sample environment with a Lark SDK that creates every card as
    [om_2]. *)
Definition env : Env :=
  {| uuid_at := uuid_at Sample.env;
     LARK_DEFAULT_GROUP_ID := Some "oc_default";
     LARK_VIP_GROUP := None;
     im_message_create := fun _ _ => Ok (Some "om_2");
     im_message_patch := fun _ _ => Ok tt;
     twilio_sendMessage := twilio_sendMessage Sample.env;
     meta_sendMessage := meta_sendMessage Sample.env;
     linkedin_sendMessage := linkedin_sendMessage Sample.env;
     toLowerCase := toLowerCase Sample.env |}.

(** Alice's open sms thread, already carrying the ids of a first card. *)
Definition notified : Thread :=
  setLark (SampleRouting.thread "t-A1" SMS open) "oc_vip" "om_1"
    "2025-12-02T00:00:00.000Z".

End SampleLark.

(** ** [lark/webhooks/cardAction.ts] and the outbound handler

    The operators act on a thread through the buttons of its Lark card.
    The request body is JSON; its fields are taken to be strings, as the
    cards of [buildMessageCard] and Lark write them. *)

(** The object in [action.value]: [{ action, threadId, customerId }]. *)
Record ActionValue : Type := {
  val_action : option string;
  val_threadId : option string;
  val_customerId : option string
}.

(** The parsed request body.  [action_value] is absent when
    [action.value] is falsy; otherwise it is what [JSON.parse(action.value)]
    and the reading of its fields give: the object, or a thrown error (a
    [SyntaxError], or the [TypeError] of reading a field of [null]).
    [reply_content] is [action.form_value?.reply_content]; [user_id] and
    [operator_name] are the fields of [body.operator]. *)
Record LarkBody : Type := {
  body_type : option string;
  challenge : option string;
  action_value : option (Result ActionValue);
  input_value : option string;
  reply_content : option string;
  selected_value : option string;
  selected_text : option string;
  user_id : option string;
  operator_name : option string
}.

Inductive LarkActionType : Type :=
| lark_reply | lark_assign | lark_status_change | lark_customer_info
| lark_unknown.

Definition LarkActionType_eqb (a b : LarkActionType) : bool :=
  match a, b with
  | lark_reply, lark_reply | lark_assign, lark_assign
  | lark_status_change, lark_status_change
  | lark_customer_info, lark_customer_info
  | lark_unknown, lark_unknown => true
  | _, _ => false
  end.

(** [newStatus] is only ever written as ['closed'] or ['pending']. *)
Record LarkAction : Type := {
  la_type : LarkActionType;
  la_threadId : string;
  la_customerId : option string;
  la_content : option string;
  la_operatorId : string;
  la_operatorName : string;
  newStatus : option ThreadStatus;
  assigneeId : option string;
  assigneeName : option string
}.

Module LarkWebhookHandler.

Definition baseAction (body : LarkBody) (value : ActionValue) : LarkAction :=
  {| la_type := lark_unknown;
     la_threadId := or_str (val_threadId value) "";
     la_customerId := val_customerId value;
     la_content := None;
     la_operatorId := or_str (user_id body) "";
     la_operatorName := or_str (operator_name body) "Unknown";
     newStatus := None;
     assigneeId := None;
     assigneeName := None |}.

(** [{ ...baseAction, type, ... }]. *)
Definition withType (base : LarkAction) (type : LarkActionType)
    (text_ : option string) (st : option ThreadStatus)
    (aid aname : option string) : LarkAction :=
  {| la_type := type;
     la_threadId := la_threadId base;
     la_customerId := la_customerId base;
     la_content := text_;
     la_operatorId := la_operatorId base;
     la_operatorName := la_operatorName base;
     newStatus := st;
     assigneeId := aid;
     assigneeName := aname |}.

(** The [switch (value.action)]. *)
Definition actionOf (body : LarkBody) (value : ActionValue) : LarkAction :=
  let base := baseAction body value in
  let chosen (name : string) :=
    match val_action value with
    | Some a => a =? name
    | None => false
    end in
  if chosen "reply" then
    withType base lark_reply
      (Some (or_str (or_opt (input_value body) (reply_content body)) ""))
      None None None
  else if chosen "assign" then
    withType base lark_assign None None
      (Some (or_str (selected_value body) ""))
      (Some (or_str (selected_text body) ""))
  else if chosen "close" then
    withType base lark_status_change None (Some closed) None None
  else if chosen "pending" then
    withType base lark_status_change None (Some pending) None None
  else if chosen "customer_info" then
    withType base lark_customer_info None None None None
  else base.

Definition parseAction (body : LarkBody) : Result LarkAction :=
  match action_value body with
  | None =>
      Ok (actionOf body
            {| val_action := None; val_threadId := None;
               val_customerId := None |})
  | Some (Ok value) => Ok (actionOf body value)
  | Some (Throw e) => Throw e
  end.

End LarkWebhookHandler.

(** What the handler passes to [JSON.stringify] as the response body. *)
Inductive ResponseBody : Type :=
| ChallengeBody (value : option string)
| SendResultBody (result : SendResult)
| SuccessBody
| ProcessedBody (processed : nat)
| InvalidSignatureBody
| InternalErrorBody.

Record HttpResponse : Type := {
  statusCode : nat;
  resp_body : ResponseBody
}.

Module OutboundHandler.

(** The request of a reply action. *)
Definition replyRequest (action : LarkAction) : OutboundMessageRequest :=
  {| req_threadId := la_threadId action;
     req_content := or_str (la_content action) "";
     req_contentType := Some text;
     req_attachments := None;
     operatorId := la_operatorId action;
     operatorName := la_operatorName action |}.

Definition success200 : HttpResponse :=
  {| statusCode := 200; resp_body := SuccessBody |}.

(** [parsed] is what [JSON.parse(event.body || '{}')] and the first read
    of the body give: the body, or a thrown error. *)
Definition handler (env : Env) (parsed : Result LarkBody) : M HttpResponse :=
  try_catch
    (body <- lift_result parsed ;;
     (* Lark event verification *)
     if match body_type body with
        | Some ty => ty =? "url_verification"
        | None => false
        end
     then ret {| statusCode := 200;
                 resp_body := ChallengeBody (challenge body) |}
     else
       (* Parse Lark event *)
       action <- lift_result (LarkWebhookHandler.parseAction body) ;;
       if LarkActionType_eqb (la_type action) lark_reply then
         result <- OutboundService.sendReply env (replyRequest action) ;;
         ret {| statusCode := 200; resp_body := SendResultBody result |}
       else
         match (if LarkActionType_eqb (la_type action) lark_status_change
                then newStatus action else None) with
         | Some st =>
             OutboundService.updateThreadStatus (la_threadId action) st ;;;
             ret success200
         | None =>
             if LarkActionType_eqb (la_type action) lark_assign
                && truthy (assigneeId action)
                && truthy (assigneeName action)
             then
               OutboundService.assignThread (la_threadId action)
                 (or_str (assigneeId action) "")
                 (or_str (assigneeName action) "") ;;;
               ret success200
             else ret success200
         end)
    (fun _ => ret {| statusCode := 500; resp_body := InternalErrorBody |}).

End OutboundHandler.

Module SampleCard.

(** The request Lark sends when operator [op-1] presses the button
    [name] on the card of thread [tid], with the given input text and
    selection. *)
Definition press (name tid : string) (input : option string)
    (selection : option (string * string)) : LarkBody :=
  {| body_type := None; challenge := None;
     action_value :=
       Some (Ok {| val_action := Some name; val_threadId := Some tid;
                   val_customerId := None |});
     input_value := input; reply_content := None;
     selected_value := option_map fst selection;
     selected_text := option_map snd selection;
     user_id := Some "op-1"; operator_name := Some "Operator" |}.

(** A request that carries no action. *)
Definition noAction : LarkBody :=
  {| body_type := None; challenge := None; action_value := None;
     input_value := None; reply_content := None;
     selected_value := None; selected_text := None;
     user_id := Some "op-1"; operator_name := Some "Operator" |}.

End SampleCard.

(** ** [twilio/webhook.ts] and the inbound handler *)

(** [URLSearchParams]: the name/value pairs of the form body, in order. *)
Definition Params : Type := list (string * string).

(** [body.get(name)]: the value of the first pair with that name, or
    [null]. *)
Definition params_get (body : Params) (name : string) : option string :=
  option_map snd (find (fun p => fst p =? name) body).

Module TwilioWebhookHandler.

(** [sourceMap[source.toLowerCase()] || ChannelType.WEBCHAT].  The lookup
    on the object literal also finds what every object inherits: for the
    keys [constructor] and [__proto__], the only inherited names without
    an upper-case letter, it yields a value that is no channel type,
    [None] here. *)
Definition detectChannel (env : Env) (source : string)
    : option ChannelType :=
  let key := toLowerCase env source in
  if key =? "line" then Some LINE
  else if key =? "sms" then Some SMS
  else if key =? "whatsapp" then Some WHATSAPP
  else if key =? "chat" then Some WEBCHAT
  else if (key =? "constructor") || (key =? "__proto__") then None
  else Some WEBCHAT.

Definition getIdentifierType (channel : ChannelType) : string :=
  match channel with
  | LINE => "line_id"
  | SMS => "phone"
  | WHATSAPP => "phone"
  | WEBCHAT => "webchat_id"
  | EMAIL => "email"
  | FACEBOOK => "fb_psid"
  | INSTAGRAM => "ig_igsid"
  | LINKEDIN => "linkedin_urn"
  end.

(** The template literal [`${name}${i}`]. *)
Definition indexed (name : string) (i : nat) : string :=
  name ++ NilEmpty.string_of_uint (Nat.to_uint i).

(** The attachment pushed for index [i]. *)
Definition mediaAt (body : Params) (i : nat) : MessageAttachment :=
  {| att_type :=
       match params_get body (indexed "MediaContentType" i) with
       | Some ty => if startsWith "image" ty then image else file
       | None => file
       end;
     att_url := or_str (params_get body (indexed "MediaUrl" i)) "";
     att_filename := None;
     att_mimeType := params_get body (indexed "MediaContentType" i);
     att_size := None |}.

(** The [while] loop of [parseMedia], from index [i] on, with a bound on
    the number of tests. *)
Fixpoint parseMediaFrom (fuel : nat) (body : Params) (i : nat)
    : list MessageAttachment :=
  match fuel with
  | 0 => []
  | S fuel' =>
      if truthy (params_get body (indexed "MediaContentType" i))
      then mediaAt body i :: parseMediaFrom fuel' body (S i)
      else []
  end.

(** Each test that succeeds finds another parameter of the body, so one
    test more than the body has pairs is enough for the loop to end. *)
Definition parseMedia (body : Params) : list MessageAttachment :=
  parseMediaFrom (S (length body)) body 0.

(** A field of the metadata object.  Where the parameter is absent the
    source stores [null]; the bag leaves the field out. *)
Definition metadataEntry (key : string) (value : option string) : Metadata :=
  match value with
  | Some v => [(key, v)]
  | None => []
  end.

(** The message pushed for an [onMessageAdded] event on the channel
    detected. *)
Definition messageOf (body : Params) (now_ : string) (channel : ChannelType)
    : RawMessage :=
  {| raw_channel := channel;
     identifierType := getIdentifierType channel;
     identifierValue := or_str (params_get body "Author") "";
     raw_content := Some (or_str (params_get body "Body") "");
     raw_contentType :=
       Some (if truthy (params_get body "MediaContentType0")
             then image else text);
     raw_attachments := Some (parseMedia body);
     raw_senderId := Some (or_str (params_get body "Author") "");
     raw_senderName := or_opt (params_get body "ParticipantSid") None;
     raw_senderAvatar := None;
     raw_timestamp := Some (or_str (params_get body "DateCreated") now_);
     raw_externalMessageId := Some (or_str (params_get body "MessageSid") "");
     raw_metadata :=
       Some (metadataEntry "conversationSid"
               (params_get body "ConversationSid")
             ++ metadataEntry "participantSid"
                  (params_get body "ParticipantSid")
             ++ metadataEntry "attributes" (params_get body "Attributes")) |}.

(** [parseEvent].  An element [None] is a message whose [channel] is no
    channel type; its [identifierType], looked up under that value, is
    [undefined]. *)
Definition parseEvent (env : Env) (body : Params)
    : M (list (option RawMessage)) :=
  if match params_get body "EventType" with
     | Some eventType => eventType =? "onMessageAdded"
     | None => false
     end
  then
    now_ <- now ;;
    ret [option_map (messageOf body now_)
           (detectChannel env (or_str (params_get body "Source") ""))]
  else ret [].

End TwilioWebhookHandler.

Module InboundHandler.

(** The loop over [normalizedMessages]: a message is processed when both
    its [identifierType] and its [identifierValue] are truthy. *)
Fixpoint processEach (env : Env) (messages : list (option RawMessage))
    : M unit :=
  match messages with
  | [] => ret tt
  | message :: rest =>
      match message with
      | Some raw =>
          if truthy (Some (identifierType raw))
             && truthy (Some (identifierValue raw))
          then InboundService.processMessage env raw
          else ret tt
      | None => ret tt
      end ;;;
      processEach env rest
  end.

(** The handler on a path that includes ['/twilio'].  [signatureValid] is
    what [verifySignature] finds for the event (an event with its
    headers, as API Gateway delivers it), and [body] the parameters of
    [event.body]. *)
Definition twilio (env : Env) (signatureValid : bool) (body : Params)
    : M HttpResponse :=
  try_catch
    (if negb signatureValid
     then ret {| statusCode := 401; resp_body := InvalidSignatureBody |}
     else
       normalizedMessages <- TwilioWebhookHandler.parseEvent env body ;;
       (* Process each message *)
       processEach env normalizedMessages ;;;
       ret {| statusCode := 200;
              resp_body := ProcessedBody (length normalizedMessages) |})
    (fun _ => ret {| statusCode := 500; resp_body := InternalErrorBody |}).

End InboundHandler.

Module SampleTwilio.

(** The form body of an [onMessageAdded] event. *)
Definition added (source author sid text_ : string)
    (extra : Params) : Params :=
  [("EventType", "onMessageAdded"); ("Source", source);
   ("Author", author); ("MessageSid", sid); ("Body", text_);
   ("ConversationSid", "CH1")] ++ extra.

(** A voice note, and a picture that follows a gap. *)
Definition voiceNote : Params :=
  added "WhatsApp" "+81900000001" "IM1" ""
    [("MediaContentType0", "audio/ogg");
     ("MediaUrl0", "https://media.example/0");
     ("MediaContentType2", "image/png");
     ("MediaUrl2", "https://media.example/2")].

End SampleTwilio.

Module SampleText.

Fixpoint repeated (n : nat) (s : string) : string :=
  match n with
  | 0 => ""
  | S n' => s ++ repeated n' s
  end.

(** [n] times the keyword of two characters, six bytes in UTF-8. *)
Definition kinkyu (n : nat) : string := repeated n "緊急".

(** A text of 45 characters in 133 bytes. *)
Definition short45 : string := kinkyu 22 ++ "!".

(** The outbound message of the sample with another text. *)
Definition saying (text_ : string) : UnifiedMessage :=
  {| messageId := "m-2"; msg_threadId := "t-1"; msg_customerId := "c-1";
     msg_channel := SMS; direction := outbound; content := text_;
     contentType := text; attachments := None; senderId := "op-1";
     senderName := Some "Operator"; senderAvatar := None;
     timestamp := "2025-12-01T00:00:00.000Z"; msg_status := msg_sent;
     externalMessageId := None; msg_metadata := None |}.

End SampleText.

(** * Properties *)

Unset Implicit Arguments.

(** ** The tables *)

Section TableFacts.

Variable Item : Type.
Variable key : Item -> string.

Lemma ddb_get_key (k : string) (tbl : list Item) (x : Item) :
  ddb_get key k tbl = Some x -> key x = k /\ In x tbl.
Proof.
  unfold ddb_get. intros H. apply find_some in H. destruct H as [Hin Hk].
  apply String.eqb_eq in Hk. auto.
Qed.

Lemma ddb_get_put_same (it : Item) (tbl : list Item) :
  ddb_get key (key it) (ddb_put key it tbl) = Some it.
Proof.
  unfold ddb_get. induction tbl as [|x rest IH]; simpl.
  - now rewrite String.eqb_refl.
  - destruct (key x =? key it) eqn:E; simpl.
    + now rewrite String.eqb_refl.
    + now rewrite E.
Qed.

Lemma ddb_get_put_other (k : string) (it : Item) (tbl : list Item) :
  key it <> k ->
  ddb_get key k (ddb_put key it tbl) = ddb_get key k tbl.
Proof.
  unfold ddb_get. intros Hne. apply String.eqb_neq in Hne.
  induction tbl as [|x rest IH]; simpl.
  - now rewrite Hne.
  - destruct (key x =? key it) eqn:E; simpl.
    + apply String.eqb_eq in E. rewrite E, Hne. reflexivity.
    + destruct (key x =? k); auto.
Qed.

Lemma ddb_put_fresh (it : Item) (tbl : list Item) :
  ddb_get key (key it) tbl = None -> ddb_put key it tbl = tbl ++ [it].
Proof.
  unfold ddb_get. induction tbl as [|x rest IH]; simpl; intros H.
  - reflexivity.
  - destruct (key x =? key it); [discriminate|]. now rewrite IH.
Qed.

Lemma ddb_get_last (k : string) (x : Item) (tbl : list Item) :
  ddb_get key k tbl = None ->
  ddb_get key k (tbl ++ [x]) = if key x =? k then Some x else None.
Proof.
  unfold ddb_get. induction tbl as [|y rest IH]; simpl; intros H.
  - reflexivity.
  - destruct (key y =? k); [discriminate|]. auto.
Qed.


Lemma ddb_get_present (x : Item) (tbl : list Item) :
  In x tbl -> exists y, ddb_get key (key x) tbl = Some y.
Proof.
  unfold ddb_get. induction tbl as [|y rest IH]; simpl; intros H.
  - contradiction.
  - destruct (key y =? key x) eqn:E; [eauto|].
    destruct H as [->|H]; [now rewrite String.eqb_refl in E | auto].
Qed.

End TableFacts.

Lemma In_firstn (Item : Type) (n : nat) (l : list Item) (x : Item) :
  In x (firstn n l) -> In x l.
Proof.
  revert l. induction n as [|n IH]; intros [|y l]; simpl; try tauto.
  intros [->|H]; auto.
Qed.

Lemma ddb_query_In (Item : Type) (kc flt : Item -> bool) (n : nat)
    (tbl : list Item) (x : Item) :
  In x (ddb_query kc flt n tbl) -> In x tbl /\ kc x = true /\ flt x = true.
Proof.
  unfold ddb_query. intros H. apply filter_In in H. destruct H as [H Hf].
  apply In_firstn in H. apply filter_In in H. tauto.
Qed.

Lemma map_key_put (Item : Type) (key : Item -> string) (it x : Item)
    (tbl : list Item) :
  ddb_get key (key it) tbl = Some x ->
  map key (ddb_put key it tbl) = map key tbl.
Proof.
  unfold ddb_get. induction tbl as [|y rest IH]; simpl; intros H.
  - discriminate.
  - destruct (key y =? key it) eqn:E; simpl.
    + apply String.eqb_eq in E. now rewrite E.
    + now rewrite IH.
Qed.

(** ** Thread status updates *)

Lemma ThreadService_withThread_found (tid : string)
    (assign : Thread -> string -> Thread) (w : World) (t : Thread) :
  ddb_get threadId tid (threads w) = Some t ->
  ThreadService.withThread tid assign w
  = (Ok tt,
     with_threads
       (ddb_put threadId (assign t (toISOString (clock w))) (threads w)) w).
Proof.
  intros H. unfold ThreadService.withThread, ThreadService.getById,
    ThreadRepository.getById, bind, gets. simpl. rewrite H. reflexivity.
Qed.

Lemma ThreadService_withThread_absent (tid : string)
    (assign : Thread -> string -> Thread) (w : World) :
  ddb_get threadId tid (threads w) = None ->
  ThreadService.withThread tid assign w
  = (Throw (JsError "Thread not found"), w).
Proof.
  intros H. unfold ThreadService.withThread, ThreadService.getById,
    ThreadRepository.getById, bind, gets. simpl. rewrite H. reflexivity.
Qed.

(** C2, as the code has it: [updateStatus] enforces no state machine.  On
    every stored thread, closed ones included, it stores whatever status
    is requested and returns normally; it throws ['Thread not found'],
    and writes nothing, only when the thread is not stored. *)
Theorem updateStatus_overwrites (tid : string) (requested : ThreadStatus)
    (w : World) :
  (forall t : Thread,
     ddb_get threadId tid (threads w) = Some t ->
     exists w',
       ThreadService.updateStatus tid requested w = (Ok tt, w') /\
       ddb_get threadId tid (threads w')
       = Some (setStatus t requested (toISOString (clock w))) /\
       storedThreadStatus tid w' = Some requested) /\
  (ddb_get threadId tid (threads w) = None ->
   ThreadService.updateStatus tid requested w
   = (Throw (JsError "Thread not found"), w)).
Proof.
  split.
  - intros t H. unfold ThreadService.updateStatus.
    rewrite (ThreadService_withThread_found _ _ _ _ H).
    eexists. split; [reflexivity|].
    destruct (ddb_get_key _ _ _ _ _ H) as [Hk _].
    assert (G : ddb_get threadId tid
                  (ddb_put threadId
                     (setStatus t requested (toISOString (clock w)))
                     (threads w))
                = Some (setStatus t requested (toISOString (clock w)))).
    { rewrite <- Hk at 1.
      change (threadId t) with
        (threadId (setStatus t requested (toISOString (clock w)))).
      apply ddb_get_put_same. }
    unfold storedThreadStatus. simpl. rewrite G. auto.
  - intros H. unfold ThreadService.updateStatus.
    apply (ThreadService_withThread_absent _ _ _ H).
Qed.

(** On the sample world: the closed thread [t-1] is reopened, and the
    unknown thread [t-9] is reported as not found. *)
Lemma updateStatus_overwrites_closed :
  (ddb_get threadId "t-1" (threads (Sample.world SMS closed msg_sent))
   = Some (Sample.thread1 SMS closed) /\
   exists w',
     ThreadService.updateStatus "t-1" open (Sample.world SMS closed msg_sent)
     = (Ok tt, w') /\
     ddb_get threadId "t-1" (threads w')
     = Some (setStatus (Sample.thread1 SMS closed) open
               (toISOString (clock (Sample.world SMS closed msg_sent)))) /\
     storedThreadStatus "t-1" w' = Some open) /\
  (ddb_get threadId "t-9" (threads (Sample.world SMS closed msg_sent)) = None /\
   ThreadService.updateStatus "t-9" open (Sample.world SMS closed msg_sent)
   = (Throw (JsError "Thread not found"), Sample.world SMS closed msg_sent)).
Proof.
  split.
  - split; [reflexivity|].
    apply (proj1 (updateStatus_overwrites "t-1" open
                    (Sample.world SMS closed msg_sent))
             (Sample.thread1 SMS closed)).
    reflexivity.
  - split; [reflexivity|].
    apply (proj2 (updateStatus_overwrites "t-9" open
                    (Sample.world SMS closed msg_sent))).
    reflexivity.
Defined.

(** C2, counterexample: a stored closed thread is reopened by
    [updateStatus]; the call returns normally and the stored status is
    open afterwards, so closed is not terminal. *)
Lemma updateStatus_reopens_closed_thread :
  storedThreadStatus "t-1" (Sample.world SMS closed msg_sent) = Some closed /\
  fst (ThreadService.updateStatus "t-1" open (Sample.world SMS closed msg_sent))
  = Ok tt /\
  storedThreadStatus "t-1"
    (snd (ThreadService.updateStatus "t-1" open
            (Sample.world SMS closed msg_sent)))
  = Some open /\
  ~ closedIsTerminal.
Proof.
  repeat split; try reflexivity.
  intros claim.
  destruct (claim "t-1" open (Sample.world SMS closed msg_sent)
              eq_refl (or_introl eq_refl)) as [Hthrow _].
  exact Hthrow.
Qed.

(** ** Message status updates *)

(** C7, as the code has it: [MessageService.updateStatus] stores whatever
    status is requested on every stored message, with no order between
    the old status and the new one; it throws ['Message not found'], and
    writes nothing, only when the message is not stored. *)
Theorem message_updateStatus_overwrites (mid : string)
    (requested : MessageStatus) (w : World) :
  (forall m : UnifiedMessage,
     ddb_get messageId mid (messages w) = Some m ->
     exists w',
       MessageService.updateStatus mid requested w = (Ok tt, w') /\
       ddb_get messageId mid (messages w')
       = Some (setMessageStatus m requested) /\
       storedMessageStatus mid w' = Some requested) /\
  (ddb_get messageId mid (messages w) = None ->
   MessageService.updateStatus mid requested w
   = (Throw (JsError "Message not found"), w)).
Proof.
  unfold MessageService.updateStatus, MessageService.getById,
    MessageRepository.getById, MessageRepository.save, bind, gets, modify.
  split.
  - intros m H. rewrite H. eexists. split; [reflexivity|].
    destruct (ddb_get_key _ _ _ _ _ H) as [Hk _].
    assert (G : ddb_get messageId mid
                  (ddb_put messageId (setMessageStatus m requested)
                     (messages w))
                = Some (setMessageStatus m requested)).
    { rewrite <- Hk at 1.
      change (messageId m) with (messageId (setMessageStatus m requested)).
      apply ddb_get_put_same. }
    unfold storedMessageStatus. simpl. rewrite G. auto.
  - intros H. rewrite H. reflexivity.
Qed.

(** On the sample world: the sent message [m-1] is put back to pending,
    and the unknown message [m-9] is reported as not found. *)
Lemma message_updateStatus_overwrites_sent :
  (ddb_get messageId "m-1" (messages (Sample.world SMS open msg_sent))
   = Some (Sample.message1 msg_sent) /\
   exists w',
     MessageService.updateStatus "m-1" msg_pending
       (Sample.world SMS open msg_sent) = (Ok tt, w') /\
     ddb_get messageId "m-1" (messages w')
     = Some (setMessageStatus (Sample.message1 msg_sent) msg_pending) /\
     storedMessageStatus "m-1" w' = Some msg_pending) /\
  (ddb_get messageId "m-9" (messages (Sample.world SMS open msg_sent)) = None /\
   MessageService.updateStatus "m-9" msg_pending
     (Sample.world SMS open msg_sent)
   = (Throw (JsError "Message not found"), Sample.world SMS open msg_sent)).
Proof.
  split.
  - split; [reflexivity|].
    apply (proj1 (message_updateStatus_overwrites "m-1" msg_pending
                    (Sample.world SMS open msg_sent))
             (Sample.message1 msg_sent)).
    reflexivity.
  - split; [reflexivity|].
    apply (proj2 (message_updateStatus_overwrites "m-9" msg_pending
                    (Sample.world SMS open msg_sent))).
    reflexivity.
Defined.

(** C7, counterexample: a stored message whose status is sent is moved
    back to pending by [updateStatus], and a delivered one likewise: the
    status regresses. *)
Lemma message_status_regresses :
  storedMessageStatus "m-1" (Sample.world SMS open msg_sent) = Some msg_sent /\
  MessageService.updateStatus "m-1" msg_pending (Sample.world SMS open msg_sent)
  = (Ok tt, Sample.world SMS open msg_pending) /\
  MessageService.updateStatus "m-1" msg_pending
    (Sample.world SMS open msg_delivered)
  = (Ok tt, Sample.world SMS open msg_pending) /\
  ~ messageStatusMonotonic.
Proof.
  repeat split; try reflexivity.
  intros claim.
  apply (claim "m-1" msg_pending msg_sent (Sample.world SMS open msg_sent)
           eq_refl).
  - discriminate.
  - reflexivity.
Qed.

(** ** Customer identifiers *)

Lemma append_nonempty_neq (s t : string) (a : ascii) :
  (s ++ String a t)%string <> s.
Proof.
  induction s as [|c s IH]; simpl.
  - discriminate.
  - intros H. injection H as H. auto.
Qed.

Lemma mapToCustomer_mainItem (c : Customer) :
  CustomerRepository.mapToCustomer (CustomerRepository.mainItem c) = c.
Proof. destruct c; reflexivity. Qed.

(** The index records of a customer never touch its main record. *)
Lemma saveIndexRecords_other (cid : string) (ids : list CustomerIdentifier)
    (w : World) :
  fst (CustomerRepository.saveIndexRecords cid ids w) = Ok tt /\
  ddb_get customer_id cid
    (customers (snd (CustomerRepository.saveIndexRecords cid ids w)))
  = ddb_get customer_id cid (customers w).
Proof.
  revert w. induction ids as [|id rest IH]; intros w; simpl.
  - auto.
  - unfold bind, CustomerRepository.putItem, modify.
    destruct (IH (with_customers
                    (ddb_put customer_id (CustomerRepository.indexItem cid id)
                       (customers w)) w)) as [Hok Hget].
    split; [exact Hok|].
    rewrite Hget. simpl. apply ddb_get_put_other.
    unfold CustomerRepository.indexItem. simpl. apply append_nonempty_neq.
Qed.

Lemma CustomerRepository_save_stored (c : Customer) (w : World) :
  fst (CustomerRepository.save c w) = Ok tt /\
  storedCustomer (customerId c) (snd (CustomerRepository.save c w)) = Some c.
Proof.
  unfold CustomerRepository.save, bind, CustomerRepository.putItem, modify.
  destruct (saveIndexRecords_other (customerId c) (tl (identifiers c))
              (with_customers
                 (ddb_put customer_id (CustomerRepository.mainItem c)
                    (customers w)) w)) as [Hok Hget].
  split; [exact Hok|].
  unfold storedCustomer. rewrite Hget. simpl.
  change (customerId c) with (customer_id (CustomerRepository.mainItem c)).
  rewrite ddb_get_put_same. simpl. now rewrite mapToCustomer_mainItem.
Qed.

Lemma storedCustomer_id (cid : string) (w : World) (c : Customer) :
  storedCustomer cid w = Some c -> customerId c = cid.
Proof.
  unfold storedCustomer. destruct (ddb_get customer_id cid (customers w)) eqn:E;
    simpl; [|discriminate].
  intros H. injection H as <-. simpl. now apply ddb_get_key in E.
Qed.

Lemma addIdentifier_owned (cid : string) (identifier : CustomerIdentifier)
    (w : World) (c : Customer) :
  storedCustomer cid w = Some c -> owns c identifier = true ->
  CustomerService.addIdentifier cid identifier w = (Ok tt, w).
Proof.
  unfold storedCustomer, owns, CustomerService.addIdentifier,
    CustomerService.getById, CustomerRepository.getById, bind, gets.
  intros -> ->. reflexivity.
Qed.

Lemma addIdentifier_not_owned (cid : string) (identifier : CustomerIdentifier)
    (w : World) (c : Customer) :
  storedCustomer cid w = Some c -> owns c identifier = false ->
  CustomerService.addIdentifier cid identifier w
  = CustomerRepository.save
      (pushIdentifier c identifier (toISOString (clock w))) w.
Proof.
  unfold storedCustomer, owns, CustomerService.addIdentifier,
    CustomerService.getById, CustomerRepository.getById, bind, gets.
  intros -> ->. reflexivity.
Qed.

(** C5, as the code has it: [addIdentifier] looks only at the identifiers
    of the customer it is called for.  When that customer does not hold
    the identifier yet, the call returns normally and the identifier is
    appended to the stored customer, whoever else owns it. *)
Theorem addIdentifier_appends (cid : string) (identifier : CustomerIdentifier)
    (w : World) (c : Customer) :
  storedCustomer cid w = Some c ->
  owns c identifier = false ->
  exists w',
    CustomerService.addIdentifier cid identifier w = (Ok tt, w') /\
    option_map identifiers (storedCustomer cid w')
    = Some (identifiers c ++ [identifier]).
Proof.
  intros Hc Hown.
  rewrite (addIdentifier_not_owned _ _ _ _ Hc Hown).
  pose proof (storedCustomer_id _ _ _ Hc) as Hid.
  destruct (CustomerRepository_save_stored
              (pushIdentifier c identifier (toISOString (clock w))) w)
    as [Hok Hst].
  simpl in Hst. rewrite Hid in Hst.
  destruct (CustomerRepository.save
              (pushIdentifier c identifier (toISOString (clock w))) w)
    as [r w'] eqn:E.
  simpl in Hok, Hst. subst r. exists w'. split; [reflexivity|].
  rewrite Hst. reflexivity.
Qed.

(** On the sample customers: Bob does not hold the phone number, and gets
    it appended. *)
Lemma addIdentifier_appends_to_bob :
  storedCustomer "c-B" SampleCustomers.world = Some SampleCustomers.bob /\
  owns SampleCustomers.bob SampleCustomers.phone = false /\
  exists w',
    CustomerService.addIdentifier "c-B" SampleCustomers.phone
      SampleCustomers.world = (Ok tt, w') /\
    option_map identifiers (storedCustomer "c-B" w')
    = Some (identifiers SampleCustomers.bob ++ [SampleCustomers.phone]).
Proof.
  split; [reflexivity|]. split; [reflexivity|].
  apply (addIdentifier_appends "c-B" SampleCustomers.phone
           SampleCustomers.world SampleCustomers.bob); reflexivity.
Defined.

(** C5, counterexample: Alice owns the phone number; attaching it to Bob
    returns normally and Bob's stored identifiers now hold it too. *)
Lemma addIdentifier_no_conflict :
  storedCustomer "c-A" SampleCustomers.world = Some SampleCustomers.alice /\
  owns SampleCustomers.alice SampleCustomers.phone = true /\
  fst (CustomerService.addIdentifier "c-B" SampleCustomers.phone
         SampleCustomers.world) = Ok tt /\
  option_map identifiers
    (storedCustomer "c-B"
       (snd (CustomerService.addIdentifier "c-B" SampleCustomers.phone
               SampleCustomers.world)))
  = Some [SampleCustomers.mail; SampleCustomers.phone] /\
  ~ identifierConflictRaised.
Proof.
  repeat split; try reflexivity.
  intros claim.
  assert (Hne : "c-A" <> "c-B") by discriminate.
  destruct (claim "c-A" "c-B" SampleCustomers.phone SampleCustomers.world
              SampleCustomers.alice SampleCustomers.bob
              Hne eq_refl eq_refl eq_refl) as [Hthrow _].
  exact Hthrow.
Qed.

(** C9: when the customer already holds an identifier of that type and
    value, [addIdentifier] returns normally and changes nothing, so the
    stored identifiers gain no duplicate, and two calls in a row leave the
    world exactly as one call does. *)
Theorem addIdentifier_idempotent (cid : string)
    (identifier : CustomerIdentifier) (w : World) (c : Customer) :
  storedCustomer cid w = Some c ->
  owns c identifier = true ->
  CustomerService.addIdentifier cid identifier w = (Ok tt, w) /\
  (CustomerService.addIdentifier cid identifier ;;;
   CustomerService.addIdentifier cid identifier) w
  = CustomerService.addIdentifier cid identifier w /\
  storedCustomer cid
    (snd ((CustomerService.addIdentifier cid identifier ;;;
           CustomerService.addIdentifier cid identifier) w))
  = Some c.
Proof.
  intros Hc Hown.
  pose proof (addIdentifier_owned _ _ _ _ Hc Hown) as H.
  unfold bind. rewrite H. rewrite H. auto.
Qed.

(** On the sample customers: Alice already holds the phone number. *)
Lemma addIdentifier_idempotent_alice :
  storedCustomer "c-A" SampleCustomers.world = Some SampleCustomers.alice /\
  owns SampleCustomers.alice SampleCustomers.phone = true /\
  CustomerService.addIdentifier "c-A" SampleCustomers.phone
    SampleCustomers.world = (Ok tt, SampleCustomers.world) /\
  (CustomerService.addIdentifier "c-A" SampleCustomers.phone ;;;
   CustomerService.addIdentifier "c-A" SampleCustomers.phone)
    SampleCustomers.world
  = CustomerService.addIdentifier "c-A" SampleCustomers.phone
      SampleCustomers.world /\
  storedCustomer "c-A"
    (snd ((CustomerService.addIdentifier "c-A" SampleCustomers.phone ;;;
           CustomerService.addIdentifier "c-A" SampleCustomers.phone)
            SampleCustomers.world))
  = Some SampleCustomers.alice.
Proof.
  split; [reflexivity|]. split; [reflexivity|].
  apply (addIdentifier_idempotent "c-A" SampleCustomers.phone
           SampleCustomers.world SampleCustomers.alice); reflexivity.
Defined.

(** ** Outbound replies *)

Lemma dispatch_answer (env : Env) (t : Thread)
    (request : OutboundMessageRequest) (w : World) :
  OutboundService.dispatch env t request w
  = match providerAnswer env t request with
    | Some outcome =>
        (outcome,
         with_providerCalls (providerCallOf t request :: providerCalls w) w)
    | None => (Ok (failedResult "Unsupported channel" (toISOString (clock w))), w)
    end.
Proof.
  unfold OutboundService.dispatch, providerAnswer, providerCallOf,
    OutboundService.callProvider.
  destruct (CHANNEL_PROVIDERS (channel t)); reflexivity.
Qed.

(** The card update after a send never throws and writes nothing. *)
Lemma updateMessageStatus_inert (env : Env) (t : Thread) (r : SendResult)
    (w : World) :
  LarkNotificationService.updateMessageStatus env t r w = (Ok tt, w).
Proof.
  unfold LarkNotificationService.updateMessageStatus.
  destruct (negb (truthy (larkMessageId t))); [reflexivity|].
  unfold LarkClient.updateCard, bind, try_catch, lift_result, ret.
  destruct (im_message_patch env _ r); reflexivity.
Qed.

Lemma sendReply_absent (env : Env) (request : OutboundMessageRequest)
    (w : World) :
  ddb_get threadId (req_threadId request) (threads w) = None ->
  OutboundService.sendReply env request w
  = (Ok (failedResult "Thread not found" (toISOString (clock w))), w).
Proof.
  intros H.
  unfold OutboundService.sendReply, ThreadService.getById,
    ThreadRepository.getById, bind, gets.
  rewrite H. reflexivity.
Qed.

Lemma sendReply_provider_throws (env : Env) (request : OutboundMessageRequest)
    (w : World) (t : Thread) (e : Thrown) :
  ddb_get threadId (req_threadId request) (threads w) = Some t ->
  providerAnswer env t request = Some (Throw e) ->
  OutboundService.sendReply env request w
  = (Ok (failedResult (message_of e) (toISOString (clock w))),
     with_providerCalls (providerCallOf t request :: providerCalls w) w).
Proof.
  intros H A.
  unfold OutboundService.sendReply, ThreadService.getById,
    ThreadRepository.getById, bind, gets, try_catch.
  rewrite H, dispatch_answer, A. simpl.
  rewrite updateMessageStatus_inert. reflexivity.
Qed.

(** C6: a reply that fails persists nothing.  For a thread id that is not
    stored, [sendReply] returns [{success: false, error: 'Thread not
    found'}] and leaves the whole world as it was: no provider call, no
    message.  When the provider's send call throws, the error is caught
    and returned as [{success: false, error}] with the message of the
    thrown [Error]; the messages and the threads are as before. *)
Theorem sendReply_failure_persists_nothing (env : Env)
    (request : OutboundMessageRequest) (w : World) :
  (ddb_get threadId (req_threadId request) (threads w) = None ->
   exists at_,
     OutboundService.sendReply env request w
     = (Ok (failedResult "Thread not found" at_), w)) /\
  (forall (t : Thread) (e : Thrown),
     ddb_get threadId (req_threadId request) (threads w) = Some t ->
     providerAnswer env t request = Some (Throw e) ->
     exists at_ w',
       OutboundService.sendReply env request w
       = (Ok (failedResult (message_of e) at_), w') /\
       (forall msg, e = JsError msg -> message_of e = msg) /\
       messages w' = messages w /\
       threads w' = threads w /\
       ddb_get threadId (req_threadId request) (threads w') = Some t).
Proof.
  split.
  - intros H. eexists. apply sendReply_absent, H.
  - intros t e H A. do 2 eexists.
    split; [apply (sendReply_provider_throws env request w t e H A)|].
    split; [intros msg ->; reflexivity|].
    simpl. auto.
Qed.

(** On the sample world: a reply to the unknown thread [t-9], and a reply
    to the sms thread [t-1] while the Twilio client throws. *)
Lemma sendReply_failure_persists_nothing_sample :
  (ddb_get threadId "t-9" (threads (Sample.world SMS open msg_sent)) = None /\
   exists at_,
     OutboundService.sendReply Sample.env (SampleReply.reply "t-9")
       (Sample.world SMS open msg_sent)
     = (Ok (failedResult "Thread not found" at_),
        Sample.world SMS open msg_sent)) /\
  (ddb_get threadId "t-1" (threads (Sample.world SMS open msg_sent))
   = Some (Sample.thread1 SMS open) /\
   providerAnswer Sample.env (Sample.thread1 SMS open) (SampleReply.reply "t-1")
   = Some (Throw (JsError "socket hang up")) /\
   exists at_ w',
     OutboundService.sendReply Sample.env (SampleReply.reply "t-1")
       (Sample.world SMS open msg_sent)
     = (Ok (failedResult (message_of (JsError "socket hang up")) at_), w') /\
     (forall msg, JsError "socket hang up" = JsError msg ->
                  message_of (JsError "socket hang up") = msg) /\
     messages w' = messages (Sample.world SMS open msg_sent) /\
     threads w' = threads (Sample.world SMS open msg_sent) /\
     ddb_get threadId "t-1" (threads w') = Some (Sample.thread1 SMS open)).
Proof.
  split.
  - split; [reflexivity|].
    apply (proj1 (sendReply_failure_persists_nothing Sample.env
                    (SampleReply.reply "t-9") (Sample.world SMS open msg_sent))).
    reflexivity.
  - split; [reflexivity|]. split; [reflexivity|].
    apply (proj2 (sendReply_failure_persists_nothing Sample.env
                    (SampleReply.reply "t-1") (Sample.world SMS open msg_sent))
             (Sample.thread1 SMS open) (JsError "socket hang up"));
      reflexivity.
Defined.

Lemma sendReply_provider_returns (env : Env) (request : OutboundMessageRequest)
    (w : World) (t : Thread) (r : SendResult) :
  ddb_get threadId (req_threadId request) (threads w) = Some t ->
  providerAnswer env t request = Some (Ok r) ->
  exists w',
    OutboundService.sendReply env request w = (Ok r, w') /\
    providerCalls w' = providerCallOf t request :: providerCalls w.
Proof.
  intros H A.
  unfold OutboundService.sendReply, ThreadService.getById,
    ThreadRepository.getById, bind, gets, try_catch.
  rewrite H, dispatch_answer, A.
  destruct (success r) eqn:S.
  - unfold uuidv4, now, gets, MessageService.store, MessageRepository.save,
      modify, ThreadService.updateLastMessage. simpl.
    destruct (ddb_get_key _ _ _ _ _ H) as [Hk _].
    rewrite (ThreadService_withThread_found (threadId t) _ _ t)
      by (simpl; rewrite Hk; exact H).
    rewrite updateMessageStatus_inert. eexists. split; reflexivity.
  - unfold ret. rewrite updateMessageStatus_inert.
    eexists. split; reflexivity.
Qed.

Lemma providerAnswer_none (env : Env) (t : Thread)
    (request : OutboundMessageRequest) :
  providerAnswer env t request = None <-> channel t = EMAIL.
Proof.
  unfold providerAnswer. destruct (channel t); simpl; split;
    intros H; try reflexivity; discriminate.
Qed.

(** C10, as the code has it: for a stored thread on line, sms, whatsapp,
    webchat, facebook, instagram or linkedin, [sendReply] makes exactly
    one send call, on the client the table maps the channel to, and when
    that call returns a [SendResult] it is the result of [sendReply].  For
    a thread on the email channel, mapped to [direct], no send call is
    made and the result is [{success: false, error: 'Unsupported
    channel'}]. *)
Theorem sendReply_dispatches (env : Env) (request : OutboundMessageRequest)
    (w : World) (t : Thread) :
  ddb_get threadId (req_threadId request) (threads w) = Some t ->
  (channel t <> EMAIL ->
   exists outcome,
     providerAnswer env t request = Some outcome /\
     call_provider (providerCallOf t request) = CHANNEL_PROVIDERS (channel t) /\
     providerCalls (snd (OutboundService.sendReply env request w))
     = providerCallOf t request :: providerCalls w /\
     (forall r, outcome = Ok r ->
                fst (OutboundService.sendReply env request w) = Ok r)) /\
  (channel t = EMAIL ->
   CHANNEL_PROVIDERS (channel t) = direct /\
   providerCalls (snd (OutboundService.sendReply env request w))
   = providerCalls w /\
   exists at_,
     fst (OutboundService.sendReply env request w)
     = Ok (failedResult "Unsupported channel" at_)).
Proof.
  intros H. split.
  - intros Hch.
    destruct (providerAnswer env t request) as [outcome|] eqn:A.
    + exists outcome. split; [reflexivity|]. split; [reflexivity|].
      destruct outcome as [r|e].
      * destruct (sendReply_provider_returns env request w t r H A)
          as [w' [E C]].
        rewrite E. simpl. split; [exact C|].
        intros r' Hr. now injection Hr as <-.
      * rewrite (sendReply_provider_throws env request w t e H A). simpl.
        split; [reflexivity|]. discriminate.
    + apply providerAnswer_none in A. contradiction.
  - intros Hch. split; [now rewrite Hch|].
    pose proof (proj2 (providerAnswer_none env t request) Hch) as A.
    unfold OutboundService.sendReply, ThreadService.getById,
      ThreadRepository.getById, bind, gets, try_catch.
    rewrite H, dispatch_answer, A. simpl.
    rewrite updateMessageStatus_inert. simpl. eauto.
Qed.

(** On the sample worlds: a reply on a facebook thread is one call on the
    Meta client, whose result is returned; a reply on an email thread is
    no call at all. *)
Lemma sendReply_dispatches_facebook :
  (ddb_get threadId "t-1" (threads (Sample.world FACEBOOK open msg_sent))
   = Some (Sample.thread1 FACEBOOK open) /\
   channel (Sample.thread1 FACEBOOK open) <> EMAIL /\
   exists outcome,
     providerAnswer Sample.env (Sample.thread1 FACEBOOK open)
       (SampleReply.reply "t-1") = Some outcome /\
     call_provider (providerCallOf (Sample.thread1 FACEBOOK open)
                      (SampleReply.reply "t-1"))
     = CHANNEL_PROVIDERS (channel (Sample.thread1 FACEBOOK open)) /\
     providerCalls
       (snd (OutboundService.sendReply Sample.env (SampleReply.reply "t-1")
               (Sample.world FACEBOOK open msg_sent)))
     = providerCallOf (Sample.thread1 FACEBOOK open) (SampleReply.reply "t-1")
       :: providerCalls (Sample.world FACEBOOK open msg_sent) /\
     (forall r, outcome = Ok r ->
                fst (OutboundService.sendReply Sample.env
                       (SampleReply.reply "t-1")
                       (Sample.world FACEBOOK open msg_sent)) = Ok r)) /\
  (ddb_get threadId "t-1" (threads (Sample.world EMAIL open msg_sent))
   = Some (Sample.thread1 EMAIL open) /\
   channel (Sample.thread1 EMAIL open) = EMAIL /\
   CHANNEL_PROVIDERS (channel (Sample.thread1 EMAIL open)) = direct /\
   providerCalls
     (snd (OutboundService.sendReply Sample.env (SampleReply.reply "t-1")
             (Sample.world EMAIL open msg_sent)))
   = providerCalls (Sample.world EMAIL open msg_sent) /\
   exists at_,
     fst (OutboundService.sendReply Sample.env (SampleReply.reply "t-1")
            (Sample.world EMAIL open msg_sent))
     = Ok (failedResult "Unsupported channel" at_)).
Proof.
  assert (Hch : channel (Sample.thread1 FACEBOOK open) <> EMAIL)
    by discriminate.
  split.
  - split; [reflexivity|]. split; [exact Hch|].
    exact (proj1 (sendReply_dispatches Sample.env (SampleReply.reply "t-1")
                    (Sample.world FACEBOOK open msg_sent)
                    (Sample.thread1 FACEBOOK open) eq_refl) Hch).
  - split; [reflexivity|]. split; [reflexivity|].
    exact (proj2 (sendReply_dispatches Sample.env (SampleReply.reply "t-1")
                    (Sample.world EMAIL open msg_sent)
                    (Sample.thread1 EMAIL open) eq_refl) eq_refl).
Defined.

(** C10, counterexample: a reply on a stored email thread reaches no
    provider; the log of send calls stays empty and the result is the
    'Unsupported channel' failure. *)
Lemma sendReply_email_unsupported :
  ddb_get threadId "t-1" (threads (Sample.world EMAIL open msg_sent))
  = Some (Sample.thread1 EMAIL open) /\
  OutboundService.sendReply Sample.env (SampleReply.reply "t-1")
    (Sample.world EMAIL open msg_sent)
  = (Ok (failedResult "Unsupported channel" "2025-12-05T03:00:00.000Z"),
     Sample.world EMAIL open msg_sent) /\
  providerCalls (Sample.world EMAIL open msg_sent) = [] /\
  ~ everyChannelDispatched.
Proof.
  repeat split; try reflexivity.
  intros claim.
  destruct (claim Sample.env (SampleReply.reply "t-1")
              (Sample.world EMAIL open msg_sent)
              (Sample.thread1 EMAIL open) eq_refl) as [call [Hcalls _]].
  discriminate Hcalls.
Qed.

(** ** Automation rules *)

Section Evaluate.

Variable env : Env.
Variable message : UnifiedMessage.
Variable customer : Customer.
Variable thread : Thread.
Variable w : World.

(** A condition that respects the cast returns a boolean and leaves the
    world alone. *)
Lemma evaluateCondition_returns (condition : RuleCondition) :
  attributeIsString condition = true ->
  AutomationService.evaluateCondition env condition message customer thread w
  = (Ok (holds env message customer thread w condition), w).
Proof.
  intros H.
  assert (G : exists b,
             AutomationService.evaluateCondition env condition message
               customer thread w = (Ok b, w)).
  { unfold AutomationService.evaluateCondition.
    unfold attributeIsString in H.
    destruct (cond_type condition).
    - eexists; reflexivity.
    - eexists; reflexivity.
    - unfold AutomationService.matchCustomerAttribute.
      destruct (cond_value condition) as [s|l]; [|discriminate].
      destruct (nth_error (split ":" s) 0) as [attr|];
        [|eexists; reflexivity].
      destruct (attr =? "vip"); [eexists; reflexivity|].
      destruct (attr =? "tag"); eexists; reflexivity.
    - eexists; reflexivity. }
  destruct G as [b G]. unfold holds.
  rewrite G. simpl. destruct b; reflexivity.
Qed.

Lemma every_returns (conds : list RuleCondition) :
  forallb attributeIsString conds = true ->
  AutomationService.every
    (fun condition =>
       AutomationService.evaluateCondition env condition message customer
         thread)
    conds w
  = (Ok (forallb (holds env message customer thread w) conds), w).
Proof.
  induction conds as [|c rest IH]; simpl; intros H.
  - reflexivity.
  - apply andb_prop in H. destruct H as [Hc Hrest].
    unfold bind. rewrite (evaluateCondition_returns c Hc).
    destruct (holds env message customer thread w c); simpl; auto.
Qed.

Lemma evaluateLoop_accumulates (rules : list AutomationRule) :
  forallb wellFormed rules = true ->
  forall acc,
    AutomationService.evaluateLoop env rules message customer thread acc w
    = (Ok (acc ++ firedActions env rules message customer thread w), w).
Proof.
  unfold firedActions.
  induction rules as [|r rest IH]; simpl; intros H acc.
  - now rewrite app_nil_r.
  - apply andb_prop in H. destruct H as [Hr Hrest].
    unfold wellFormed in Hr.
    unfold fires at 1. destruct (enabled r); simpl in Hr; simpl.
    + unfold bind. rewrite (every_returns _ Hr).
      destruct (forallb (holds env message customer thread w) (conditions r));
        simpl.
      * rewrite (IH Hrest). now rewrite app_assoc.
      * apply (IH Hrest).
    + apply (IH Hrest).
Qed.

End Evaluate.

Lemma vipCondition_holds (env : Env) (message : UnifiedMessage)
    (customer : Customer) (thread : Thread) (w : World) :
  holds env message customer thread w vipCondition = isVip customer.
Proof.
  unfold holds, vipCondition, AutomationService.evaluateCondition,
    AutomationService.matchCustomerAttribute. simpl.
  destruct (isVip customer); reflexivity.
Qed.

(** C8, as the code has it: for every rule list whose enabled rules have
    [customer_attribute] conditions that carry a single string, as the
    cast in [matchCustomerAttribute] takes for granted, [evaluate] returns the
    action lists of the enabled rules all of whose conditions are true,
    concatenated in rule-list order, and changes nothing; an enabled rule
    whose only condition is [customer_attribute equals 'vip:true'] fires
    exactly when [customer.isVip] is true. *)
Theorem evaluate_accumulates (env : Env) (rules : list AutomationRule)
    (message : UnifiedMessage) (customer : Customer) (thread : Thread)
    (w : World) :
  forallb wellFormed rules = true ->
  AutomationService.evaluateRules env rules message customer thread w
  = (Ok (firedActions env rules message customer thread w), w) /\
  (forall rule,
     enabled rule = true -> conditions rule = [vipCondition] ->
     fires env message customer thread w rule = isVip customer /\
     firedActions env [rule] message customer thread w
     = if isVip customer then actions rule else []).
Proof.
  intros H. split.
  - unfold AutomationService.evaluateRules.
    now rewrite (evaluateLoop_accumulates env message customer thread w rules H).
  - intros rule He Hc.
    assert (F : fires env message customer thread w rule = isVip customer).
    { unfold fires. rewrite He, Hc. simpl. rewrite vipCondition_holds.
      now rewrite andb_true_r. }
    split; [exact F|].
    unfold firedActions. simpl. rewrite F.
    destruct (isVip customer); simpl; [apply app_nil_r | reflexivity].
Qed.

(** The rules installed by the constructor respect the cast, so
    [evaluate] itself returns their fired actions. *)
Lemma evaluate_builtin_rules (env : Env) (message : UnifiedMessage)
    (customer : Customer) (thread : Thread) (w : World) :
  AutomationService.evaluate env message customer thread w
  = (Ok (firedActions env (AutomationService.loadRules env) message customer
           thread w), w).
Proof.
  unfold AutomationService.evaluate, AutomationService.evaluateRules.
  now rewrite (evaluateLoop_accumulates env message customer thread w
                 (AutomationService.loadRules env) eq_refl).
Qed.

(** Scenario 5: the VIP rule gives its action for a VIP customer and
    nothing for Alice, who is not one. *)
Lemma evaluate_accumulates_scenario5 :
  forallb wellFormed
    [SampleRules.vipRule [SampleRules.high]; SampleRules.vipRule []] = true /\
  AutomationService.evaluateRules Sample.env
    [SampleRules.vipRule [SampleRules.high]; SampleRules.vipRule []]
    (Sample.message1 msg_delivered) SampleRules.vipCustomer
    (Sample.thread1 SMS open) Sample.empty
  = (Ok [SampleRules.high], Sample.empty) /\
  AutomationService.evaluateRules Sample.env
    [SampleRules.vipRule [SampleRules.high]; SampleRules.vipRule []]
    (Sample.message1 msg_delivered) SampleCustomers.alice
    (Sample.thread1 SMS open) Sample.empty
  = (Ok [], Sample.empty).
Proof.
  split; [reflexivity|]. split.
  - apply (evaluate_accumulates Sample.env
             [SampleRules.vipRule [SampleRules.high]; SampleRules.vipRule []]
             (Sample.message1 msg_delivered) SampleRules.vipCustomer
             (Sample.thread1 SMS open) Sample.empty).
    reflexivity.
  - apply (evaluate_accumulates Sample.env
             [SampleRules.vipRule [SampleRules.high]; SampleRules.vipRule []]
             (Sample.message1 msg_delivered) SampleCustomers.alice
             (Sample.thread1 SMS open) Sample.empty).
    reflexivity.
Defined.

(** C8, counterexample: a rule list the declared type allows, with a
    [customer_attribute] condition whose value is an array, makes
    [evaluate] throw a [TypeError] instead of returning a list. *)
Lemma evaluate_throws_on_array_attribute :
  AutomationService.evaluateRules Sample.env [SampleRules.arrayRule]
    (Sample.message1 msg_delivered) SampleRules.vipCustomer
    (Sample.thread1 SMS open) Sample.empty
  = (Throw (JsError "condition.value.split is not a function"), Sample.empty)
  /\ ~ evaluateAccumulatesAlways.
Proof.
  split; [reflexivity|].
  intros claim.
  specialize (claim Sample.env [SampleRules.arrayRule]
                (Sample.message1 msg_delivered) SampleRules.vipCustomer
                (Sample.thread1 SMS open) Sample.empty).
  discriminate claim.
Qed.

(** ** The Lark notification *)

(** Whatever the SDK does, [sendMessageNotification] returns normally
    when the thread is stored; it writes at most the Lark ids of that
    thread. *)
Lemma sendMessageNotification_returns (env : Env) (message : UnifiedMessage)
    (customer : Customer) (thread stored : Thread) (w : World) :
  ddb_get threadId (threadId thread) (threads w) = Some stored ->
  exists w',
    LarkNotificationService.sendMessageNotification env message customer
      thread w = (Ok tt, w') /\
    larkRecorded stored w w'.
Proof.
  intros H.
  unfold LarkNotificationService.sendMessageNotification.
  fold (notificationGroup env thread).
  destruct (notificationGroup env thread =? "").
  { exists w. split; [reflexivity | now left]. }
  unfold bind, LarkClient.sendInteractiveCard, try_catch, lift_result, ret.
  destruct (im_message_create env _ _) as [mid|e]; simpl.
  - destruct (truthy mid && negb (truthy (larkMessageId thread))).
    + unfold ThreadService.setLarkInfo.
      rewrite (ThreadService_withThread_found _ _ _ _ H).
      eexists. split; [reflexivity|]. right. eauto.
    + exists w. split; [reflexivity | now left].
  - exists w. split; [reflexivity | now left].
Qed.

(** When the SDK call throws, [LarkClient] catches the error and the
    notification returns normally without any write. *)
Lemma sendMessageNotification_sdk_throws (env : Env) (message : UnifiedMessage)
    (customer : Customer) (thread : Thread) (w : World) (e : Thrown) :
  im_message_create env (notificationGroup env thread)
    (buildMessageCard message customer thread) = Throw e ->
  LarkNotificationService.sendMessageNotification env message customer
    thread w = (Ok tt, w).
Proof.
  intros H.
  unfold LarkNotificationService.sendMessageNotification.
  fold (notificationGroup env thread).
  destruct (notificationGroup env thread =? ""); [reflexivity|].
  unfold bind, LarkClient.sendInteractiveCard, try_catch, lift_result, ret.
  rewrite H. reflexivity.
Qed.

(** ** The inbound pipeline, step by step *)

Lemma resolveCustomer_found (env : Env) (raw : RawMessage) (w : World)
    (item : CustomerItem) (rest : list CustomerItem) :
  identifierHits (identifierType raw) (identifierValue raw) w = item :: rest ->
  InboundService.resolveCustomer env raw w
  = (Ok (CustomerRepository.mapToCustomer item), w).
Proof.
  unfold identifierHits, InboundService.resolveCustomer,
    CustomerService.findByIdentifier, CustomerRepository.findByIdentifier,
    bind, gets.
  intros ->. reflexivity.
Qed.

Lemma resolveCustomer_created (env : Env) (raw : RawMessage) (w : World) :
  identifierHits (identifierType raw) (identifierValue raw) w = [] ->
  InboundService.resolveCustomer env raw w
  = (Ok (newCustomer (customerInput raw) (uuid_at env (uuid_ix w))
           (toISOString (clock w))),
     with_customers
       (ddb_put customer_id
          (CustomerRepository.mainItem
             (newCustomer (customerInput raw) (uuid_at env (uuid_ix w))
                (toISOString (clock w))))
          (customers w))
       (with_uuid_ix (S (uuid_ix w)) w)).
Proof.
  unfold identifierHits, InboundService.resolveCustomer,
    CustomerService.findByIdentifier, CustomerRepository.findByIdentifier,
    bind, gets.
  intros ->. reflexivity.
Qed.

Lemma resolveThread_found (env : Env) (raw : RawMessage) (c : Customer)
    (w : World) (t : Thread) (rest : list Thread) :
  activeThreadHits (customerId c) (raw_channel raw) w = t :: rest ->
  InboundService.resolveThread env raw c w = (Ok t, w).
Proof.
  unfold activeThreadHits, InboundService.resolveThread,
    ThreadService.getActiveThread,
    ThreadRepository.findActiveByCustomerAndChannel, bind, gets.
  intros ->. reflexivity.
Qed.

Lemma resolveThread_created (env : Env) (raw : RawMessage) (c : Customer)
    (w : World) :
  activeThreadHits (customerId c) (raw_channel raw) w = [] ->
  InboundService.resolveThread env raw c w
  = (Ok (newThread (threadInput raw c) (uuid_at env (uuid_ix w))
           (toISOString (clock w))),
     with_threads
       (ddb_put threadId
          (newThread (threadInput raw c) (uuid_at env (uuid_ix w))
             (toISOString (clock w)))
          (threads w))
       (with_uuid_ix (S (uuid_ix w)) w)).
Proof.
  unfold activeThreadHits, InboundService.resolveThread,
    ThreadService.getActiveThread,
    ThreadRepository.findActiveByCustomerAndChannel, bind, gets.
  intros ->. reflexivity.
Qed.

Lemma persistInbound_steps (env : Env) (raw : RawMessage) (w wc wt : World)
    (c : Customer) (t stored : Thread) :
  InboundService.resolveCustomer env raw w = (Ok c, wc) ->
  InboundService.resolveThread env raw c wc = (Ok t, wt) ->
  ddb_get threadId (threadId t) (threads wt) = Some stored ->
  InboundService.persistInbound env raw w
  = (Ok (inboundMessage raw c t (uuid_at env (uuid_ix wt))
           (toISOString (clock wt)), c, t),
     afterInbound
       (inboundMessage raw c t (uuid_at env (uuid_ix wt))
          (toISOString (clock wt)))
       stored wt).
Proof.
  intros Hc Ht Hs.
  unfold InboundService.persistInbound, bind.
  rewrite Hc, Ht.
  unfold InboundService.buildMessage, bind, uuidv4, now, gets, ret,
    MessageService.store, MessageRepository.save, modify,
    ThreadService.updateLastMessage.
  rewrite (ThreadService_withThread_found (threadId t) _ _ stored)
    by exact Hs.
  reflexivity.
Qed.

Lemma resolveCustomer_total (env : Env) (raw : RawMessage) (w : World) :
  exists c wc, InboundService.resolveCustomer env raw w = (Ok c, wc).
Proof.
  destruct (identifierHits (identifierType raw) (identifierValue raw) w)
    as [|item rest] eqn:E.
  - rewrite (resolveCustomer_created env raw w E). eauto.
  - rewrite (resolveCustomer_found env raw w item rest E). eauto.
Qed.

Lemma resolveThread_total (env : Env) (raw : RawMessage) (c : Customer)
    (w : World) :
  exists t wt stored,
    InboundService.resolveThread env raw c w = (Ok t, wt) /\
    ddb_get threadId (threadId t) (threads wt) = Some stored.
Proof.
  destruct (activeThreadHits (customerId c) (raw_channel raw) w)
    as [|t rest] eqn:E.
  - rewrite (resolveThread_created env raw c w E).
    do 3 eexists. split; [reflexivity|].
    apply (ddb_get_put_same Thread threadId
             (newThread (threadInput raw c) (uuid_at env (uuid_ix w))
                (toISOString (clock w)))).
  - rewrite (resolveThread_found env raw c w t rest E).
    assert (Hin : In t (threads w)).
    { unfold activeThreadHits in E.
      apply (ddb_query_In Thread (fun t => thr_customerId t =? customerId c)
               (fun t => ChannelType_eqb (channel t) (raw_channel raw)
                         && negb (ThreadStatus_eqb (status t) closed))
               1 (threads w) t).
      rewrite E. now left. }
    destruct (ddb_get_present Thread threadId t (threads w) Hin) as [y Hy].
    exists t, w, y. auto.
Qed.

(** Steps 1 to 4 always go through, and the thread they hand to the
    notification is stored. *)
Lemma persistInbound_total (env : Env) (raw : RawMessage) (w : World) :
  exists m c t w1 stored,
    InboundService.persistInbound env raw w = (Ok (m, c, t), w1) /\
    ddb_get threadId (threadId t) (threads w1) = Some stored.
Proof.
  destruct (resolveCustomer_total env raw w) as [c [wc Hc]].
  destruct (resolveThread_total env raw c wc) as [t [wt [stored [Ht Hs]]]].
  rewrite (persistInbound_steps env raw w wc wt c t stored Hc Ht Hs).
  do 5 eexists. split; [reflexivity|].
  unfold afterInbound. simpl.
  destruct (ddb_get_key _ _ _ _ _ Hs) as [Hk _].
  rewrite <- Hk.
  change (threadId stored) with
    (threadId (setLastMessage stored
                 (inboundMessage raw c t (uuid_at env (uuid_ix wt))
                    (toISOString (clock wt)))
                 (toISOString (clock wt)))) at 1.
  apply ddb_get_put_same.
Qed.

Lemma ddb_put_put (Item : Type) (key : Item -> string) (a b : Item)
    (tbl : list Item) :
  key a = key b ->
  ddb_put key a (ddb_put key b tbl) = ddb_put key a tbl.
Proof.
  intros E. induction tbl as [|x rest IH]; simpl.
  - now rewrite E, String.eqb_refl.
  - rewrite <- E. destruct (key x =? key a) eqn:X; simpl.
    + now rewrite E, String.eqb_refl.
    + rewrite X. now rewrite IH.
Qed.

(** The whole of [processMessage] in terms of its first two steps. *)
Lemma processMessage_steps (env : Env) (raw : RawMessage) (w wc wt : World)
    (c : Customer) (t stored : Thread) :
  InboundService.resolveCustomer env raw w = (Ok c, wc) ->
  InboundService.resolveThread env raw c wc = (Ok t, wt) ->
  ddb_get threadId (threadId t) (threads wt) = Some stored ->
  exists recorded,
    InboundService.processMessage env raw w
    = (Ok tt,
       inboundDone recorded
         (inboundMessage raw c t (uuid_at env (uuid_ix wt))
            (toISOString (clock wt)))
         stored wt).
Proof.
  intros Hc Ht Hs.
  unfold InboundService.processMessage, bind.
  rewrite (persistInbound_steps env raw w wc wt c t stored Hc Ht Hs).
  set (m := inboundMessage raw c t (uuid_at env (uuid_ix wt))
              (toISOString (clock wt))).
  destruct (ddb_get_key _ _ _ _ _ Hs) as [Hk _].
  assert (G : ddb_get threadId (threadId t) (threads (afterInbound m stored wt))
              = Some (setLastMessage stored m (toISOString (clock wt)))).
  { unfold afterInbound. simpl. rewrite <- Hk.
    apply (ddb_get_put_same Thread threadId
             (setLastMessage stored m (toISOString (clock wt)))). }
  destruct (sendMessageNotification_returns env m c t _ _ G)
    as [w' [E [->|[g [l ->]]]]]; rewrite E.
  - exists None. reflexivity.
  - exists (Some (g, l)). unfold inboundDone, afterInbound. simpl.
    rewrite ddb_put_put by reflexivity. reflexivity.
Qed.

(** ** Notification failures *)

(** C4: [processMessage] returns normally whatever the Lark SDK does, and
    when the SDK call of the notification throws, after steps 1 to 4 went
    through, the error is caught inside [LarkClient] and the world is
    left exactly as step 4 left it: the customer, the thread and the
    message persisted are unchanged. *)
Theorem processMessage_survives_notification_failure (env : Env)
    (raw : RawMessage) (w : World) :
  (exists w', InboundService.processMessage env raw w = (Ok tt, w')) /\
  (forall (m : UnifiedMessage) (c : Customer) (t : Thread) (w1 : World)
          (e : Thrown),
     InboundService.persistInbound env raw w = (Ok (m, c, t), w1) ->
     im_message_create env (notificationGroup env t) (buildMessageCard m c t)
     = Throw e ->
     InboundService.processMessage env raw w = (Ok tt, w1)).
Proof.
  split.
  - destruct (resolveCustomer_total env raw w) as [c [wc Hc]].
    destruct (resolveThread_total env raw c wc) as [t [wt [stored [Ht Hs]]]].
    destruct (processMessage_steps env raw w wc wt c t stored Hc Ht Hs)
      as [recorded E].
    rewrite E. eauto.
  - intros m c t w1 e Hp He.
    unfold InboundService.processMessage, bind. rewrite Hp.
    apply (sendMessageNotification_sdk_throws env m c t w1 e He).
Qed.

(** On the empty world, with a Lark SDK that throws: the first message of
    an unknown identifier is processed normally and the world is the one
    step 4 left. *)
Lemma processMessage_survives_lark_outage :
  InboundService.persistInbound Sample.env SampleInbound.hello Sample.empty
  = (Ok (SampleInbound.message SampleInbound.hello,
         SampleInbound.customer SampleInbound.hello,
         SampleInbound.thread SampleInbound.hello),
     SampleInbound.after SampleInbound.hello) /\
  im_message_create Sample.env
    (notificationGroup Sample.env (SampleInbound.thread SampleInbound.hello))
    (buildMessageCard (SampleInbound.message SampleInbound.hello)
       (SampleInbound.customer SampleInbound.hello)
       (SampleInbound.thread SampleInbound.hello))
  = Throw (JsError "lark unavailable") /\
  InboundService.processMessage Sample.env SampleInbound.hello Sample.empty
  = (Ok tt, SampleInbound.after SampleInbound.hello).
Proof.
  split; [reflexivity|]. split; [reflexivity|].
  apply (proj2 (processMessage_survives_notification_failure Sample.env
                  SampleInbound.hello Sample.empty)
           (SampleInbound.message SampleInbound.hello)
           (SampleInbound.customer SampleInbound.hello)
           (SampleInbound.thread SampleInbound.hello)
           (SampleInbound.after SampleInbound.hello)
           (JsError "lark unavailable"));
    reflexivity.
Defined.

(** ** The rule engine and the inbound pipeline *)

Lemma resolveThread_customers (env : Env) (raw : RawMessage) (c : Customer)
    (w wt : World) (t : Thread) :
  InboundService.resolveThread env raw c w = (Ok t, wt) ->
  customers wt = customers w.
Proof.
  destruct (activeThreadHits (customerId c) (raw_channel raw) w)
    as [|t0 rest] eqn:E.
  - rewrite (resolveThread_created env raw c w E).
    intros H. injection H as _ <-. reflexivity.
  - rewrite (resolveThread_found env raw c w t0 rest E).
    intros H. injection H as _ <-. reflexivity.
Qed.

(** C3, as the code has it: [processMessage] does not consult the rule
    engine.  After the message is stored and the thread updated it only
    sends the notification; the customers table is left as it was, or
    gains the customer created in step 1, whose tags are empty, and every
    customer stored before keeps its tags and its VIP flag. *)
Theorem processMessage_applies_no_action (env : Env) (raw : RawMessage)
    (w : World) :
  exists w',
    InboundService.processMessage env raw w = (Ok tt, w') /\
    (customers w' = customers w \/
     customers w'
     = ddb_put customer_id
         (CustomerRepository.mainItem
            (newCustomer (customerInput raw) (uuid_at env (uuid_ix w))
               (toISOString (clock w))))
         (customers w)) /\
    tags (newCustomer (customerInput raw) (uuid_at env (uuid_ix w))
            (toISOString (clock w))) = [] /\
    (forall cid c,
       cid <> uuid_at env (uuid_ix w) ->
       storedCustomer cid w = Some c -> storedCustomer cid w' = Some c).
Proof.
  destruct (resolveCustomer_total env raw w) as [c [wc Hc]].
  destruct (resolveThread_total env raw c wc) as [t [wt [stored [Ht Hs]]]].
  destruct (processMessage_steps env raw w wc wt c t stored Hc Ht Hs)
    as [recorded E].
  rewrite E. eexists. split; [reflexivity|].
  pose proof (resolveThread_customers env raw c wc wt t Ht) as Hwt.
  assert (D : customers wc = customers w \/
              customers wc
              = ddb_put customer_id
                  (CustomerRepository.mainItem
                     (newCustomer (customerInput raw) (uuid_at env (uuid_ix w))
                        (toISOString (clock w))))
                  (customers w)).
  { destruct (identifierHits (identifierType raw) (identifierValue raw) w)
      as [|item rest] eqn:Hh.
    - rewrite (resolveCustomer_created env raw w Hh) in Hc.
      injection Hc as _ <-. right. reflexivity.
    - rewrite (resolveCustomer_found env raw w item rest Hh) in Hc.
      injection Hc as _ <-. left. reflexivity. }
  unfold storedCustomer, inboundDone. simpl. rewrite Hwt.
  split; [exact D|]. split; [reflexivity|].
  intros cid c0 Hne Hst.
  destruct D as [D | D]; rewrite D; [exact Hst|].
  rewrite ddb_get_put_other; [exact Hst|].
  simpl. congruence.
Qed.

(** On the sample customers: a message from Alice's phone number leaves
    Alice as she was stored. *)
Lemma processMessage_applies_no_action_alice :
  "c-A" <> uuid_at Sample.env (uuid_ix SampleCustomers.world) /\
  storedCustomer "c-A" SampleCustomers.world = Some SampleCustomers.alice /\
  exists w',
    InboundService.processMessage Sample.env SampleInbound.urgent
      SampleCustomers.world = (Ok tt, w') /\
    customers w' = customers SampleCustomers.world /\
    storedCustomer "c-A" w' = Some SampleCustomers.alice.
Proof.
  assert (Hne : "c-A" <> uuid_at Sample.env (uuid_ix SampleCustomers.world))
    by discriminate.
  split; [exact Hne|]. split; [reflexivity|].
  destruct (processMessage_applies_no_action Sample.env SampleInbound.urgent
              SampleCustomers.world) as [w' [E [_ [_ K]]]].
  exists w'. split; [exact E|]. split.
  - vm_compute in E. injection E as <-. reflexivity.
  - apply (K "c-A" SampleCustomers.alice Hne eq_refl).
Defined.

(** C3, counterexample: for an inbound message that says "URGENT", the
    rule engine returns a tag action for the persisted message, customer
    and thread, yet after [processMessage] the stored customer has no
    tag. *)
Lemma processMessage_ignores_rules :
  InboundService.persistInbound Sample.env SampleInbound.urgent Sample.empty
  = (Ok (SampleInbound.message SampleInbound.urgent,
         SampleInbound.customer SampleInbound.urgent,
         SampleInbound.thread SampleInbound.urgent),
     SampleInbound.after SampleInbound.urgent) /\
  AutomationService.evaluate Sample.env
    (SampleInbound.message SampleInbound.urgent)
    (SampleInbound.customer SampleInbound.urgent)
    (SampleInbound.thread SampleInbound.urgent)
    (SampleInbound.after SampleInbound.urgent)
  = (Ok [ {| act_type := act_priority; params := [("level", "high")] |};
          {| act_type := act_tag; params := [("tag", "urgent")] |} ],
     SampleInbound.after SampleInbound.urgent) /\
  InboundService.processMessage Sample.env SampleInbound.urgent Sample.empty
  = (Ok tt, SampleInbound.after SampleInbound.urgent) /\
  option_map tags
    (storedCustomer "uuid-0" (SampleInbound.after SampleInbound.urgent))
  = Some [] /\
  ~ tagActionsApplied.
Proof.
  repeat split; try reflexivity.
  intros claim.
  destruct (claim Sample.env SampleInbound.urgent Sample.empty
              (SampleInbound.after SampleInbound.urgent)
              (SampleInbound.after SampleInbound.urgent)
              (SampleInbound.message SampleInbound.urgent)
              (SampleInbound.customer SampleInbound.urgent)
              (SampleInbound.thread SampleInbound.urgent)
              _ eq_refl eq_refl eq_refl
              {| act_type := act_tag; params := [("tag", "urgent")] |}
              "urgent")
    as [c' [Hc' Hin]].
  - right. left. reflexivity.
  - reflexivity.
  - left. reflexivity.
  - vm_compute in Hc'. injection Hc' as <-. exact Hin.
Qed.

(** ** First contact and the message after it *)


Lemma withLark_same (recorded : option (string * string)) (t : Thread)
    (now_ : string) :
  threadId (withLark recorded t now_) = threadId t /\
  thr_customerId (withLark recorded t now_) = thr_customerId t /\
  channel (withLark recorded t now_) = channel t /\
  status (withLark recorded t now_) = status t /\
  unreadCount (withLark recorded t now_) = unreadCount t.
Proof. destruct recorded as [[g l]|]; simpl; auto. Qed.

Lemma identifierHits_none (type : IdentifierType) (value : string) (w : World) :
  identifierHits type value w = [] ->
  filter (CustomerRepository.identifierKey type value) (customers w) = [].
Proof.
  unfold identifierHits, ddb_query.
  destruct (filter _ (customers w)); [reflexivity | discriminate].
Qed.

(** The world after the first message of an unknown identifier. *)
Lemma processMessage_first (env : Env) (raw : RawMessage) (w : World) :
  identifierHits (identifierType raw) (identifierValue raw) w = [] ->
  freshIds env w ->
  exists recorded,
    InboundService.processMessage env raw w
    = (Ok tt, afterFirst recorded env raw w).
Proof.
  intros Hhits F.
  unfold afterFirst, firstThreadStored, firstMessage, firstThread,
    firstCustomer.
  set (now_ := toISOString (clock w)).
  set (c := newCustomer (customerInput raw) (uuid_at env (uuid_ix w)) now_).
  set (t := newThread (threadInput raw c) (uuid_at env (1 + uuid_ix w)) now_).
  set (m := inboundMessage raw c t (uuid_at env (2 + uuid_ix w)) now_).
  pose proof (resolveCustomer_created env raw w Hhits) as Hc.
  fold now_ in Hc. fold c in Hc.
  set (wc := with_customers
               (ddb_put customer_id (CustomerRepository.mainItem c)
                  (customers w))
               (with_uuid_ix (S (uuid_ix w)) w)) in Hc.
  assert (Hact : activeThreadHits (customerId c) (raw_channel raw) wc = []).
  { unfold activeThreadHits, ddb_query. simpl.
    now rewrite (fresh_customer_threads F). }
  pose proof (resolveThread_created env raw c wc Hact) as Ht.
  change (uuid_ix wc) with (1 + uuid_ix w) in Ht.
  change (toISOString (clock wc)) with now_ in Ht. fold t in Ht.
  set (wt := with_threads (ddb_put threadId t (threads wc))
               (with_uuid_ix (S (1 + uuid_ix w)) wc)) in Ht.
  assert (Hs : ddb_get threadId (threadId t) (threads wt) = Some t).
  { apply (ddb_get_put_same Thread threadId t). }
  destruct (processMessage_steps env raw w wc wt c t t Hc Ht Hs)
    as [recorded E].
  exists recorded. rewrite E.
  change (uuid_ix wt) with (2 + uuid_ix w).
  change (toISOString (clock wt)) with now_. fold m.
  unfold inboundDone, with_threads, with_messages, with_uuid_ix. simpl.
  fold now_.
  rewrite (ddb_put_fresh _ customer_id (CustomerRepository.mainItem c)
             (customers w) (fresh_customer F)).
  rewrite (ddb_put_fresh _ messageId m (messages w) (fresh_message F)).
  rewrite ddb_put_put
    by (apply (proj1 (withLark_same recorded (setLastMessage t m now_) now_))).
  rewrite (ddb_put_fresh _ threadId
             (withLark recorded (setLastMessage t m now_) now_) (threads w))
    by (rewrite (proj1 (withLark_same recorded (setLastMessage t m now_) now_));
        apply (fresh_thread F)).
  reflexivity.
Qed.





(** * Further properties of the services *)

(** ** Customers: storing, finding, updating *)

Lemma arr_includes_In (l : list string) (x : string) :
  arr_includes l x = true <-> In x l.
Proof.
  unfold arr_includes. rewrite existsb_exists. split.
  - intros [y [Hin Hy]]. apply String.eqb_eq in Hy. now subst.
  - intros Hin. exists x. split; [exact Hin | apply String.eqb_refl].
Qed.

Lemma filter_put_none (Item : Type) (key : Item -> string)
    (kc : Item -> bool) (it : Item) (tbl : list Item) :
  kc it = false -> filter kc tbl = [] -> filter kc (ddb_put key it tbl) = [].
Proof.
  intros Hit. induction tbl as [|x rest IH]; simpl; intros H.
  - now rewrite Hit.
  - destruct (kc x) eqn:Hx; [discriminate|].
    destruct (key x =? key it); simpl.
    + now rewrite Hit.
    + rewrite Hx. auto.
Qed.

Lemma filter_put_one (Item : Type) (key : Item -> string)
    (kc : Item -> bool) (it : Item) (tbl : list Item) :
  kc it = true -> filter kc tbl = [] -> filter kc (ddb_put key it tbl) = [it].
Proof.
  intros Hit. induction tbl as [|x rest IH]; simpl; intros H.
  - now rewrite Hit.
  - destruct (kc x) eqn:Hx; [discriminate|].
    destruct (key x =? key it); simpl.
    + now rewrite Hit, H.
    + rewrite Hx. auto.
Qed.

Lemma save_outcome (c : Customer) (w : World) :
  CustomerRepository.save c w = (Ok tt, snd (CustomerRepository.save c w)).
Proof.
  destruct (CustomerRepository_save_stored c w) as [Hok _].
  destruct (CustomerRepository.save c w) as [r w']. simpl in *. now subst.
Qed.

(** X1: [CustomerRepository.save] never throws, and [getById] afterwards
    returns exactly the customer that was saved, however many identifiers
    it has: the index records written for the identifiers after the first
    never land on the customer's own key. *)
Theorem save_getById_roundtrip (c : Customer) (w : World) :
  exists w',
    CustomerRepository.save c w = (Ok tt, w') /\
    CustomerService.getById (customerId c) w' = (Ok (Some c), w').
Proof.
  exists (snd (CustomerRepository.save c w)).
  split; [apply save_outcome|].
  destruct (CustomerRepository_save_stored c w) as [_ Hst].
  unfold CustomerService.getById, CustomerRepository.getById, gets.
  unfold storedCustomer in Hst. now rewrite Hst.
Qed.

(** The items of the customers table that a [save] leaves under the index
    key of an identifier no item carried before. *)
Lemma saveIndexRecords_hits (type : IdentifierType) (value : string)
    (cid : string) (ids : list CustomerIdentifier) (w : World) :
  forallb (fun i => negb ((id_type i =? type) && (id_value i =? value))) ids
  = true ->
  filter (CustomerRepository.identifierKey type value) (customers w) = [] ->
  filter (CustomerRepository.identifierKey type value)
    (customers (snd (CustomerRepository.saveIndexRecords cid ids w))) = [].
Proof.
  revert w. induction ids as [|i rest IH]; simpl; intros w Hids Hw.
  - exact Hw.
  - apply andb_prop in Hids. destruct Hids as [Hi Hrest].
    unfold bind, CustomerRepository.putItem, modify.
    apply (IH _ Hrest). simpl.
    apply filter_put_none; [|exact Hw].
    unfold CustomerRepository.identifierKey, CustomerRepository.indexItem.
    simpl. now apply negb_true_iff in Hi.
Qed.

(** X2: a customer created by [CustomerService.create] is found again:
    when no stored item carried the identifier before, [findByIdentifier]
    on the identifier of the input returns the customer just created, and
    so does [getById] on its id.  The new customer is not VIP, has no
    tags, and holds the one identifier. *)
Theorem create_then_find (env : Env) (input : CreateCustomerInput)
    (w : World) :
  identifierHits (id_type (in_identifier input))
    (id_value (in_identifier input)) w = [] ->
  exists c w',
    CustomerService.create env input w = (Ok c, w') /\
    CustomerService.findByIdentifier (id_type (in_identifier input))
      (id_value (in_identifier input)) w' = (Ok (Some c), w') /\
    CustomerService.getById (customerId c) w' = (Ok (Some c), w') /\
    customerId c = uuid_at env (uuid_ix w) /\
    isVip c = false /\ tags c = [] /\
    identifiers c = [in_identifier input].
Proof.
  intros Hhits. apply identifierHits_none in Hhits.
  set (c := newCustomer input (uuid_at env (uuid_ix w))
              (toISOString (clock w))).
  exists c.
  exists (with_customers
            (ddb_put customer_id (CustomerRepository.mainItem c) (customers w))
            (with_uuid_ix (S (uuid_ix w)) w)).
  split; [reflexivity|]. split; [|split].
  - unfold CustomerService.findByIdentifier,
      CustomerRepository.findByIdentifier, gets, ddb_query. simpl.
    rewrite filter_put_one; [| |exact Hhits].
    + simpl. now rewrite mapToCustomer_mainItem.
    + unfold CustomerRepository.identifierKey. simpl.
      now rewrite !String.eqb_refl.
  - unfold CustomerService.getById, CustomerRepository.getById, gets. simpl.
    change (uuid_at env (uuid_ix w)) with
      (customer_id (CustomerRepository.mainItem c)).
    rewrite ddb_get_put_same. simpl. now rewrite mapToCustomer_mainItem.
  - repeat split; reflexivity.
Qed.

Lemma not_owned_forall (identifier : CustomerIdentifier)
    (ids : list CustomerIdentifier) :
  existsb (sameIdentifier identifier) ids = false ->
  forallb (fun i => negb ((id_type i =? id_type identifier)
                          && (id_value i =? id_value identifier))) ids = true.
Proof.
  induction ids as [|i rest IH]; simpl; [reflexivity|].
  intros H. apply orb_false_iff in H. destruct H as [Hi Hrest].
  unfold sameIdentifier in Hi. rewrite Hi. simpl. auto.
Qed.

Lemma saveIndexRecords_hits_last (identifier : CustomerIdentifier)
    (cid : string) (ids : list CustomerIdentifier) (w : World) :
  forallb (fun i => negb ((id_type i =? id_type identifier)
                          && (id_value i =? id_value identifier))) ids
  = true ->
  filter (CustomerRepository.identifierKey (id_type identifier)
            (id_value identifier)) (customers w) = [] ->
  filter (CustomerRepository.identifierKey (id_type identifier)
            (id_value identifier))
    (customers
       (snd (CustomerRepository.saveIndexRecords cid (ids ++ [identifier]) w)))
  = [CustomerRepository.indexItem cid identifier].
Proof.
  revert w. induction ids as [|i rest IH]; simpl; intros w Hids Hw.
  - unfold bind, CustomerRepository.putItem, modify, ret. simpl.
    apply filter_put_one; [|exact Hw].
    unfold CustomerRepository.identifierKey, CustomerRepository.indexItem.
    simpl. now rewrite !String.eqb_refl.
  - apply andb_prop in Hids. destruct Hids as [Hi Hrest].
    unfold bind, CustomerRepository.putItem, modify.
    apply (IH _ Hrest). simpl.
    apply filter_put_none; [|exact Hw].
    unfold CustomerRepository.identifierKey, CustomerRepository.indexItem.
    simpl. now apply negb_true_iff in Hi.
Qed.

(** X3: an identifier attached with [addIdentifier] does not lead back to
    its customer.  For a stored customer that has a first identifier
    already, attaching a further one that no stored item carried writes
    an index record keyed [customerId#type#value]; [findByIdentifier] on
    the new identifier then returns that record mapped as a customer: its
    [customerId] is the composite key, not the customer's id, and it has
    no name and no identifiers, although the customer itself now holds
    the identifier. *)
Theorem added_identifier_finds_index_record (cid : string)
    (identifier : CustomerIdentifier) (w : World) (c : Customer)
    (first : CustomerIdentifier) (rest : list CustomerIdentifier) :
  storedCustomer cid w = Some c ->
  identifiers c = first :: rest ->
  owns c identifier = false ->
  identifierHits (id_type identifier) (id_value identifier) w = [] ->
  exists w' found,
    CustomerService.addIdentifier cid identifier w = (Ok tt, w') /\
    CustomerService.findByIdentifier (id_type identifier)
      (id_value identifier) w' = (Ok (Some found), w') /\
    customerId found
    = (cid ++ "#" ++ id_type identifier ++ "#" ++ id_value identifier)%string /\
    customerId found <> cid /\
    displayName found = None /\ identifiers found = [] /\
    option_map identifiers (storedCustomer cid w')
    = Some (identifiers c ++ [identifier]).
Proof.
  intros Hc Hids Hown Hhits.
  pose proof (storedCustomer_id _ _ _ Hc) as Hid.
  apply identifierHits_none in Hhits.
  set (pushed := pushIdentifier c identifier (toISOString (clock w))).
  rewrite (addIdentifier_not_owned _ _ _ _ Hc Hown). fold pushed.
  exists (snd (CustomerRepository.save pushed w)).
  exists (CustomerRepository.mapToCustomer
            (CustomerRepository.indexItem cid identifier)).
  split; [apply save_outcome|].
  assert (F : filter (CustomerRepository.identifierKey (id_type identifier)
                        (id_value identifier))
                (customers (snd (CustomerRepository.save pushed w)))
              = [CustomerRepository.indexItem cid identifier]).
  { unfold CustomerRepository.save, bind, CustomerRepository.putItem, modify.
    unfold owns in Hown. rewrite Hids in Hown.
    pose proof (not_owned_forall identifier _ Hown) as Hall.
    simpl in Hall. apply andb_prop in Hall. destruct Hall as [Hfirst Hrest].
    assert (Htl : tl (identifiers pushed) = rest ++ [identifier])
      by (unfold pushed; simpl; now rewrite Hids).
    rewrite Htl.
    assert (Hcid : customerId pushed = cid) by exact Hid.
    rewrite Hcid.
    apply (saveIndexRecords_hits_last identifier cid rest _ Hrest).
    simpl. apply filter_put_none; [|exact Hhits].
    unfold CustomerRepository.identifierKey, CustomerRepository.mainItem.
    unfold pushed. simpl. rewrite Hids. simpl.
    now apply negb_true_iff in Hfirst. }
  split.
  { unfold CustomerService.findByIdentifier,
      CustomerRepository.findByIdentifier, gets, ddb_query.
    rewrite F. reflexivity. }
  split; [reflexivity|].
  split; [simpl; apply append_nonempty_neq|].
  split; [reflexivity|]. split; [reflexivity|].
  destruct (CustomerRepository_save_stored pushed w) as [_ Hst].
  change (customerId pushed) with (customerId c) in Hst.
  rewrite Hid in Hst. rewrite Hst. reflexivity.
Qed.

(** On the sample customers: Bob gets the number [+81900000002], which
    nobody holds; looking it up returns the record
    [c-B#phone#+81900000002]. *)
Lemma added_identifier_finds_index_record_bob :
  storedCustomer "c-B" SampleCustomers.world = Some SampleCustomers.bob /\
  identifiers SampleCustomers.bob = [SampleCustomers.mail] /\
  owns SampleCustomers.bob SampleCustomers.phone2 = false /\
  identifierHits "phone" "+81900000002" SampleCustomers.world = [] /\
  exists w' found,
    CustomerService.addIdentifier "c-B" SampleCustomers.phone2
      SampleCustomers.world = (Ok tt, w') /\
    CustomerService.findByIdentifier "phone" "+81900000002" w'
    = (Ok (Some found), w') /\
    customerId found = "c-B#phone#+81900000002" /\
    customerId found <> "c-B" /\
    displayName found = None /\ identifiers found = [] /\
    option_map identifiers (storedCustomer "c-B" w')
    = Some [SampleCustomers.mail; SampleCustomers.phone2].
Proof.
  split; [reflexivity|]. split; [reflexivity|]. split; [reflexivity|].
  split; [reflexivity|].
  exact (added_identifier_finds_index_record "c-B" SampleCustomers.phone2
           SampleCustomers.world SampleCustomers.bob SampleCustomers.mail []
           eq_refl eq_refl eq_refl eq_refl).
Defined.

(** On the empty world: the customer of the first sms message is created
    and found again. *)
Lemma create_then_find_sample :
  identifierHits "phone" "+81900000001" Sample.empty = [] /\
  exists c w',
    CustomerService.create Sample.env (customerInput SampleInbound.hello)
      Sample.empty = (Ok c, w') /\
    CustomerService.findByIdentifier "phone" "+81900000001" w'
    = (Ok (Some c), w') /\
    CustomerService.getById (customerId c) w' = (Ok (Some c), w') /\
    customerId c = "uuid-0" /\
    isVip c = false /\ tags c = [] /\
    identifiers c = [in_identifier (customerInput SampleInbound.hello)].
Proof.
  split; [reflexivity|].
  exact (create_then_find Sample.env (customerInput SampleInbound.hello)
           Sample.empty eq_refl).
Defined.

Lemma update_found (cid : string) (updates : CustomerUpdates) (w : World)
    (c : Customer) :
  storedCustomer cid w = Some c ->
  CustomerService.update cid updates w
  = (Ok (applyUpdates c updates (toISOString (clock w))),
     snd (CustomerRepository.save
            (applyUpdates c updates (toISOString (clock w))) w)).
Proof.
  intros Hc.
  unfold storedCustomer in Hc.
  unfold CustomerService.update, CustomerService.getById,
    CustomerRepository.getById, bind, gets, now.
  rewrite Hc. simpl.
  pose proof (save_outcome (applyUpdates c updates (toISOString (clock w))) w)
    as Hs.
  destruct (CustomerRepository.save
              (applyUpdates c updates (toISOString (clock w))) w)
    as [r w'].
  simpl in Hs. injection Hs as ->. reflexivity.
Qed.

Lemma update_stored (cid : string) (updates : CustomerUpdates) (w : World)
    (c : Customer) :
  storedCustomer cid w = Some c ->
  storedCustomer cid
    (snd (CustomerRepository.save
            (applyUpdates c updates (toISOString (clock w))) w))
  = Some (applyUpdates c updates (toISOString (clock w))).
Proof.
  intros Hc. pose proof (storedCustomer_id _ _ _ Hc) as Hid.
  destruct (CustomerRepository_save_stored
              (applyUpdates c updates (toISOString (clock w))) w)
    as [_ Hst].
  simpl in Hst. now rewrite Hid in Hst.
Qed.

(** X4: [CustomerService.update] cannot move a customer to another id.
    For a stored customer it returns and stores, under the same id, the
    customer with the keys of [updates] applied, except that [customerId]
    stays what it was whatever [updates.customerId] says, and [updatedAt]
    is the time of the call whatever [updates.updatedAt] says.  For an id
    that is not stored it throws ['Customer not found'] and writes
    nothing. *)
Theorem update_keeps_id (cid : string) (updates : CustomerUpdates)
    (w : World) :
  (forall c : Customer,
     storedCustomer cid w = Some c ->
     exists updated w',
       CustomerService.update cid updates w = (Ok updated, w') /\
       storedCustomer cid w' = Some updated /\
       customerId updated = cid /\
       cust_updatedAt updated = Some (toISOString (clock w)) /\
       isVip updated = spread (isVip c) (upd_isVip updates) /\
       tags updated = spread (tags c) (upd_tags updates) /\
       identifiers updated
       = spread (identifiers c) (upd_identifiers updates)) /\
  (storedCustomer cid w = None ->
   CustomerService.update cid updates w
   = (Throw (JsError "Customer not found"), w)).
Proof.
  split.
  - intros c Hc. do 2 eexists.
    split; [apply (update_found cid updates w c Hc)|].
    split; [apply (update_stored cid updates w c Hc)|].
    split; [apply (storedCustomer_id _ _ _ Hc)|].
    repeat split; reflexivity.
  - unfold storedCustomer, CustomerService.update, CustomerService.getById,
      CustomerRepository.getById, bind, gets.
    destruct (ddb_get customer_id cid (customers w)); simpl;
      [discriminate | reflexivity].
Qed.

(** On the sample customers: an update of Alice that names another id and
    makes her VIP stores her, VIP, under [c-A]; an update of an unknown
    id throws. *)
Lemma update_keeps_id_alice :
  (storedCustomer "c-A" SampleCustomers.world = Some SampleCustomers.alice /\
   exists updated w',
     CustomerService.update "c-A" SampleCustomers.moveAndPromote
       SampleCustomers.world = (Ok updated, w') /\
     storedCustomer "c-A" w' = Some updated /\
     customerId updated = "c-A" /\
     cust_updatedAt updated
     = Some (toISOString (clock SampleCustomers.world)) /\
     isVip updated = true /\
     tags updated = [] /\
     identifiers updated = [SampleCustomers.phone]) /\
  (storedCustomer "c-Z" SampleCustomers.world = None /\
   CustomerService.update "c-Z" SampleCustomers.moveAndPromote
     SampleCustomers.world
   = (Throw (JsError "Customer not found"), SampleCustomers.world)).
Proof.
  split.
  - split; [reflexivity|].
    exact (proj1 (update_keeps_id "c-A" SampleCustomers.moveAndPromote
                    SampleCustomers.world) SampleCustomers.alice eq_refl).
  - split; [reflexivity|].
    exact (proj2 (update_keeps_id "c-Z" SampleCustomers.moveAndPromote
                    SampleCustomers.world) eq_refl).
Defined.

Lemma NoDup_snoc (l : list string) (x : string) :
  NoDup l -> ~ In x l -> NoDup (l ++ [x]).
Proof.
  induction l as [|y l IH]; simpl; intros Hnd Hx.
  - constructor; [tauto | constructor].
  - inversion Hnd as [|? ? Hy Hl]; subst. constructor.
    + rewrite in_app_iff. simpl. intros [H|[H|[]]]; [tauto|].
      subst. tauto.
    + apply IH; tauto.
Qed.

(** X5: [addTag] never duplicates a tag.  For a stored customer the call
    returns normally and the tag is among the stored tags afterwards:
    appended when it was missing, with the world untouched when it was
    there.  Tags that were distinct stay distinct, the identifiers and the
    VIP flag are kept, and a second [addTag] with the same tag changes
    nothing. *)
Theorem addTag_idempotent (cid tag : string) (w : World) (c : Customer) :
  storedCustomer cid w = Some c ->
  exists w' c',
    CustomerService.addTag cid tag w = (Ok tt, w') /\
    storedCustomer cid w' = Some c' /\
    tags c' = (if arr_includes (tags c) tag then tags c
               else tags c ++ [tag]) /\
    In tag (tags c') /\
    (NoDup (tags c) -> NoDup (tags c')) /\
    identifiers c' = identifiers c /\ isVip c' = isVip c /\
    (arr_includes (tags c) tag = true -> w' = w) /\
    CustomerService.addTag cid tag w' = (Ok tt, w').
Proof.
  intros Hc.
  assert (Hget : forall w0 c0, storedCustomer cid w0 = Some c0 ->
            arr_includes (tags c0) tag = true ->
            CustomerService.addTag cid tag w0 = (Ok tt, w0)).
  { intros w0 c0 H0 Hin. unfold storedCustomer in H0.
    unfold CustomerService.addTag, CustomerService.getById,
      CustomerRepository.getById, bind, gets.
    rewrite H0, Hin. reflexivity. }
  destruct (arr_includes (tags c) tag) eqn:Hin.
  - exists w, c. split; [apply (Hget w c Hc Hin)|].
    split; [exact Hc|]. split; [reflexivity|].
    split; [now apply arr_includes_In|].
    repeat split; auto.
    apply (Hget w c Hc Hin).
  - set (u := applyUpdates c (tagsUpdate (tags c ++ [tag]))
                (toISOString (clock w))).
    exists (snd (CustomerRepository.save u w)), u.
    pose proof (update_stored cid (tagsUpdate (tags c ++ [tag])) w c Hc)
      as Hst. fold u in Hst.
    assert (Hu : In tag (tags u))
      by (simpl; rewrite in_app_iff; simpl; auto).
    split.
    { pose proof Hc as Hc'. unfold storedCustomer in Hc'.
      unfold CustomerService.addTag, CustomerService.getById,
        CustomerRepository.getById, bind at 1, gets.
      rewrite Hc', Hin. simpl. unfold bind.
      rewrite (update_found cid (tagsUpdate (tags c ++ [tag])) w c Hc).
      reflexivity. }
    split; [exact Hst|]. split; [reflexivity|]. split; [exact Hu|].
    split.
    { intros Hnd. simpl. apply NoDup_snoc; [exact Hnd|].
      intros Hx. apply arr_includes_In in Hx. congruence. }
    split; [reflexivity|]. split; [reflexivity|].
    split; [discriminate|].
    apply (Hget _ u Hst). now apply arr_includes_In.
Qed.

(** On the sample customers: Alice gets the tag [urgent] once. *)
Lemma addTag_idempotent_alice :
  storedCustomer "c-A" SampleCustomers.world = Some SampleCustomers.alice /\
  exists w' c',
    CustomerService.addTag "c-A" "urgent" SampleCustomers.world = (Ok tt, w') /\
    storedCustomer "c-A" w' = Some c' /\
    tags c' = ["urgent"] /\
    CustomerService.addTag "c-A" "urgent" w' = (Ok tt, w').
Proof.
  split; [reflexivity|].
  destruct (addTag_idempotent "c-A" "urgent" SampleCustomers.world
              SampleCustomers.alice eq_refl)
    as [w' [c' [E [Hst [Ht [_ [_ [_ [_ [_ E2]]]]]]]]]].
  exists w', c'. repeat split; assumption.
Defined.

(** ** The rules installed at start-up *)

Lemma evaluate_builtin_actions (env : Env) (message : UnifiedMessage)
    (customer : Customer) (thread : Thread) (w : World) :
  AutomationService.evaluate env message customer thread w
  = (Ok ((if isVip customer then vipActions env else [])
         ++ (if mentionsUrgent env (content message) then urgentActions
             else [])), w).
Proof.
  rewrite evaluate_builtin_rules. f_equal. f_equal.
  unfold firedActions, AutomationService.loadRules. simpl.
  unfold fires. simpl.
  change {| cond_type := cond_customer_attribute; cond_operator := op_equals;
            cond_value := One "vip:true" |} with vipCondition.
  rewrite vipCondition_holds.
  assert (K : holds env message customer thread w
                {| cond_type := cond_keyword; cond_operator := op_contains;
                   cond_value := Many ["urgent"; "緊急"; "ASAP"; "クレーム"] |}
              = mentionsUrgent env (content message)).
  { unfold holds, AutomationService.evaluateCondition. simpl.
    unfold AutomationService.matchKeywords, mentionsUrgent. simpl.
    destruct (_ || _); reflexivity. }
  rewrite K.
  destruct (isVip customer), (mentionsUrgent env (content message));
    reflexivity.
Qed.

(** X6: with the rules the constructor installs, [evaluate] never throws
    and writes nothing, and its result depends only on the customer's VIP
    flag and on the message text: the notify and priority actions of the
    VIP rule when the customer is VIP, followed by the priority and tag
    actions of the keyword rule when the lower-cased text contains one of
    the four lower-cased keywords.  The thread, the channel and the clock
    play no part. *)
Theorem evaluate_builtin (env : Env) (message : UnifiedMessage)
    (customer : Customer) (thread : Thread) (w : World) :
  AutomationService.evaluate env message customer thread w
  = (Ok ((if isVip customer then vipActions env else [])
         ++ (if mentionsUrgent env (content message) then urgentActions
             else [])), w).
Proof. apply evaluate_builtin_actions. Qed.

(** X7: [setVip] stores the flag and nothing else changes on the customer
    but [updatedAt]: tags, identifiers and name are kept.  The stored
    customer then triggers the VIP rule exactly when the flag is true. *)
Theorem setVip_sets_flag (cid : string) (flag : bool) (w : World)
    (c : Customer) :
  storedCustomer cid w = Some c ->
  exists w' c',
    CustomerService.setVip cid flag w = (Ok tt, w') /\
    storedCustomer cid w' = Some c' /\
    isVip c' = flag /\
    tags c' = tags c /\ identifiers c' = identifiers c /\
    displayName c' = displayName c /\
    forall env message thread,
      AutomationService.evaluate env message c' thread w'
      = (Ok ((if flag then vipActions env else [])
             ++ (if mentionsUrgent env (content message) then urgentActions
                 else [])), w').
Proof.
  intros Hc.
  set (u := applyUpdates c (isVipUpdate flag) (toISOString (clock w))).
  exists (snd (CustomerRepository.save u w)), u.
  split.
  { unfold CustomerService.setVip, bind.
    rewrite (update_found cid (isVipUpdate flag) w c Hc). reflexivity. }
  split; [apply (update_stored cid (isVipUpdate flag) w c Hc)|].
  repeat split; try reflexivity.
  intros env message thread.
  apply (evaluate_builtin_actions env message u thread).
Qed.

(** On the sample customers: Alice is made VIP, and a message that says
    nothing urgent now yields the two actions of the VIP rule. *)
Lemma setVip_sets_flag_alice :
  storedCustomer "c-A" SampleCustomers.world = Some SampleCustomers.alice /\
  exists w' c',
    CustomerService.setVip "c-A" true SampleCustomers.world = (Ok tt, w') /\
    storedCustomer "c-A" w' = Some c' /\
    isVip c' = true /\
    AutomationService.evaluate Sample.env (Sample.message1 msg_delivered) c'
      (Sample.thread1 SMS open) w'
    = (Ok (vipActions Sample.env), w').
Proof.
  split; [reflexivity|].
  destruct (setVip_sets_flag "c-A" true SampleCustomers.world
              SampleCustomers.alice eq_refl)
    as [w' [c' [E [Hst [Hv [_ [_ [_ Hev]]]]]]]].
  exists w', c'. split; [exact E|]. split; [exact Hst|].
  split; [exact Hv|].
  apply (Hev Sample.env (Sample.message1 msg_delivered)
           (Sample.thread1 SMS open)).
Defined.

(** ** Threads: previews, counters, assignment *)

Lemma substring_length_le (n : nat) (s : string) :
  String.length (substring 0 n s) <= n.
Proof.
  revert s. induction n as [|n IH]; intros [|a s]; simpl; try lia.
  specialize (IH s). lia.
Qed.

Lemma utf16_units_bounds (b : ascii) :
  utf16_units b = 1 \/ utf16_units b = 2.
Proof.
  unfold utf16_units. destruct (utf8_bytes b =? 4)%nat; auto.
Qed.

Lemma utf16_length_highSurrogate (b : ascii) (rest : string) :
  utf16_length_from 0 (highSurrogate b rest) = 1.
Proof. reflexivity. Qed.

Lemma substring0_from_length (s : string) :
  forall pending n,
    utf16_length_from pending (substring0_from pending n s)
    = Nat.min n (utf16_length_from pending s).
Proof.
  induction s as [|b rest IH]; intros pending n.
  - simpl. now rewrite Nat.min_0_r.
  - destruct pending as [|pending].
    + cbn [substring0_from].
      destruct (utf16_units b <=? n)%nat eqn:Le.
      * apply Nat.leb_le in Le. cbn [utf16_length_from]. rewrite IH. lia.
      * apply Nat.leb_gt in Le.
        destruct (n =? 1)%nat eqn:One.
        -- apply Nat.eqb_eq in One. subst n.
           rewrite utf16_length_highSurrogate. cbn [utf16_length_from]. lia.
        -- apply Nat.eqb_neq in One.
           destruct (utf16_units_bounds b); cbn [utf16_length_from]; lia.
    + cbn [substring0_from utf16_length_from]. apply IH.
Qed.

Lemma substring0_from_short (s : string) :
  forall pending n,
    utf16_length_from pending s <= n -> substring0_from pending n s = s.
Proof.
  induction s as [|b rest IH]; intros pending n H; [reflexivity|].
  destruct pending as [|pending]; cbn [substring0_from utf16_length_from] in *.
  - assert (Le : (utf16_units b <=? n)%nat = true)
      by (apply Nat.leb_le; lia).
    rewrite Le, IH; [reflexivity | lia].
  - rewrite IH; [reflexivity | exact H].
Qed.

Lemma withinBmp_units (b : ascii) :
  (nat_of_ascii b <? 240)%nat = true -> utf16_units b = 1.
Proof.
  intros H. apply Nat.ltb_lt in H. unfold utf16_units, utf8_bytes.
  destruct (nat_of_ascii b <? 192)%nat; [reflexivity|].
  destruct (nat_of_ascii b <? 224)%nat; [reflexivity|].
  destruct (nat_of_ascii b <? 240)%nat eqn:E; [reflexivity|].
  apply Nat.ltb_ge in E. lia.
Qed.

Lemma prefix_cons (b : ascii) (x s : string) :
  prefix x s = true -> prefix (String b x) (String b s) = true.
Proof.
  intros H. simpl. destruct (ascii_dec b b); [exact H | congruence].
Qed.

Lemma substring0_from_prefix (s : string) :
  forall pending n,
    withinBmp s = true -> prefix (substring0_from pending n s) s = true.
Proof.
  induction s as [|b rest IH]; intros pending n H; [reflexivity|].
  cbn [withinBmp] in H. apply andb_true_iff in H. destruct H as [Hb Hr].
  destruct pending as [|pending]; cbn [substring0_from].
  - rewrite (withinBmp_units b Hb).
    destruct (1 <=? n)%nat eqn:Le; [apply prefix_cons, IH, Hr|].
    apply Nat.leb_gt in Le.
    assert (One : (n =? 1)%nat = false) by (apply Nat.eqb_neq; lia).
    now rewrite One.
  - apply prefix_cons, IH, Hr.
Qed.

Lemma isAscii_units (b : ascii) :
  (nat_of_ascii b <? 128)%nat = true ->
  utf16_units b = 1 /\ utf8_bytes b = 1.
Proof.
  intros H. apply Nat.ltb_lt in H. unfold utf16_units, utf8_bytes.
  assert (E : (nat_of_ascii b <? 192)%nat = true)
    by (apply Nat.ltb_lt; lia).
  rewrite E. auto.
Qed.

Lemma substring0_ascii (s : string) :
  forall n, isAscii s = true -> substring0 n s = substring 0 n s.
Proof.
  unfold substring0.
  induction s as [|b rest IH]; intros n H.
  - destruct n; reflexivity.
  - cbn [isAscii] in H. apply andb_true_iff in H. destruct H as [Hb Hr].
    destruct (isAscii_units b Hb) as [U B].
    cbn [substring0_from]. rewrite U, B.
    destruct n as [|n]; [reflexivity|].
    simpl. rewrite Nat.sub_0_r. now rewrite IH.
Qed.

(** What one update of a stored thread does to the tables, for an
    assignment that keeps the thread id. *)
Lemma withThread_effect (tid : string) (assign : Thread -> string -> Thread)
    (w : World) (t : Thread) :
  ddb_get threadId tid (threads w) = Some t ->
  threadId (assign t (toISOString (clock w))) = threadId t ->
  exists w',
    ThreadService.withThread tid assign w = (Ok tt, w') /\
    ddb_get threadId tid (threads w') = Some (assign t (toISOString (clock w)))
    /\
    (forall k, k <> tid ->
               ddb_get threadId k (threads w') = ddb_get threadId k (threads w))
    /\
    map threadId (threads w') = map threadId (threads w) /\
    customers w' = customers w /\ messages w' = messages w /\
    clock w' = clock w.
Proof.
  intros H Hid.
  destruct (ddb_get_key _ _ _ _ _ H) as [Hk _].
  rewrite (ThreadService_withThread_found _ _ _ _ H).
  eexists. split; [reflexivity|]. simpl.
  assert (Hkey : threadId (assign t (toISOString (clock w))) = tid)
    by congruence.
  split; [|split; [|split]].
  - rewrite <- Hkey at 1. apply ddb_get_put_same.
  - intros k Hne. apply ddb_get_put_other. congruence.
  - apply (map_key_put _ threadId _ t). now rewrite Hkey.
  - auto.
Qed.

(** X8: [updateLastMessage] on a stored thread records the message's
    timestamp and, as preview, the first 100 UTF-16 code units of the
    message text.  The preview has the 100 code units, or all of the text
    when that has fewer; it is the whole text whenever the text has at
    most 100 code units, however many bytes they take; for a text
    without characters outside the Basic Multilingual Plane it is a
    prefix of the text, and for an ASCII text its first 100 characters.
    The unread count grows by one for an inbound message and stays for an
    outbound one.  Status, assignee, customer and channel are kept, no
    thread is added or removed, and the other threads are untouched. *)
Theorem updateLastMessage_preview (tid : string) (m : UnifiedMessage)
    (w : World) (t : Thread) :
  ddb_get threadId tid (threads w) = Some t ->
  exists w' t' preview,
    ThreadService.updateLastMessage tid m w = (Ok tt, w') /\
    ddb_get threadId tid (threads w') = Some t' /\
    lastMessageAt t' = Some (timestamp m) /\
    lastMessagePreview t' = Some preview /\
    utf16_length preview = Nat.min 100 (utf16_length (content m)) /\
    (utf16_length (content m) <= 100 -> preview = content m) /\
    (withinBmp (content m) = true -> prefix preview (content m) = true) /\
    (isAscii (content m) = true ->
     preview = substring 0 100 (content m) /\ String.length preview <= 100)
    /\
    unreadCount t'
    = match direction m with
      | inbound => unreadCount t + 1
      | outbound => unreadCount t
      end /\
    status t' = status t /\ assignedTo t' = assignedTo t /\
    thr_customerId t' = thr_customerId t /\ channel t' = channel t /\
    map threadId (threads w') = map threadId (threads w) /\
    (forall k, k <> tid ->
               ddb_get threadId k (threads w') = ddb_get threadId k (threads w)).
Proof.
  intros H.
  destruct (withThread_effect tid (fun thread => setLastMessage thread m) w t
              H eq_refl) as [w' [E [G [O [K _]]]]].
  exists w', (setLastMessage t m (toISOString (clock w))),
    (substring0 100 (content m)).
  split; [exact E|]. split; [exact G|].
  split; [reflexivity|]. split; [reflexivity|].
  split; [apply substring0_from_length|].
  split; [apply substring0_from_short|].
  split; [apply substring0_from_prefix|].
  split.
  { intros A. rewrite (substring0_ascii _ 100 A).
    split; [reflexivity | apply substring_length_le]. }
  repeat split; try reflexivity; assumption.
Qed.

(** On the sample world, thread [t-1]: the ASCII text of the sample; a
    text of 45 characters in 133 bytes, kept whole; and a text of 120
    characters in 360 bytes, cut after 100 characters. *)
Lemma updateLastMessage_preview_sample :
  ddb_get threadId "t-1" (threads (Sample.world SMS open msg_sent))
  = Some (Sample.thread1 SMS open) /\
  (exists w' t',
     ThreadService.updateLastMessage "t-1" (Sample.message1 msg_sent)
       (Sample.world SMS open msg_sent) = (Ok tt, w') /\
     ddb_get threadId "t-1" (threads w') = Some t' /\
     lastMessagePreview t' = Some "hi back" /\
     unreadCount t' = 0) /\
  (exists w' t',
     ThreadService.updateLastMessage "t-1"
       (SampleText.saying SampleText.short45)
       (Sample.world SMS open msg_sent) = (Ok tt, w') /\
     ddb_get threadId "t-1" (threads w') = Some t' /\
     String.length SampleText.short45 = 133 /\
     lastMessagePreview t' = Some SampleText.short45) /\
  (exists w' t',
     ThreadService.updateLastMessage "t-1"
       (SampleText.saying (SampleText.kinkyu 60))
       (Sample.world SMS open msg_sent) = (Ok tt, w') /\
     ddb_get threadId "t-1" (threads w') = Some t' /\
     lastMessagePreview t' = Some (SampleText.kinkyu 50)).
Proof.
  split; [reflexivity|].
  split; [|split].
  - destruct (updateLastMessage_preview "t-1" (Sample.message1 msg_sent)
                (Sample.world SMS open msg_sent) (Sample.thread1 SMS open)
                eq_refl)
      as [w' [t' [p [E [G [_ [P [_ [W [_ [_ [U _]]]]]]]]]]]].
    exists w', t'. split; [exact E|]. split; [exact G|].
    split; [|exact U].
    rewrite P. f_equal. apply W. vm_compute. lia.
  - destruct (updateLastMessage_preview "t-1"
                (SampleText.saying SampleText.short45)
                (Sample.world SMS open msg_sent) (Sample.thread1 SMS open)
                eq_refl)
      as [w' [t' [p [E [G [_ [P [_ [W _]]]]]]]]].
    exists w', t'. split; [exact E|]. split; [exact G|].
    split; [reflexivity|].
    rewrite P. f_equal. apply W. vm_compute. lia.
  - exists (snd (ThreadService.updateLastMessage "t-1"
                   (SampleText.saying (SampleText.kinkyu 60))
                   (Sample.world SMS open msg_sent))),
      (setLastMessage (Sample.thread1 SMS open)
         (SampleText.saying (SampleText.kinkyu 60))
         (toISOString Sample.noon)).
    repeat split.
Defined.

(** A cut inside a surrogate pair: of 99 letters and one emoji, 101 code
    units, the preview keeps the letters and the high surrogate. *)
Example substring0_cuts_pair :
  substring0 100 (SampleText.repeated 99 "a" ++ "😀")%string
  = (SampleText.repeated 99 "a"
     ++ String (ascii_of_nat 237)
          (String (ascii_of_nat 160) (String (ascii_of_nat 189) "")))%string
  /\ utf16_length (SampleText.repeated 99 "a" ++ "😀")%string = 101.
Proof. split; reflexivity. Qed.

Lemma updateLastMessages_counts (tid : string) (ms : list UnifiedMessage) :
  forall (w : World) (t : Thread),
    ddb_get threadId tid (threads w) = Some t ->
    exists w' t',
      updateLastMessages tid ms w = (Ok tt, w') /\
      ddb_get threadId tid (threads w') = Some t' /\
      unreadCount t' = unreadCount t + inboundCount ms /\
      status t' = status t /\ assignedTo t' = assignedTo t /\
      map threadId (threads w') = map threadId (threads w).
Proof.
  induction ms as [|m rest IH]; intros w t H.
  - exists w, t. simpl. unfold inboundCount. simpl.
    repeat split; auto.
  - destruct (withThread_effect tid (fun thread => setLastMessage thread m) w t
                H eq_refl) as [w1 [E [G [_ [K _]]]]].
    destruct (IH w1 _ G) as [w' [t' [E' [G' [U [S [A K']]]]]]].
    exists w', t'. simpl. unfold bind.
    unfold ThreadService.updateLastMessage. rewrite E.
    split; [exact E'|]. split; [exact G'|].
    split.
    { rewrite U. unfold inboundCount. simpl.
      destruct (direction m); simpl; lia. }
    split; [now rewrite S|]. split; [now rewrite A|].
    now rewrite K', K.
Qed.

(** X9: the unread count of a thread counts the inbound messages recorded
    on it.  After a run of [updateLastMessage] calls on a stored thread
    the count is what it was plus the number of inbound messages of the
    run, outbound ones not counting; [markAsRead] then puts it back to 0
    and keeps the status, the assignee and the last message. *)
Theorem unread_counts_inbound (tid : string) (ms : list UnifiedMessage)
    (w : World) (t : Thread) :
  ddb_get threadId tid (threads w) = Some t ->
  exists w' t' w'' t'',
    updateLastMessages tid ms w = (Ok tt, w') /\
    ddb_get threadId tid (threads w') = Some t' /\
    unreadCount t' = unreadCount t + inboundCount ms /\
    status t' = status t /\
    ThreadService.markAsRead tid w' = (Ok tt, w'') /\
    ddb_get threadId tid (threads w'') = Some t'' /\
    unreadCount t'' = 0 /\
    status t'' = status t /\ assignedTo t'' = assignedTo t /\
    lastMessageAt t'' = lastMessageAt t' /\
    lastMessagePreview t'' = lastMessagePreview t'.
Proof.
  intros H.
  destruct (updateLastMessages_counts tid ms w t H)
    as [w' [t' [E [G [U [S [A _]]]]]]].
  destruct (withThread_effect tid setRead w' t' G eq_refl)
    as [w'' [E2 [G2 _]]].
  exists w', t', w'', (setRead t' (toISOString (clock w'))).
  split; [exact E|]. split; [exact G|]. split; [exact U|].
  split; [exact S|]. split; [exact E2|]. split; [exact G2|].
  simpl. repeat split; auto.
Qed.

(** On the sample world: one inbound and one outbound message on thread
    [t-1] leave one unread message, and reading leaves none. *)
Lemma unread_counts_inbound_sample :
  ddb_get threadId "t-1" (threads (Sample.world SMS open msg_sent))
  = Some (Sample.thread1 SMS open) /\
  exists w' t' w'' t'',
    updateLastMessages "t-1"
      [SampleInbound.message SampleInbound.hello; Sample.message1 msg_sent]
      (Sample.world SMS open msg_sent) = (Ok tt, w') /\
    ddb_get threadId "t-1" (threads w') = Some t' /\
    unreadCount t' = 1 /\
    ThreadService.markAsRead "t-1" w' = (Ok tt, w'') /\
    ddb_get threadId "t-1" (threads w'') = Some t'' /\
    unreadCount t'' = 0.
Proof.
  split; [reflexivity|].
  destruct (unread_counts_inbound "t-1"
              [SampleInbound.message SampleInbound.hello;
               Sample.message1 msg_sent]
              (Sample.world SMS open msg_sent) (Sample.thread1 SMS open)
              eq_refl)
    as [w' [t' [w'' [t'' [E [G [U [_ [E2 [G2 [Z _]]]]]]]]]]].
  exists w', t', w'', t''. repeat split; assumption.
Defined.

(** X10: [assign] is an unconditional overwrite.  On a stored thread it
    stores the given assignee and name whoever was assigned before, so of
    two assignments in a row the second one stands; it works on a closed
    thread as on any other, and it keeps the status, the unread count and
    the last message. *)
Theorem assign_last_writer_wins (tid a1 n1 a2 n2 : string) (w : World)
    (t : Thread) :
  ddb_get threadId tid (threads w) = Some t ->
  exists w1 w2 t2,
    ThreadService.assign tid a1 n1 w = (Ok tt, w1) /\
    ThreadService.assign tid a2 n2 w1 = (Ok tt, w2) /\
    ddb_get threadId tid (threads w2) = Some t2 /\
    assignedTo t2 = Some a2 /\ assignedToName t2 = Some n2 /\
    status t2 = status t /\ unreadCount t2 = unreadCount t /\
    lastMessagePreview t2 = lastMessagePreview t /\
    map threadId (threads w2) = map threadId (threads w).
Proof.
  intros H.
  destruct (withThread_effect tid (fun thread => setAssignee thread a1 n1) w t
              H eq_refl) as [w1 [E1 [G1 [_ [K1 _]]]]].
  destruct (withThread_effect tid (fun thread => setAssignee thread a2 n2) w1
              _ G1 eq_refl) as [w2 [E2 [G2 [_ [K2 _]]]]].
  exists w1, w2. eexists.
  split; [exact E1|]. split; [exact E2|]. split; [exact G2|].
  simpl. repeat split; try reflexivity. now rewrite K2, K1.
Qed.

(** On the sample world: the closed thread [t-1] goes to Ann and then to
    Ben. *)
Lemma assign_last_writer_wins_closed :
  ddb_get threadId "t-1" (threads (Sample.world SMS closed msg_sent))
  = Some (Sample.thread1 SMS closed) /\
  exists w1 w2 t2,
    ThreadService.assign "t-1" "u-ann" "Ann"
      (Sample.world SMS closed msg_sent) = (Ok tt, w1) /\
    ThreadService.assign "t-1" "u-ben" "Ben" w1 = (Ok tt, w2) /\
    ddb_get threadId "t-1" (threads w2) = Some t2 /\
    assignedTo t2 = Some "u-ben" /\ status t2 = closed.
Proof.
  split; [reflexivity|].
  destruct (assign_last_writer_wins "t-1" "u-ann" "Ann" "u-ben" "Ben"
              (Sample.world SMS closed msg_sent) (Sample.thread1 SMS closed)
              eq_refl)
    as [w1 [w2 [t2 [E1 [E2 [G [A [_ [S _]]]]]]]]].
  exists w1, w2, t2. repeat split; assumption.
Defined.

(** The thread updates on a thread that is not stored.  [assign],
    [updateLastMessage], [markAsRead] and [setLarkInfo] all throw
    ['Thread not found'] and write nothing; none of them creates the
    thread. *)
Theorem thread_updates_need_thread (tid : string) (w : World) :
  ddb_get threadId tid (threads w) = None ->
  (forall a n,
     ThreadService.assign tid a n w = (Throw (JsError "Thread not found"), w))
  /\
  (forall m,
     ThreadService.updateLastMessage tid m w
     = (Throw (JsError "Thread not found"), w)) /\
  ThreadService.markAsRead tid w = (Throw (JsError "Thread not found"), w) /\
  (forall g l,
     ThreadService.setLarkInfo tid g l w
     = (Throw (JsError "Thread not found"), w)).
Proof.
  intros H.
  repeat split; intros;
    apply (ThreadService_withThread_absent _ _ _ H).
Qed.

Lemma thread_updates_need_thread_sample :
  ddb_get threadId "t-9" (threads (Sample.world SMS open msg_sent)) = None /\
  ThreadService.markAsRead "t-9" (Sample.world SMS open msg_sent)
  = (Throw (JsError "Thread not found"), Sample.world SMS open msg_sent) /\
  ThreadService.assign "t-9" "u-ann" "Ann" (Sample.world SMS open msg_sent)
  = (Throw (JsError "Thread not found"), Sample.world SMS open msg_sent).
Proof.
  split; [reflexivity|].
  destruct (thread_updates_need_thread "t-9" (Sample.world SMS open msg_sent)
              eq_refl) as [A [_ [R _]]].
  split; [exact R | apply A].
Defined.

(** ** Routing an inbound message to a thread *)

Lemma ChannelType_eqb_eq (a b : ChannelType) :
  ChannelType_eqb a b = true -> a = b.
Proof. destruct a, b; simpl; intros H; try reflexivity; discriminate. Qed.

Lemma ThreadStatus_eqb_closed (st : ThreadStatus) :
  negb (ThreadStatus_eqb st closed) = true <-> st <> closed.
Proof.
  destruct st; simpl; split; intros H; try reflexivity; try discriminate;
    congruence.
Qed.

(** X11: the thread [getActiveThread] returns is always a stored thread of
    the customer and the channel asked for, and it is never closed; the
    lookup itself never throws and never writes. *)
Theorem getActiveThread_sound (cid : string) (ch : ChannelType) (w : World) :
  exists found,
    ThreadService.getActiveThread cid ch w = (Ok found, w) /\
    forall t, found = Some t ->
      In t (threads w) /\ thr_customerId t = cid /\ channel t = ch /\
      status t <> closed.
Proof.
  unfold ThreadService.getActiveThread,
    ThreadRepository.findActiveByCustomerAndChannel, gets.
  eexists. split; [reflexivity|].
  intros t Ht.
  destruct (ddb_query _ _ 1 (threads w)) as [|t0 rest] eqn:Q;
    [discriminate|].
  injection Ht as ->.
  assert (Hin : In t (ddb_query (fun t => thr_customerId t =? cid)
                        (fun t => ChannelType_eqb (channel t) ch
                                  && negb (ThreadStatus_eqb (status t) closed))
                        1 (threads w)))
    by (rewrite Q; now left).
  apply ddb_query_In in Hin. destruct Hin as [Hin [Hk Hf]].
  apply String.eqb_eq in Hk. apply andb_prop in Hf. destruct Hf as [Hc Hs].
  apply ChannelType_eqb_eq in Hc. apply ThreadStatus_eqb_closed in Hs.
  auto.
Qed.

(** An inbound message of a known customer for which the thread lookup
    returns nothing opens a thread. *)
Lemma processMessage_opens_thread (env : Env) (raw : RawMessage) (w : World)
    (item : CustomerItem) (rest : list CustomerItem) :
  identifierHits (identifierType raw) (identifierValue raw) w = item :: rest ->
  activeThreadHits (customer_id item) (raw_channel raw) w = [] ->
  ddb_get threadId (uuid_at env (uuid_ix w)) (threads w) = None ->
  exists w' t',
    InboundService.processMessage env raw w = (Ok tt, w') /\
    threads w' = threads w ++ [t'] /\
    customers w' = customers w /\
    threadId t' = uuid_at env (uuid_ix w) /\
    thr_customerId t' = customer_id item /\
    channel t' = raw_channel raw /\
    status t' = open /\ unreadCount t' = 1.
Proof.
  intros Hhits Hact Hfresh.
  set (c := CustomerRepository.mapToCustomer item).
  pose proof (resolveCustomer_found env raw w item rest Hhits) as Hc.
  fold c in Hc.
  pose proof (resolveThread_created env raw c w Hact) as Ht.
  set (t := newThread (threadInput raw c) (uuid_at env (uuid_ix w))
              (toISOString (clock w))) in Ht.
  set (wt := with_threads (ddb_put threadId t (threads w))
               (with_uuid_ix (S (uuid_ix w)) w)) in Ht.
  assert (Hs : ddb_get threadId (threadId t) (threads wt) = Some t)
    by apply (ddb_get_put_same Thread threadId t).
  destruct (processMessage_steps env raw w w wt c t t Hc Ht Hs)
    as [recorded E].
  set (m := inboundMessage raw c t (uuid_at env (S (uuid_ix w)))
              (toISOString (clock w))).
  set (t' := withLark recorded (setLastMessage t m (toISOString (clock w)))
               (toISOString (clock w))).
  destruct (withLark_same recorded
              (setLastMessage t m (toISOString (clock w)))
              (toISOString (clock w)))
    as [Tid [Tcid [Tch [Tst Tun]]]].
  fold t' in Tid, Tcid, Tch, Tst, Tun.
  simpl in Tid, Tcid, Tch, Tst, Tun.
  exists (inboundDone recorded m t wt), t'.
  split; [exact E|].
  split.
  { change (threads (inboundDone recorded m t wt)) with
      (ddb_put threadId t' (ddb_put threadId t (threads w))).
    rewrite ddb_put_put by exact Tid.
    apply ddb_put_fresh. rewrite Tid. exact Hfresh. }
  repeat split; assumption.
Qed.

(** X12: once every thread of a customer on a channel is closed, the next
    inbound message of that customer on that channel opens a new thread:
    one thread is added, open, with unread count 1, and the threads
    stored before, the closed ones included, are left as they were. *)
Theorem inbound_after_close_opens_thread (env : Env) (raw : RawMessage)
    (w : World) (item : CustomerItem) (rest : list CustomerItem) :
  identifierHits (identifierType raw) (identifierValue raw) w = item :: rest ->
  (forall t, In t (threads w) ->
             thr_customerId t = customer_id item ->
             channel t = raw_channel raw -> status t = closed) ->
  ddb_get threadId (uuid_at env (uuid_ix w)) (threads w) = None ->
  exists w' t',
    InboundService.processMessage env raw w = (Ok tt, w') /\
    threads w' = threads w ++ [t'] /\
    customers w' = customers w /\
    thr_customerId t' = customer_id item /\
    channel t' = raw_channel raw /\
    status t' = open /\ unreadCount t' = 1.
Proof.
  intros Hhits Hclosed Hfresh.
  assert (Hact : activeThreadHits (customer_id item) (raw_channel raw) w = []).
  { destruct (activeThreadHits (customer_id item) (raw_channel raw) w)
      as [|t l] eqn:Q; [reflexivity|].
    assert (Hin : In t (activeThreadHits (customer_id item) (raw_channel raw)
                          w)) by (rewrite Q; now left).
    unfold activeThreadHits in Hin. apply ddb_query_In in Hin.
    destruct Hin as [Hin [Hk Hf]].
    apply String.eqb_eq in Hk. apply andb_prop in Hf.
    destruct Hf as [Hc Hs].
    apply ChannelType_eqb_eq in Hc. apply ThreadStatus_eqb_closed in Hs.
    exfalso. apply Hs. apply (Hclosed t Hin Hk Hc). }
  destruct (processMessage_opens_thread env raw w item rest Hhits Hact Hfresh)
    as [w' [t' [E [T [C [_ [Tc [Tch [Ts Tu]]]]]]]]].
  exists w', t'. repeat split; assumption.
Qed.

(** X13: the thread lookup reads one item of the customer's index and
    filters afterwards ([Limit: 1] with a filter expression).  When the
    first thread of the customer, in the order the index is walked, is
    closed or on another channel, the lookup returns nothing although an
    open thread of that customer on that channel is stored, and
    [processMessage] opens another one: two threads that are not closed
    then exist for the same customer and channel. *)
Theorem limit_hides_open_thread (env : Env) (raw : RawMessage) (w : World)
    (item : CustomerItem) (rest : list CustomerItem)
    (t0 tOpen : Thread) (others : list Thread) :
  identifierHits (identifierType raw) (identifierValue raw) w = item :: rest ->
  filter (fun t => thr_customerId t =? customer_id item) (threads w)
  = t0 :: others ->
  channel t0 <> raw_channel raw \/ status t0 = closed ->
  In tOpen others ->
  channel tOpen = raw_channel raw -> status tOpen = open ->
  ddb_get threadId (uuid_at env (uuid_ix w)) (threads w) = None ->
  ThreadService.getActiveThread (customer_id item) (raw_channel raw) w
  = (Ok None, w) /\
  exists w' t',
    InboundService.processMessage env raw w = (Ok tt, w') /\
    threads w' = threads w ++ [t'] /\
    In tOpen (threads w') /\ In t' (threads w') /\
    threadId t' <> threadId tOpen /\
    thr_customerId t' = thr_customerId tOpen /\
    channel t' = channel tOpen /\
    status t' = open /\ status tOpen = open.
Proof.
  intros Hhits Hwalk Hfirst Hin Hch Hst Hfresh.
  assert (Hact : activeThreadHits (customer_id item) (raw_channel raw) w = []).
  { unfold activeThreadHits, ddb_query. rewrite Hwalk. simpl.
    destruct Hfirst as [Hne | Hcl].
    - destruct (ChannelType_eqb (channel t0) (raw_channel raw)) eqn:E;
        [|reflexivity].
      apply ChannelType_eqb_eq in E. contradiction.
    - rewrite Hcl. simpl. now rewrite andb_false_r. }
  assert (HinW : In tOpen (threads w)).
  { assert (H : In tOpen (filter (fun t => thr_customerId t =? customer_id item)
                            (threads w)))
      by (rewrite Hwalk; now right).
    apply filter_In in H. tauto. }
  assert (Hcust : thr_customerId tOpen = customer_id item).
  { assert (H : In tOpen (filter (fun t => thr_customerId t =? customer_id item)
                            (threads w)))
      by (rewrite Hwalk; now right).
    apply filter_In in H. destruct H as [_ H]. now apply String.eqb_eq in H. }
  split.
  { unfold ThreadService.getActiveThread,
      ThreadRepository.findActiveByCustomerAndChannel, gets.
    unfold activeThreadHits in Hact. now rewrite Hact. }
  destruct (processMessage_opens_thread env raw w item rest Hhits Hact Hfresh)
    as [w' [t' [E [T [_ [Tid [Tc [Tch [Ts _]]]]]]]]].
  exists w', t'. split; [exact E|]. split; [exact T|].
  rewrite T. split; [apply in_or_app; now left|].
  split; [apply in_or_app; right; now left|].
  split.
  { intros Heq. destruct (ddb_get_present Thread threadId tOpen (threads w) HinW)
      as [y Hy].
    rewrite <- Heq, Tid in Hy. congruence. }
  repeat split; congruence.
Qed.

(** Scenario 6 on the sample customers: Alice's sms thread is closed and
    her next sms message opens a second thread. *)
Lemma inbound_after_close_opens_thread_alice :
  identifierHits "phone" "+81900000001" SampleRouting.closedOnly
  = [CustomerRepository.mainItem SampleCustomers.alice] /\
  ddb_get threadId (uuid_at Sample.env (uuid_ix SampleRouting.closedOnly))
    (threads SampleRouting.closedOnly) = None /\
  exists w' t',
    InboundService.processMessage Sample.env SampleInbound.hello
      SampleRouting.closedOnly = (Ok tt, w') /\
    threads w' = [SampleRouting.thread "t-A1" SMS closed; t'] /\
    thr_customerId t' = "c-A" /\ channel t' = SMS /\
    status t' = open /\ unreadCount t' = 1.
Proof.
  split; [reflexivity|]. split; [reflexivity|].
  assert (Hclosed : forall t, In t (threads SampleRouting.closedOnly) ->
                    thr_customerId t = "c-A" -> channel t = SMS ->
                    status t = closed).
  { intros t [<-|[]] _ _. reflexivity. }
  destruct (inbound_after_close_opens_thread Sample.env SampleInbound.hello
              SampleRouting.closedOnly
              (CustomerRepository.mainItem SampleCustomers.alice) []
              eq_refl Hclosed eq_refl)
    as [w' [t' [E [T [_ [Tc [Tch [Ts Tu]]]]]]]].
  exists w', t'. repeat split; assumption.
Defined.

(** On the sample customers: Alice's open email thread is walked first, so
    her sms message opens a second sms thread beside the open one. *)
Lemma limit_hides_open_thread_alice :
  identifierHits "phone" "+81900000001" SampleRouting.twoChannels
  = [CustomerRepository.mainItem SampleCustomers.alice] /\
  filter (fun t => thr_customerId t =? "c-A")
    (threads SampleRouting.twoChannels)
  = [SampleRouting.thread "t-A0" EMAIL open;
     SampleRouting.thread "t-A1" SMS open] /\
  ThreadService.getActiveThread "c-A" SMS SampleRouting.twoChannels
  = (Ok None, SampleRouting.twoChannels) /\
  exists w' t',
    InboundService.processMessage Sample.env SampleInbound.hello
      SampleRouting.twoChannels = (Ok tt, w') /\
    threads w'
    = [SampleRouting.thread "t-A0" EMAIL open;
       SampleRouting.thread "t-A1" SMS open; t'] /\
    threadId t' <> "t-A1" /\
    thr_customerId t' = "c-A" /\ channel t' = SMS /\ status t' = open.
Proof.
  split; [reflexivity|]. split; [reflexivity|].
  assert (Hfirst : channel (SampleRouting.thread "t-A0" EMAIL open)
                   <> raw_channel SampleInbound.hello
                   \/ status (SampleRouting.thread "t-A0" EMAIL open) = closed)
    by (left; discriminate).
  destruct (limit_hides_open_thread Sample.env SampleInbound.hello
              SampleRouting.twoChannels
              (CustomerRepository.mainItem SampleCustomers.alice) []
              (SampleRouting.thread "t-A0" EMAIL open)
              (SampleRouting.thread "t-A1" SMS open)
              [SampleRouting.thread "t-A1" SMS open]
              eq_refl eq_refl Hfirst (or_introl eq_refl) eq_refl eq_refl
              eq_refl)
    as [G [w' [t' [E [T [_ [_ [Hne [Tc [Tch [Ts _]]]]]]]]]]].
  split; [exact G|].
  exists w', t'. repeat split; assumption.
Defined.

(** ** Replies that reach the provider *)

(** X14: a reply the provider accepts.  When the client of the thread's
    channel returns a result with [success: true], and the id drawn for
    the message is not in use, [sendReply] returns that result and stores
    exactly one new message: outbound, with status sent, sent by the
    operator, carrying the provider's [externalMessageId].  The thread gets
    the new preview and timestamp; its unread count, status and assignee
    stay, and no customer is touched. *)
Theorem sendReply_success (env : Env) (request : OutboundMessageRequest)
    (w : World) (t : Thread) (r : SendResult) :
  ddb_get threadId (req_threadId request) (threads w) = Some t ->
  providerAnswer env t request = Some (Ok r) ->
  success r = true ->
  ddb_get messageId (uuid_at env (uuid_ix w)) (messages w) = None ->
  exists w' t',
    OutboundService.sendReply env request w = (Ok r, w') /\
    messages w'
    = messages w
      ++ [outboundMessage request t r (uuid_at env (uuid_ix w))
            (toISOString (clock w))] /\
    ddb_get threadId (req_threadId request) (threads w') = Some t' /\
    lastMessagePreview t' = Some (substring0 100 (req_content request)) /\
    lastMessageAt t' = Some (toISOString (clock w)) /\
    unreadCount t' = unreadCount t /\ status t' = status t /\
    assignedTo t' = assignedTo t /\
    map threadId (threads w') = map threadId (threads w) /\
    customers w' = customers w /\
    providerCalls w' = providerCallOf t request :: providerCalls w.
Proof.
  intros H A S F.
  destruct (ddb_get_key _ _ _ _ _ H) as [Hk _].
  set (m := outboundMessage request t r (uuid_at env (uuid_ix w))
              (toISOString (clock w))).
  set (t' := setLastMessage t m (toISOString (clock w))).
  unfold OutboundService.sendReply, ThreadService.getById,
    ThreadRepository.getById, bind, gets, try_catch.
  rewrite H, dispatch_answer, A, S.
  unfold uuidv4, now, gets, MessageService.store, MessageRepository.save,
    modify, ThreadService.updateLastMessage. simpl.
  rewrite (ThreadService_withThread_found (threadId t) _ _ t)
    by (simpl; rewrite Hk; exact H).
  rewrite updateMessageStatus_inert.
  fold (outboundMessage request t r (uuid_at env (uuid_ix w))
          (toISOString (clock w))).
  fold m. simpl. fold t'.
  eexists. exists t'. split; [reflexivity|]. simpl.
  split; [apply ddb_put_fresh; exact F|].
  split.
  { rewrite <- Hk. apply (ddb_get_put_same Thread threadId t'). }
  repeat split; try reflexivity.
  apply (map_key_put _ threadId t' t). simpl. now rewrite Hk.
Qed.

(** Scenario 3 on the sample world: a reply on the facebook thread, which
    the Meta client accepts as [X1]. *)
Lemma sendReply_success_facebook :
  ddb_get threadId "t-1" (threads (Sample.world FACEBOOK open msg_sent))
  = Some (Sample.thread1 FACEBOOK open) /\
  providerAnswer Sample.env (Sample.thread1 FACEBOOK open)
    (SampleReply.reply "t-1") = Some (Ok (Sample.sentTo "X1")) /\
  ddb_get messageId
    (uuid_at Sample.env (uuid_ix (Sample.world FACEBOOK open msg_sent)))
    (messages (Sample.world FACEBOOK open msg_sent)) = None /\
  exists w' t',
    OutboundService.sendReply Sample.env (SampleReply.reply "t-1")
      (Sample.world FACEBOOK open msg_sent) = (Ok (Sample.sentTo "X1"), w') /\
    messages w'
    = [Sample.message1 msg_sent;
       outboundMessage (SampleReply.reply "t-1")
         (Sample.thread1 FACEBOOK open) (Sample.sentTo "X1") "uuid-0"
         (toISOString Sample.noon)] /\
    ddb_get threadId "t-1" (threads w') = Some t' /\
    lastMessagePreview t' = Some "hi back" /\
    unreadCount t' = 0.
Proof.
  split; [reflexivity|]. split; [reflexivity|]. split; [reflexivity|].
  destruct (sendReply_success Sample.env (SampleReply.reply "t-1")
              (Sample.world FACEBOOK open msg_sent)
              (Sample.thread1 FACEBOOK open) (Sample.sentTo "X1")
              eq_refl eq_refl eq_refl eq_refl)
    as [w' [t' [E [M [G [P [_ [U _]]]]]]]].
  exists w', t'. repeat split; assumption.
Defined.

Lemma sendReply_returned_failure (env : Env)
    (request : OutboundMessageRequest) (w : World) (t : Thread)
    (r : SendResult) :
  ddb_get threadId (req_threadId request) (threads w) = Some t ->
  providerAnswer env t request = Some (Ok r) ->
  success r = false ->
  OutboundService.sendReply env request w
  = (Ok r, with_providerCalls (providerCallOf t request :: providerCalls w) w).
Proof.
  intros H A S.
  unfold OutboundService.sendReply, ThreadService.getById,
    ThreadRepository.getById, bind, gets, try_catch.
  rewrite H, dispatch_answer, A, S. unfold ret.
  rewrite updateMessageStatus_inert. reflexivity.
Qed.

(** X15: a reply the provider declines.  When the client returns a result
    with [success: false] without throwing, [sendReply] hands that result
    back unchanged; it made one call on the client, and it stored no
    message and left every thread and customer as it was. *)
Theorem sendReply_declined (env : Env) (request : OutboundMessageRequest)
    (w : World) (t : Thread) (r : SendResult) :
  ddb_get threadId (req_threadId request) (threads w) = Some t ->
  providerAnswer env t request = Some (Ok r) ->
  success r = false ->
  exists w',
    OutboundService.sendReply env request w = (Ok r, w') /\
    messages w' = messages w /\ threads w' = threads w /\
    customers w' = customers w /\
    providerCalls w' = providerCallOf t request :: providerCalls w.
Proof.
  intros H A S. eexists.
  split; [apply (sendReply_returned_failure env request w t r H A S)|].
  repeat split; reflexivity.
Qed.

(** The reply on the facebook thread [t-1] of the sample world, when the
    Graph API rejects the request: the Meta client returns the failure
    with the API's error message. *)
Lemma sendReply_declined_by_graph_api :
  ddb_get threadId "t-1" (threads (Sample.world FACEBOOK open msg_sent))
  = Some (Sample.thread1 FACEBOOK open) /\
  exists w',
    OutboundService.sendReply
      (withClients Sample.env (fun _ _ => Ok "IM1")
         (fun _ => Rejected "Request failed with status code 400"
                     (Some "(#100) Unsupported attachment"))
         (fun _ => Resolved None) "2025-12-05T03:00:01.000Z")
      (SampleReply.reply "t-1") (Sample.world FACEBOOK open msg_sent)
    = (Ok (failedResult "(#100) Unsupported attachment"
             "2025-12-05T03:00:01.000Z"), w') /\
    messages w' = [Sample.message1 msg_sent] /\
    threads w' = [Sample.thread1 FACEBOOK open].
Proof.
  split; [reflexivity|].
  destruct (sendReply_declined
              (withClients Sample.env (fun _ _ => Ok "IM1")
                 (fun _ => Rejected "Request failed with status code 400"
                             (Some "(#100) Unsupported attachment"))
                 (fun _ => Resolved None) "2025-12-05T03:00:01.000Z")
              (SampleReply.reply "t-1") (Sample.world FACEBOOK open msg_sent)
              (Sample.thread1 FACEBOOK open)
              (failedResult "(#100) Unsupported attachment"
                 "2025-12-05T03:00:01.000Z")
              eq_refl eq_refl eq_refl)
    as [w' [E [M [T _]]]].
  exists w'. repeat split; assumption.
Defined.

Lemma sendReply_accepted (env : Env) (request : OutboundMessageRequest)
    (w : World) (t : Thread) (r : SendResult) :
  ddb_get threadId (req_threadId request) (threads w) = Some t ->
  providerAnswer env t request = Some (Ok r) ->
  success r = true ->
  exists w',
    OutboundService.sendReply env request w = (Ok r, w') /\
    messages w'
    = ddb_put messageId
        (outboundMessage request t r (uuid_at env (uuid_ix w))
           (toISOString (clock w)))
        (messages w) /\
    threads w'
    = ddb_put threadId
        (setLastMessage t
           (outboundMessage request t r (uuid_at env (uuid_ix w))
              (toISOString (clock w)))
           (toISOString (clock w)))
        (threads w) /\
    customers w' = customers w.
Proof.
  intros H A S.
  destruct (ddb_get_key _ _ _ _ _ H) as [Hk _].
  unfold OutboundService.sendReply, ThreadService.getById,
    ThreadRepository.getById, bind, gets, try_catch.
  rewrite H, dispatch_answer, A, S.
  unfold uuidv4, now, gets, MessageService.store, MessageRepository.save,
    modify, ThreadService.updateLastMessage. simpl.
  rewrite (ThreadService_withThread_found (threadId t) _ _ t)
    by (simpl; rewrite Hk; exact H).
  rewrite updateMessageStatus_inert.
  eexists. split; [reflexivity|]. simpl. repeat split; reflexivity.
Qed.

(** X16: [sendReply] never throws, whatever the provider client and the
    Lark SDK do, and it stores a message exactly when the result it
    returns is a success.  A failed result leaves the messages and the
    threads untouched; a successful one puts one outbound message of the
    stored thread under the id drawn.  No reply ever writes a customer. *)
Theorem sendReply_stores_iff_success (env : Env)
    (request : OutboundMessageRequest) (w : World) :
  exists r w',
    OutboundService.sendReply env request w = (Ok r, w') /\
    customers w' = customers w /\
    (success r = false ->
     messages w' = messages w /\ threads w' = threads w) /\
    (success r = true ->
     exists t,
       ddb_get threadId (req_threadId request) (threads w) = Some t /\
       messages w'
       = ddb_put messageId
           (outboundMessage request t r (uuid_at env (uuid_ix w))
              (toISOString (clock w)))
           (messages w)).
Proof.
  destruct (ddb_get threadId (req_threadId request) (threads w))
    as [t|] eqn:H.
  2:{ do 2 eexists. split; [apply sendReply_absent, H|].
      split; [reflexivity|]. split; [auto | discriminate]. }
  destruct (providerAnswer env t request) as [[r|e]|] eqn:A.
  - destruct (success r) eqn:S.
    + destruct (sendReply_accepted env request w t r H A S)
        as [w' [E [M [_ C]]]].
      exists r, w'. split; [exact E|]. split; [exact C|].
      split; [congruence|]. intros _. exists t. auto.
    + exists r. eexists.
      split; [apply (sendReply_returned_failure env request w t r H A S)|].
      split; [reflexivity|]. split; [auto | congruence].
  - do 2 eexists.
    split; [apply (sendReply_provider_throws env request w t e H A)|].
    split; [reflexivity|]. split; [auto | discriminate].
  - unfold OutboundService.sendReply, ThreadService.getById,
      ThreadRepository.getById, bind, gets, try_catch.
    rewrite H, dispatch_answer, A. simpl.
    rewrite updateMessageStatus_inert.
    do 2 eexists. split; [reflexivity|].
    split; [reflexivity|]. split; [auto | discriminate].
Qed.

(** ** Replies through the repository's own clients *)

Lemma clients_no_destination (env : Env) (create : TwilioClient.MessagesCreate)
    (metaPost : MetaClient.Post) (linkedInPost : LinkedInClient.Post)
    (at_ : string) (t : Thread) (request : OutboundMessageRequest) :
  truthy (replyDestination t) = false ->
  channel t <> EMAIL ->
  providerAnswer (withClients env create metaPost linkedInPost at_) t request
  = Some (Ok (failedResult
                (noDestinationError (CHANNEL_PROVIDERS (channel t))) at_)).
Proof.
  unfold providerAnswer, replyDestination, withClients. simpl.
  destruct (channel t); simpl; intros D Hch; try congruence;
    unfold TwilioClient.sendMessage, MetaClient.sendMessage,
      LinkedInClient.sendMessage;
    try (rewrite D; reflexivity);
    destruct (externalConversationId t) as [d|]; try reflexivity;
    simpl in D; unfold String.eqb in *; fold String.eqb in *;
    destruct d; try discriminate; reflexivity.
Qed.

Lemma firstThreadStored_fields (recorded : option (string * string))
    (env : Env) (raw : RawMessage) (w : World) :
  threadId (firstThreadStored recorded env raw w)
  = uuid_at env (1 + uuid_ix w) /\
  channel (firstThreadStored recorded env raw w) = raw_channel raw /\
  externalConversationId (firstThreadStored recorded env raw w)
  = raw_externalMessageId raw /\
  thr_metadata (firstThreadStored recorded env raw w) = None.
Proof.
  unfold firstThreadStored, withLark.
  destruct recorded as [[g l]|]; simpl; auto.
Qed.

Lemma firstThreadStored_get (recorded : option (string * string))
    (env : Env) (raw : RawMessage) (w : World) :
  freshIds env w ->
  ddb_get threadId (uuid_at env (1 + uuid_ix w))
    (threads (afterFirst recorded env raw w))
  = Some (firstThreadStored recorded env raw w).
Proof.
  intros F. unfold afterFirst. simpl threads.
  rewrite (ddb_get_last _ threadId _ _ _ (fresh_thread F)).
  destruct (firstThreadStored_fields recorded env raw w) as [-> _].
  now rewrite String.eqb_refl.
Qed.

(** X17: a first message without an external id opens a thread nobody can
    answer.  [processMessage] copies the message's [externalMessageId]
    into the new thread's [externalConversationId] and gives the thread no
    metadata, and that is the only place the clients look for a
    destination.  So when the first message of an unknown identifier, on
    any channel but email, has no [externalMessageId] (or an empty one, as
    the Twilio adapter writes for a missing [MessageSid]), every reply to
    the thread it opened fails with the client's own error ('No
    conversation ID', 'No recipient ID' or 'No recipient URN'), whatever
    the provider's API would have answered, and stores nothing. *)
Theorem reply_needs_first_message_id (base : Env)
    (create : TwilioClient.MessagesCreate) (metaPost : MetaClient.Post)
    (linkedInPost : LinkedInClient.Post) (at_ : string) (raw : RawMessage)
    (w : World) (request : OutboundMessageRequest) :
  identifierHits (identifierType raw) (identifierValue raw) w = [] ->
  freshIds (withClients base create metaPost linkedInPost at_) w ->
  truthy (raw_externalMessageId raw) = false ->
  raw_channel raw <> EMAIL ->
  req_threadId request = uuid_at base (1 + uuid_ix w) ->
  exists w1 w2,
    InboundService.processMessage
      (withClients base create metaPost linkedInPost at_) raw w
    = (Ok tt, w1) /\
    OutboundService.sendReply
      (withClients base create metaPost linkedInPost at_) request w1
    = (Ok (failedResult
             (noDestinationError (CHANNEL_PROVIDERS (raw_channel raw))) at_),
       w2) /\
    messages w2 = messages w1 /\ threads w2 = threads w1 /\
    customers w2 = customers w1.
Proof.
  intros Hhits F D Hch Hid.
  set (env := withClients base create metaPost linkedInPost at_) in *.
  destruct (processMessage_first env raw w Hhits F) as [recorded E].
  destruct (firstThreadStored_fields recorded env raw w)
    as [_ [Tch [Tx Tm]]].
  pose proof (firstThreadStored_get recorded env raw w F) as G.
  change (uuid_at env (1 + uuid_ix w)) with (uuid_at base (1 + uuid_ix w))
    in G.
  rewrite <- Hid in G.
  assert (A : providerAnswer env (firstThreadStored recorded env raw w)
                request
              = Some (Ok (failedResult
                            (noDestinationError
                               (CHANNEL_PROVIDERS (raw_channel raw))) at_))).
  { rewrite <- Tch. apply clients_no_destination.
    - unfold replyDestination. rewrite Tm, Tx, Tch.
      destruct (CHANNEL_PROVIDERS (raw_channel raw)); simpl; auto.
    - now rewrite Tch. }
  exists (afterFirst recorded env raw w). eexists.
  split; [exact E|].
  split; [apply (sendReply_returned_failure env request _ _ _ G A eq_refl)|].
  repeat split; reflexivity.
Qed.

(** Scenario 1 followed by a reply: the sms message of the sample carries
    no external id, and the reply to the thread it opened fails before
    the Twilio API is asked. *)
Lemma reply_needs_first_message_id_sms :
  identifierHits (identifierType SampleInbound.hello)
    (identifierValue SampleInbound.hello) Sample.empty = [] /\
  truthy (raw_externalMessageId SampleInbound.hello) = false /\
  exists w1 w2,
    InboundService.processMessage
      (withClients Sample.env (fun _ _ => Ok "IM1") (fun _ => Resolved None)
         (fun _ => Resolved None) "2025-12-05T03:00:01.000Z")
      SampleInbound.hello Sample.empty
    = (Ok tt, w1) /\
    OutboundService.sendReply
      (withClients Sample.env (fun _ _ => Ok "IM1") (fun _ => Resolved None)
         (fun _ => Resolved None) "2025-12-05T03:00:01.000Z")
      (SampleReply.reply "uuid-1") w1
    = (Ok (failedResult "No conversation ID" "2025-12-05T03:00:01.000Z"),
       w2) /\
    messages w2 = messages w1.
Proof.
  split; [reflexivity|]. split; [reflexivity|].
  assert (F : freshIds
                (withClients Sample.env (fun _ _ => Ok "IM1")
                   (fun _ => Resolved None) (fun _ => Resolved None)
                   "2025-12-05T03:00:01.000Z") Sample.empty)
    by (constructor; solve [reflexivity | discriminate]).
  assert (Hch : raw_channel SampleInbound.hello <> EMAIL) by discriminate.
  destruct (reply_needs_first_message_id Sample.env (fun _ _ => Ok "IM1")
              (fun _ => Resolved None) (fun _ => Resolved None)
              "2025-12-05T03:00:01.000Z" SampleInbound.hello Sample.empty
              (SampleReply.reply "uuid-1") eq_refl F eq_refl Hch eq_refl)
    as [w1 [w2 [E1 [E2 [M _]]]]].
  exists w1, w2. repeat split; assumption.
Defined.

(** X18: where a Messenger or Instagram reply is sent.  For the thread
    that the first message of an unknown identifier opened on facebook or
    instagram, the Meta client addresses the Graph API request to the
    [externalMessageId] of that first message, whatever the metadata of
    the message says: the thread has no metadata of its own, so
    [metadata.recipientPsid] is never found.  The result of [sendReply] is
    the client's reading of what the API answered to that request. *)
Theorem meta_reply_goes_to_message_id (base : Env)
    (create : TwilioClient.MessagesCreate) (metaPost : MetaClient.Post)
    (linkedInPost : LinkedInClient.Post) (at_ : string) (raw : RawMessage)
    (w : World) (request : OutboundMessageRequest) (mid : string) :
  identifierHits (identifierType raw) (identifierValue raw) w = [] ->
  freshIds (withClients base create metaPost linkedInPost at_) w ->
  CHANNEL_PROVIDERS (raw_channel raw) = meta ->
  raw_externalMessageId raw = Some mid ->
  mid <> "" ->
  req_threadId request = uuid_at base (1 + uuid_ix w) ->
  exists w1 w2,
    InboundService.processMessage
      (withClients base create metaPost linkedInPost at_) raw w
    = (Ok tt, w1) /\
    OutboundService.sendReply
      (withClients base create metaPost linkedInPost at_) request w1
    = (Ok match metaPost
                  {| MetaClient.recipient := mid;
                     MetaClient.message :=
                       MetaClient.payloadMessage (req_content request)
                         (req_attachments request) |} with
          | Resolved id => sentResult id at_
          | Rejected message_ responseMessage =>
              failedResult (or_str responseMessage message_) at_
          end,
       w2).
Proof.
  intros Hhits F P X Hmid Hid.
  set (env := withClients base create metaPost linkedInPost at_) in *.
  destruct (processMessage_first env raw w Hhits F) as [recorded E].
  destruct (firstThreadStored_fields recorded env raw w)
    as [_ [Tch [Tx Tm]]].
  pose proof (firstThreadStored_get recorded env raw w F) as G.
  change (uuid_at env (1 + uuid_ix w)) with (uuid_at base (1 + uuid_ix w))
    in G.
  rewrite <- Hid in G.
  apply String.eqb_neq in Hmid.
  assert (A : providerAnswer env (firstThreadStored recorded env raw w)
                request
              = Some (Ok match metaPost
                                 {| MetaClient.recipient := mid;
                                    MetaClient.message :=
                                      MetaClient.payloadMessage
                                        (req_content request)
                                        (req_attachments request) |} with
                         | Resolved id => sentResult id at_
                         | Rejected message_ responseMessage =>
                             failedResult (or_str responseMessage message_)
                               at_
                         end)).
  { unfold providerAnswer. rewrite Tch, P. simpl.
    unfold MetaClient.sendMessage. rewrite Tm, Tx, X.
    unfold metadataField, or_opt, or_str, truthy. rewrite Hmid. simpl.
    destruct (metaPost _); reflexivity. }
  destruct (sendReply_provider_returns env request _ _ _ G A)
    as [w2 [E2 _]].
  exists (afterFirst recorded env raw w), w2. split; assumption.
Qed.

(** A first Messenger message with id [mid.1] and the sender's PSID in its
    metadata, then a reply: the Graph API is asked to deliver to [mid.1]. *)
Lemma meta_reply_goes_to_message_id_sample :
  exists w1 w2,
    InboundService.processMessage
      (withClients Sample.env (fun _ _ => Ok "IM1")
         (fun p => if MetaClient.recipient p =? "mid.1"
                   then Rejected "Request failed with status code 400"
                          (Some "(#100) No matching user found")
                   else Resolved (Some "mid.2"))
         (fun _ => Resolved None) "2025-12-05T03:00:01.000Z")
      {| raw_channel := FACEBOOK; identifierType := "fb_psid";
         identifierValue := "psid-7"; raw_content := Some "hello";
         raw_contentType := None; raw_attachments := None;
         raw_senderId := Some "psid-7"; raw_senderName := None;
         raw_senderAvatar := None; raw_timestamp := None;
         raw_externalMessageId := Some "mid.1";
         raw_metadata := Some [("recipientPsid", "psid-7")] |}
      Sample.empty
    = (Ok tt, w1) /\
    OutboundService.sendReply
      (withClients Sample.env (fun _ _ => Ok "IM1")
         (fun p => if MetaClient.recipient p =? "mid.1"
                   then Rejected "Request failed with status code 400"
                          (Some "(#100) No matching user found")
                   else Resolved (Some "mid.2"))
         (fun _ => Resolved None) "2025-12-05T03:00:01.000Z")
      (SampleReply.reply "uuid-1") w1
    = (Ok (failedResult "(#100) No matching user found"
             "2025-12-05T03:00:01.000Z"), w2).
Proof.
  assert (F : freshIds
                (withClients Sample.env (fun _ _ => Ok "IM1")
                   (fun p => if MetaClient.recipient p =? "mid.1"
                             then Rejected
                                    "Request failed with status code 400"
                                    (Some "(#100) No matching user found")
                             else Resolved (Some "mid.2"))
                   (fun _ => Resolved None)
                   "2025-12-05T03:00:01.000Z") Sample.empty)
    by (constructor; solve [reflexivity | discriminate]).
  assert (Hmid : "mid.1"%string <> ""%string) by discriminate.
  exact (meta_reply_goes_to_message_id Sample.env (fun _ _ => Ok "IM1")
           (fun p => if MetaClient.recipient p =? "mid.1"
                     then Rejected "Request failed with status code 400"
                            (Some "(#100) No matching user found")
                     else Resolved (Some "mid.2"))
           (fun _ => Resolved None) "2025-12-05T03:00:01.000Z"
           {| raw_channel := FACEBOOK; identifierType := "fb_psid";
              identifierValue := "psid-7"; raw_content := Some "hello";
              raw_contentType := None; raw_attachments := None;
              raw_senderId := Some "psid-7"; raw_senderName := None;
              raw_senderAvatar := None; raw_timestamp := None;
              raw_externalMessageId := Some "mid.1";
              raw_metadata := Some [("recipientPsid", "psid-7")] |}
           Sample.empty (SampleReply.reply "uuid-1") "mid.1"
           eq_refl F eq_refl eq_refl Hmid eq_refl).
Defined.

(** ** The Lark ids of a thread *)

Lemma sendMessageNotification_exact (env : Env) (message : UnifiedMessage)
    (customer : Customer) (thread stored : Thread) (w : World) :
  ddb_get threadId (threadId thread) (threads w) = Some stored ->
  LarkNotificationService.sendMessageNotification env message customer
    thread w
  = (Ok tt,
     match larkIdsRecorded env message customer thread with
     | None => w
     | Some (groupId, larkId) =>
         with_threads
           (ddb_put threadId
              (setLark stored groupId larkId (toISOString (clock w)))
              (threads w)) w
     end).
Proof.
  intros H.
  unfold LarkNotificationService.sendMessageNotification, larkIdsRecorded.
  fold (notificationGroup env thread).
  destruct (notificationGroup env thread =? ""); [reflexivity|].
  unfold bind, LarkClient.sendInteractiveCard, try_catch, lift_result, ret.
  destruct (im_message_create env _ _) as [mid|e]; simpl; [|reflexivity].
  destruct (truthy mid && negb (truthy (larkMessageId thread)));
    [|reflexivity].
  unfold ThreadService.setLarkInfo.
  rewrite (ThreadService_withThread_found _ _ _ _ H). reflexivity.
Qed.

Lemma processMessage_steps_exact (env : Env) (raw : RawMessage)
    (w wc wt : World) (c : Customer) (t stored : Thread) :
  InboundService.resolveCustomer env raw w = (Ok c, wc) ->
  InboundService.resolveThread env raw c wc = (Ok t, wt) ->
  ddb_get threadId (threadId t) (threads wt) = Some stored ->
  InboundService.processMessage env raw w
  = (Ok tt,
     inboundDone
       (larkIdsRecorded env
          (inboundMessage raw c t (uuid_at env (uuid_ix wt))
             (toISOString (clock wt)))
          c t)
       (inboundMessage raw c t (uuid_at env (uuid_ix wt))
          (toISOString (clock wt)))
       stored wt).
Proof.
  intros Hc Ht Hs.
  unfold InboundService.processMessage, bind.
  rewrite (persistInbound_steps env raw w wc wt c t stored Hc Ht Hs).
  set (m := inboundMessage raw c t (uuid_at env (uuid_ix wt))
              (toISOString (clock wt))).
  destruct (ddb_get_key _ _ _ _ _ Hs) as [Hk _].
  assert (G : ddb_get threadId (threadId t) (threads (afterInbound m stored wt))
              = Some (setLastMessage stored m (toISOString (clock wt)))).
  { unfold afterInbound. simpl. rewrite <- Hk.
    apply (ddb_get_put_same Thread threadId
             (setLastMessage stored m (toISOString (clock wt)))). }
  rewrite (sendMessageNotification_exact env m c t _ _ G).
  destruct (larkIdsRecorded env m c t) as [[g l]|]; [|reflexivity].
  unfold inboundDone, afterInbound. simpl.
  rewrite ddb_put_put by reflexivity. reflexivity.
Qed.

Lemma activeThread_stored (env : Env) (raw : RawMessage) (w : World)
    (item : CustomerItem) (rest : list CustomerItem) (t stored : Thread)
    (rest' : list Thread) :
  identifierHits (identifierType raw) (identifierValue raw) w = item :: rest ->
  activeThreadHits (customer_id item) (raw_channel raw) w = t :: rest' ->
  ddb_get threadId (threadId t) (threads w) = Some stored ->
  InboundService.processMessage env raw w
  = (Ok tt,
     inboundDone
       (larkIdsRecorded env
          (inboundMessage raw (CustomerRepository.mapToCustomer item) t
             (uuid_at env (uuid_ix w)) (toISOString (clock w)))
          (CustomerRepository.mapToCustomer item) t)
       (inboundMessage raw (CustomerRepository.mapToCustomer item) t
          (uuid_at env (uuid_ix w)) (toISOString (clock w)))
       stored w).
Proof.
  intros Hhits Hact Hs.
  pose proof (resolveCustomer_found env raw w item rest Hhits) as Hc.
  assert (Hact' : activeThreadHits
                    (customerId (CustomerRepository.mapToCustomer item))
                    (raw_channel raw) w = t :: rest') by exact Hact.
  pose proof (resolveThread_found env raw _ w t rest' Hact') as Ht.
  apply (processMessage_steps_exact env raw w w w _ t stored Hc Ht Hs).
Qed.

(** X19: the Lark ids of a thread are recorded once.  When an inbound
    message lands on an active thread that already carries a Lark message
    id, [processMessage] still stores the message and counts it as
    unread, but whatever card the Lark SDK creates for it, the thread
    record keeps the Lark group and message ids it had: later status
    updates go on patching the first card. *)
Theorem lark_ids_recorded_once (env : Env) (raw : RawMessage) (w : World)
    (item : CustomerItem) (rest : list CustomerItem) (t stored : Thread)
    (rest' : list Thread) :
  identifierHits (identifierType raw) (identifierValue raw) w = item :: rest ->
  activeThreadHits (customer_id item) (raw_channel raw) w = t :: rest' ->
  ddb_get threadId (threadId t) (threads w) = Some stored ->
  truthy (larkMessageId t) = true ->
  exists w' t' m,
    InboundService.processMessage env raw w = (Ok tt, w') /\
    ddb_get threadId (threadId t) (threads w') = Some t' /\
    larkMessageId t' = larkMessageId stored /\
    larkGroupId t' = larkGroupId stored /\
    unreadCount t' = unreadCount stored + 1 /\
    ddb_get messageId (uuid_at env (uuid_ix w)) (messages w') = Some m /\
    msg_threadId m = threadId t /\ direction m = inbound /\
    content m = or_str (raw_content raw) "".
Proof.
  intros Hhits Hact Hs L.
  rewrite (activeThread_stored env raw w item rest t stored rest'
             Hhits Hact Hs).
  destruct (ddb_get_key _ _ _ _ _ Hs) as [Hk _].
  assert (R : forall m c, larkIdsRecorded env m c t = None).
  { intros m c. unfold larkIdsRecorded. rewrite L.
    destruct (notificationGroup env t =? ""); [reflexivity|].
    destruct (im_message_create env _ _) as [mid|e]; [|reflexivity].
    now rewrite andb_false_r. }
  rewrite R. unfold inboundDone, withLark. simpl.
  set (m := inboundMessage raw (CustomerRepository.mapToCustomer item) t
              (uuid_at env (uuid_ix w)) (toISOString (clock w))).
  eexists. eexists. exists m. split; [reflexivity|]. simpl.
  split.
  { rewrite <- Hk.
    apply (ddb_get_put_same Thread threadId
             (setLastMessage stored m (toISOString (clock w)))). }
  do 3 (split; [reflexivity|]).
  split; [apply (ddb_get_put_same UnifiedMessage messageId m)|].
  repeat split; reflexivity.
Qed.

(** Alice's sms thread carries the ids of the card [om_1] in the group
    [oc_vip]; the SDK creates the card [om_2] for her next message. *)
Lemma lark_ids_recorded_once_alice :
  exists w' t' m,
    InboundService.processMessage SampleLark.env SampleInbound.hello
      (SampleRouting.world [SampleLark.notified]) = (Ok tt, w') /\
    ddb_get threadId "t-A1" (threads w') = Some t' /\
    larkMessageId t' = Some "om_1" /\
    larkGroupId t' = Some "oc_vip" /\
    unreadCount t' = 1 /\
    ddb_get messageId "uuid-0" (messages w') = Some m /\
    msg_threadId m = "t-A1" /\ direction m = inbound /\
    content m = "hello".
Proof.
  exact (lark_ids_recorded_once SampleLark.env SampleInbound.hello
           (SampleRouting.world [SampleLark.notified])
           (CustomerRepository.mainItem SampleCustomers.alice) []
           SampleLark.notified SampleLark.notified [] eq_refl eq_refl
           eq_refl eq_refl).
Defined.

(** X20: the first card is the one recorded.  When an inbound message
    lands on an active thread that has no Lark message id, a group is
    configured, and the Lark SDK creates the card under a non-empty id,
    [processMessage] records that id and the group the card went to on
    the thread record, together with the new preview and unread count. *)
Theorem first_card_recorded (env : Env) (raw : RawMessage) (w : World)
    (item : CustomerItem) (rest : list CustomerItem) (t stored : Thread)
    (rest' : list Thread) (larkId : string) :
  identifierHits (identifierType raw) (identifierValue raw) w = item :: rest ->
  activeThreadHits (customer_id item) (raw_channel raw) w = t :: rest' ->
  ddb_get threadId (threadId t) (threads w) = Some stored ->
  truthy (larkMessageId t) = false ->
  notificationGroup env t <> "" ->
  (forall card,
     im_message_create env (notificationGroup env t) card
     = Ok (Some larkId)) ->
  larkId <> "" ->
  exists w' t',
    InboundService.processMessage env raw w = (Ok tt, w') /\
    ddb_get threadId (threadId t) (threads w') = Some t' /\
    larkMessageId t' = Some larkId /\
    larkGroupId t' = Some (notificationGroup env t) /\
    unreadCount t' = unreadCount stored + 1 /\
    lastMessagePreview t'
    = Some (substring0 100 (or_str (raw_content raw) "")).
Proof.
  intros Hhits Hact Hs L G C Hl.
  rewrite (activeThread_stored env raw w item rest t stored rest'
             Hhits Hact Hs).
  destruct (ddb_get_key _ _ _ _ _ Hs) as [Hk _].
  apply String.eqb_neq in G. apply String.eqb_neq in Hl.
  assert (R : forall m c,
            larkIdsRecorded env m c t
            = Some (notificationGroup env t, larkId)).
  { intros m c. unfold larkIdsRecorded. rewrite G, C, L.
    unfold truthy, or_str. rewrite Hl. reflexivity. }
  rewrite R. unfold inboundDone, withLark. simpl.
  eexists. eexists. split; [reflexivity|]. simpl.
  split.
  { rewrite <- Hk.
    apply (ddb_get_put_same Thread threadId
             (setLark (setLastMessage stored _ (toISOString (clock w)))
                _ _ _)). }
  simpl. repeat split; reflexivity.
Qed.

(** Alice's open sms thread has no card yet; her message gets the card
    [om_2] in the default group. *)
Lemma first_card_recorded_alice :
  exists w' t',
    InboundService.processMessage SampleLark.env SampleInbound.hello
      (SampleRouting.world [SampleRouting.thread "t-A1" SMS open])
    = (Ok tt, w') /\
    ddb_get threadId "t-A1" (threads w') = Some t' /\
    larkMessageId t' = Some "om_2" /\
    larkGroupId t' = Some "oc_default" /\
    unreadCount t' = 1 /\
    lastMessagePreview t' = Some "hello".
Proof.
  assert (G : notificationGroup SampleLark.env
                (SampleRouting.thread "t-A1" SMS open) <> ""%string)
    by discriminate.
  assert (Hl : "om_2"%string <> ""%string) by discriminate.
  exact (first_card_recorded SampleLark.env SampleInbound.hello
           (SampleRouting.world [SampleRouting.thread "t-A1" SMS open])
           (CustomerRepository.mainItem SampleCustomers.alice) []
           (SampleRouting.thread "t-A1" SMS open)
           (SampleRouting.thread "t-A1" SMS open) [] "om_2"
           eq_refl eq_refl eq_refl eq_refl G (fun _ => eq_refl) Hl).
Defined.

(** ** What every inbound message leaves behind *)

Lemma resolveCustomer_stored (env : Env) (raw : RawMessage) (w : World) :
  exists c wc item,
    InboundService.resolveCustomer env raw w = (Ok c, wc) /\
    ddb_get customer_id (customerId c) (customers wc) = Some item.
Proof.
  destruct (identifierHits (identifierType raw) (identifierValue raw) w)
    as [|i rest] eqn:E.
  - rewrite (resolveCustomer_created env raw w E).
    do 3 eexists. split; [reflexivity|]. simpl.
    apply (ddb_get_put_same CustomerItem customer_id
             (CustomerRepository.mainItem
                (newCustomer (customerInput raw) (uuid_at env (uuid_ix w))
                   (toISOString (clock w))))).
  - rewrite (resolveCustomer_found env raw w i rest E).
    assert (Hin : In i (customers w)).
    { apply (ddb_query_In CustomerItem
               (CustomerRepository.identifierKey (identifierType raw)
                  (identifierValue raw))
               (fun _ => true) 1 (customers w) i).
      unfold identifierHits in E. rewrite E. now left. }
    destruct (ddb_get_present CustomerItem customer_id i _ Hin) as [y Hy].
    exists (CustomerRepository.mapToCustomer i), w, y.
    split; [reflexivity | exact Hy].
Qed.

(** X21: what [processMessage] guarantees for any message on any stored
    state.  It returns normally, and afterwards one inbound message with
    status delivered is stored on the channel of the raw message; the
    thread id and the customer id it carries both name stored records;
    and that thread has at least one unread message and shows the first
    100 characters of the message as its preview. *)
Theorem processMessage_records_are_linked (env : Env) (raw : RawMessage)
    (w : World) :
  exists w' m t item,
    InboundService.processMessage env raw w = (Ok tt, w') /\
    ddb_get messageId (messageId m) (messages w') = Some m /\
    direction m = inbound /\
    msg_status m = msg_delivered /\
    msg_channel m = raw_channel raw /\
    content m = or_str (raw_content raw) "" /\
    ddb_get threadId (msg_threadId m) (threads w') = Some t /\
    1 <= unreadCount t /\
    lastMessagePreview t = Some (substring0 100 (content m)) /\
    ddb_get customer_id (msg_customerId m) (customers w') = Some item.
Proof.
  destruct (resolveCustomer_stored env raw w) as [c [wc [item [Hc Hi]]]].
  destruct (resolveThread_total env raw c wc) as [t [wt [stored [Ht Hs]]]].
  rewrite (processMessage_steps_exact env raw w wc wt c t stored Hc Ht Hs).
  destruct (ddb_get_key _ _ _ _ _ Hs) as [Hk _].
  set (m := inboundMessage raw c t (uuid_at env (uuid_ix wt))
              (toISOString (clock wt))).
  set (t' := withLark (larkIdsRecorded env m c t)
               (setLastMessage stored m (toISOString (clock wt)))
               (toISOString (clock wt))).
  assert (Tk : threadId t' = threadId t).
  { unfold t', withLark.
    destruct (larkIdsRecorded env m c t) as [[g l]|]; simpl; exact Hk. }
  exists (inboundDone (larkIdsRecorded env m c t) m stored wt), m, t', item.
  split; [reflexivity|].
  split; [apply (ddb_get_put_same UnifiedMessage messageId m)|].
  do 4 (split; [reflexivity|]).
  split.
  { unfold inboundDone. simpl. fold t'. rewrite <- Tk.
    apply (ddb_get_put_same Thread threadId t'). }
  split.
  { unfold t', withLark.
    destruct (larkIdsRecorded env m c t) as [[g l]|]; simpl; lia. }
  split.
  { unfold t', withLark.
    destruct (larkIdsRecorded env m c t) as [[g l]|]; reflexivity. }
  unfold inboundDone. simpl.
  rewrite (resolveThread_customers env raw c wc wt t Ht). exact Hi.
Qed.

(** ** The buttons of a Lark card *)

Lemma withThread_other_threads (tid' : string)
    (assign : Thread -> string -> Thread) (w : World) (tid : string)
    (t : Thread) :
  (forall x now_, threadId (assign x now_) = threadId x) ->
  ddb_get threadId tid (threads w) = Some t ->
  exists r w' t',
    ThreadService.withThread tid' assign w = (r, w') /\
    ddb_get threadId tid (threads w') = Some t' /\
    customers w' = customers w /\ messages w' = messages w /\
    (t' = t \/ (tid' = tid /\ t' = assign t (toISOString (clock w)))).
Proof.
  intros Hid H.
  destruct (ddb_get threadId tid' (threads w)) as [t0|] eqn:H0.
  - rewrite (ThreadService_withThread_found tid' assign w t0 H0).
    destruct (ddb_get_key _ _ _ _ _ H0) as [Hk0 _].
    destruct (String.eqb_spec tid' tid) as [->|Hne].
    + assert (t0 = t) by congruence. subst t0.
      do 3 eexists. split; [reflexivity|]. simpl.
      split.
      { rewrite <- Hk0 at 1. rewrite <- (Hid t (toISOString (clock w))).
        apply (ddb_get_put_same Thread threadId
                 (assign t (toISOString (clock w)))). }
      repeat split; auto.
    + do 3 eexists. split; [reflexivity|]. simpl.
      split.
      { rewrite (ddb_get_put_other Thread threadId tid
                   (assign t0 (toISOString (clock w))) (threads w)).
        - exact H.
        - rewrite Hid. congruence. }
      repeat split; auto.
  - rewrite (ThreadService_withThread_absent tid' assign w H0).
    exists (Throw (JsError "Thread not found")), w, t.
    repeat split; auto.
Qed.

Lemma sendReply_keeps_status (env : Env) (request : OutboundMessageRequest)
    (w : World) (tid : string) (t : Thread) :
  ddb_get threadId tid (threads w) = Some t ->
  exists r w' t',
    OutboundService.sendReply env request w = (Ok r, w') /\
    ddb_get threadId tid (threads w') = Some t' /\
    status t' = status t /\ assignedTo t' = assignedTo t /\
    unreadCount t' = unreadCount t.
Proof.
  intros H.
  destruct (ddb_get threadId (req_threadId request) (threads w))
    as [t0|] eqn:H0.
  2:{ do 2 eexists. exists t. split; [apply sendReply_absent, H0|]. auto. }
  destruct (providerAnswer env t0 request) as [[r|e]|] eqn:A.
  - destruct (success r) eqn:S.
    + destruct (sendReply_accepted env request w t0 r H0 A S)
        as [w' [E [_ [T _]]]].
      destruct (ddb_get_key _ _ _ _ _ H0) as [Hk0 _].
      set (m := outboundMessage request t0 r (uuid_at env (uuid_ix w))
                  (toISOString (clock w))) in T.
      destruct (String.eqb_spec (req_threadId request) tid) as [Heq|Hne].
      * assert (t0 = t) by congruence. subst t0.
        exists r, w', (setLastMessage t m (toISOString (clock w))).
        split; [exact E|]. rewrite T. split; [|auto].
        rewrite <- Heq, <- Hk0.
        apply (ddb_get_put_same Thread threadId
                 (setLastMessage t m (toISOString (clock w)))).
      * exists r, w', t. split; [exact E|]. rewrite T. split; [|auto].
        rewrite (ddb_get_put_other Thread threadId tid
                   (setLastMessage t0 m (toISOString (clock w)))
                   (threads w)); [exact H|].
        simpl. congruence.
    + do 2 eexists. exists t.
      split; [apply (sendReply_returned_failure env request w t0 r H0 A S)|].
      auto.
  - do 2 eexists. exists t.
    split; [apply (sendReply_provider_throws env request w t0 e H0 A)|].
    auto.
  - unfold OutboundService.sendReply, ThreadService.getById,
      ThreadRepository.getById, bind, gets, try_catch.
    rewrite H0, dispatch_answer, A. simpl.
    rewrite updateMessageStatus_inert.
    do 2 eexists. exists t. split; [reflexivity|]. auto.
Qed.

Lemma actionOf_newStatus (body : LarkBody) (value : ActionValue)
    (st : ThreadStatus) :
  newStatus (LarkWebhookHandler.actionOf body value) = Some st ->
  st = closed \/ st = pending.
Proof.
  unfold LarkWebhookHandler.actionOf.
  destruct (val_action value) as [a|]; [|discriminate].
  repeat match goal with
         | |- context [if ?b then _ else _] => destruct b
         end; simpl; intros E; try discriminate;
    injection E as <-; auto.
Qed.

Lemma parseAction_newStatus (body : LarkBody) (action : LarkAction)
    (st : ThreadStatus) :
  LarkWebhookHandler.parseAction body = Ok action ->
  newStatus action = Some st ->
  st = closed \/ st = pending.
Proof.
  unfold LarkWebhookHandler.parseAction.
  destruct (action_value body) as [[value|e]|]; intros E;
    try discriminate; injection E as <-; apply actionOf_newStatus.
Qed.

(** X22: what a button can do to a thread.  Whatever request reaches the
    outbound handler, it answers 200 or 500 and never throws, and every
    stored thread is still stored afterwards, with the status it had or
    with status closed or pending: no request sets a thread to open, and
    a reply sent from the card of a closed thread leaves it closed. *)
Theorem card_actions_never_reopen (env : Env) (parsed : Result LarkBody)
    (w : World) (tid : string) (t : Thread) :
  ddb_get threadId tid (threads w) = Some t ->
  exists resp w' t',
    OutboundHandler.handler env parsed w = (Ok resp, w') /\
    (statusCode resp = 200 \/ statusCode resp = 500) /\
    ddb_get threadId tid (threads w') = Some t' /\
    (status t' = status t \/ status t' = closed \/ status t' = pending) /\
    (forall body action,
       parsed = Ok body ->
       LarkWebhookHandler.parseAction body = Ok action ->
       la_type action = lark_reply ->
       status t' = status t).
Proof.
  intros H.
  unfold OutboundHandler.handler, try_catch, bind, lift_result.
  destruct parsed as [body|e].
  2:{ exists {| statusCode := 500; resp_body := InternalErrorBody |}, w, t.
      simpl. repeat split; auto. }
  destruct (match body_type body with
            | Some ty => ty =? "url_verification"
            | None => false
            end).
  { do 2 eexists. exists t. split; [reflexivity|]. simpl.
    repeat split; auto. }
  destruct (LarkWebhookHandler.parseAction body) as [action|e] eqn:P.
  2:{ exists {| statusCode := 500; resp_body := InternalErrorBody |}, w, t.
      simpl. repeat split; auto. }
  destruct (LarkActionType_eqb (la_type action) lark_reply) eqn:R.
  { destruct (sendReply_keeps_status env (OutboundHandler.replyRequest action)
                w tid t H) as [r [w' [t' [E [G [S _]]]]]].
    rewrite E. do 2 eexists. exists t'. split; [reflexivity|]. simpl.
    repeat split; auto. }
  assert (NotReply : forall body0 action0,
            Ok body = Ok body0 ->
            LarkWebhookHandler.parseAction body0 = Ok action0 ->
            la_type action0 = lark_reply -> False).
  { intros body0 action0 Eb Ea Ty. injection Eb as <-.
    rewrite P in Ea. injection Ea as <-.
    rewrite Ty in R. discriminate. }
  destruct (if LarkActionType_eqb (la_type action) lark_status_change
            then newStatus action else None) as [st|] eqn:N.
  { assert (Hst : st = closed \/ st = pending).
    { destruct (LarkActionType_eqb (la_type action) lark_status_change);
        [|discriminate].
      apply (parseAction_newStatus body action st P N). }
    unfold OutboundService.updateThreadStatus, ThreadService.updateStatus.
    destruct (withThread_other_threads (la_threadId action)
                (fun thread => setStatus thread st) w tid t
                (fun _ _ => eq_refl) H)
      as [r [w' [t' [E [G [_ [_ D]]]]]]].
    rewrite E.
    assert (S : status t' = status t \/ status t' = closed
                \/ status t' = pending).
    { destruct D as [->|[_ ->]]; [now left|]. simpl. tauto. }
    destruct r as [[]|e]; do 2 eexists; exists t';
      (split; [reflexivity|]); simpl; repeat split; auto;
      intros body0 action0 Eb Ea Ty;
      destruct (NotReply body0 action0 Eb Ea Ty). }
  destruct (LarkActionType_eqb (la_type action) lark_assign
            && truthy (assigneeId action) && truthy (assigneeName action)).
  2:{ do 2 eexists. exists t. split; [reflexivity|]. simpl.
      repeat split; auto. }
  unfold OutboundService.assignThread, ThreadService.assign.
  destruct (withThread_other_threads (la_threadId action)
              (fun thread =>
                 setAssignee thread (or_str (assigneeId action) "")
                   (or_str (assigneeName action) ""))
              w tid t (fun _ _ => eq_refl) H)
    as [r [w' [t' [E [G [_ [_ D]]]]]]].
  rewrite E.
  assert (S : status t' = status t)
    by (destruct D as [->|[_ ->]]; reflexivity).
  destruct r as [[]|e]; do 2 eexists; exists t';
    (split; [reflexivity|]); simpl; repeat split; auto.
Qed.

(** On the sample world with the facebook thread closed: the reply
    button sends the reply and the thread stays closed; the button for
    pending takes it out of closed. *)
Lemma card_actions_never_reopen_closed :
  (exists resp w' t',
     OutboundHandler.handler Sample.env
       (Ok (SampleCard.press "reply" "t-1" (Some "hi back") None))
       (Sample.world FACEBOOK closed msg_sent) = (Ok resp, w') /\
     (statusCode resp = 200 \/ statusCode resp = 500) /\
     ddb_get threadId "t-1" (threads w') = Some t' /\
     status t' = closed) /\
  (exists w',
     OutboundHandler.handler Sample.env
       (Ok (SampleCard.press "reply" "t-1" (Some "hi back") None))
       (Sample.world FACEBOOK closed msg_sent)
     = (Ok {| statusCode := 200;
              resp_body := SendResultBody (Sample.sentTo "X1") |}, w') /\
     option_map status (ddb_get threadId "t-1" (threads w')) = Some closed /\
     length (messages w') = 2) /\
  (exists w',
     OutboundHandler.handler Sample.env
       (Ok (SampleCard.press "pending" "t-1" None None))
       (Sample.world FACEBOOK closed msg_sent)
     = (Ok OutboundHandler.success200, w') /\
     option_map status (ddb_get threadId "t-1" (threads w')) = Some pending).
Proof.
  split.
  - destruct (card_actions_never_reopen Sample.env
                (Ok (SampleCard.press "reply" "t-1" (Some "hi back") None))
                (Sample.world FACEBOOK closed msg_sent) "t-1"
                (Sample.thread1 FACEBOOK closed) eq_refl)
      as [resp [w' [t' [E [C [G [_ Reply]]]]]]].
    exists resp, w', t'. split; [exact E|]. split; [exact C|].
    split; [exact G|].
    apply (Reply (SampleCard.press "reply" "t-1" (Some "hi back") None)
             (LarkWebhookHandler.actionOf
                (SampleCard.press "reply" "t-1" (Some "hi back") None)
                {| val_action := Some "reply"; val_threadId := Some "t-1";
                   val_customerId := None |})
             eq_refl eq_refl eq_refl).
  - split; eexists; (split; [reflexivity|]); simpl; auto.
Defined.

Lemma truthy_or_str (o : option string) :
  negb (or_str o "" =? "") = truthy o.
Proof.
  destruct o as [s|]; simpl; [|reflexivity].
  destruct (s =? "") eqn:E; simpl; [reflexivity|]. now rewrite E.
Qed.

Lemma chosen_eq (value : ActionValue) (name : string) :
  match val_action value with
  | Some a => a =? name
  | None => false
  end = true <-> val_action value = Some name.
Proof.
  destruct (val_action value) as [a|]; [|split; discriminate].
  split.
  - intros E. apply String.eqb_eq in E. now subst.
  - intros E. injection E as ->. apply String.eqb_refl.
Qed.

Lemma chosen_neq (value : ActionValue) (name : string) :
  val_action value <> Some name ->
  match val_action value with
  | Some a => a =? name
  | None => false
  end = false.
Proof.
  intros Hne. destruct (val_action value) as [a|]; [|reflexivity].
  apply String.eqb_neq. congruence.
Qed.

(** X23: a button pressed on a thread that is not stored.  The handler
    answers a reply with 200 and the result [{success: false, error:
    'Thread not found'}], but a close or pending request, and a complete
    assign request, with 500 'Internal server error'.  In each case
    nothing is written and no provider is called. *)
Theorem card_action_on_unknown_thread (env : Env) (body : LarkBody)
    (value : ActionValue) (w : World) :
  body_type body <> Some "url_verification" ->
  action_value body = Some (Ok value) ->
  ddb_get threadId (or_str (val_threadId value) "") (threads w) = None ->
  (val_action value = Some "reply" ->
   OutboundHandler.handler env (Ok body) w
   = (Ok {| statusCode := 200;
            resp_body :=
              SendResultBody
                (failedResult "Thread not found" (toISOString (clock w))) |},
      w)) /\
  (val_action value = Some "close" \/ val_action value = Some "pending" ->
   OutboundHandler.handler env (Ok body) w
   = (Ok {| statusCode := 500; resp_body := InternalErrorBody |}, w)) /\
  (val_action value = Some "assign" ->
   truthy (selected_value body) = true ->
   truthy (selected_text body) = true ->
   OutboundHandler.handler env (Ok body) w
   = (Ok {| statusCode := 500; resp_body := InternalErrorBody |}, w)).
Proof.
  intros Hty Hv Habs.
  assert (Ty : match body_type body with
               | Some ty => ty =? "url_verification"
               | None => false
               end = false).
  { destruct (body_type body) as [ty|]; [|reflexivity].
    apply String.eqb_neq. congruence. }
  unfold OutboundHandler.handler, try_catch, bind, lift_result.
  rewrite Ty. unfold LarkWebhookHandler.parseAction. rewrite Hv.
  unfold LarkWebhookHandler.actionOf.
  split; [|split].
  - intros A. rewrite A. simpl.
    rewrite sendReply_absent; [reflexivity | exact Habs].
  - intros [A|A]; rewrite A; simpl;
      unfold OutboundService.updateThreadStatus, ThreadService.updateStatus;
      rewrite (ThreadService_withThread_absent _ _ w Habs); reflexivity.
  - intros A Sv St. rewrite A. simpl.
    rewrite !truthy_or_str, Sv, St. simpl.
    unfold OutboundService.assignThread, ThreadService.assign.
    rewrite (ThreadService_withThread_absent _ _ w Habs). reflexivity.
Qed.

(** The reply button and the close button pressed on the card of the
    unknown thread [t-9]. *)
Lemma card_action_on_unknown_thread_sample :
  OutboundHandler.handler Sample.env
    (Ok (SampleCard.press "reply" "t-9" (Some "hi back") None))
    (Sample.world SMS open msg_sent)
  = (Ok {| statusCode := 200;
           resp_body :=
             SendResultBody
               (failedResult "Thread not found" (toISOString Sample.noon)) |},
     Sample.world SMS open msg_sent) /\
  OutboundHandler.handler Sample.env
    (Ok (SampleCard.press "close" "t-9" None None))
    (Sample.world SMS open msg_sent)
  = (Ok {| statusCode := 500; resp_body := InternalErrorBody |},
     Sample.world SMS open msg_sent).
Proof.
  assert (Hty : forall name input,
            body_type (SampleCard.press name "t-9" input None)
            <> Some "url_verification") by discriminate.
  split.
  - exact (proj1
             (card_action_on_unknown_thread Sample.env
                (SampleCard.press "reply" "t-9" (Some "hi back") None)
                {| val_action := Some "reply"; val_threadId := Some "t-9";
                   val_customerId := None |}
                (Sample.world SMS open msg_sent) (Hty _ _) eq_refl eq_refl)
             eq_refl).
  - exact (proj1 (proj2
             (card_action_on_unknown_thread Sample.env
                (SampleCard.press "close" "t-9" None None)
                {| val_action := Some "close"; val_threadId := Some "t-9";
                   val_customerId := None |}
                (Sample.world SMS open msg_sent) (Hty _ _) eq_refl eq_refl))
             (or_introl eq_refl)).
Defined.

(** X24: requests the handler acknowledges without doing anything.  A
    request whose action value, the empty object when [action.value] is
    missing, names none of reply, close and pending, and is not an assign
    that carries both the selected value and the selected text, is
    answered with 200 [{success: true}] and changes nothing: so an
    assign with nothing selected, a request without action, and any
    unknown action such as 'open', reports success. *)
Theorem card_action_without_effect (env : Env) (body : LarkBody)
    (value : ActionValue) (w : World) :
  body_type body <> Some "url_verification" ->
  LarkWebhookHandler.parseAction body
  = Ok (LarkWebhookHandler.actionOf body value) ->
  val_action value <> Some "reply" ->
  val_action value <> Some "close" ->
  val_action value <> Some "pending" ->
  (val_action value = Some "assign" ->
   truthy (selected_value body) && truthy (selected_text body) = false) ->
  OutboundHandler.handler env (Ok body) w
  = (Ok OutboundHandler.success200, w).
Proof.
  intros Hty Hv Nr Nc Np Ha.
  assert (Ty : match body_type body with
               | Some ty => ty =? "url_verification"
               | None => false
               end = false).
  { destruct (body_type body) as [ty|]; [|reflexivity].
    apply String.eqb_neq. congruence. }
  unfold OutboundHandler.handler, try_catch, bind, lift_result.
  rewrite Ty, Hv.
  unfold LarkWebhookHandler.actionOf.
  rewrite (chosen_neq value "reply" Nr), (chosen_neq value "close" Nc),
    (chosen_neq value "pending" Np).
  destruct (match val_action value with
            | Some a => a =? "assign"
            | None => false
            end) eqn:A.
  - apply chosen_eq in A. simpl.
    rewrite !truthy_or_str, (Ha A). reflexivity.
  - destruct (match val_action value with
              | Some a => a =? "customer_info"
              | None => false
              end); reflexivity.
Qed.

(** An assign request without a selection, a request to open, and a
    request without action, on the closed sms thread of the sample
    world. *)
Lemma card_action_without_effect_sample :
  OutboundHandler.handler Sample.env
    (Ok (SampleCard.press "assign" "t-1" None None))
    (Sample.world SMS closed msg_sent)
  = (Ok OutboundHandler.success200, Sample.world SMS closed msg_sent) /\
  OutboundHandler.handler Sample.env
    (Ok (SampleCard.press "open" "t-1" None None))
    (Sample.world SMS closed msg_sent)
  = (Ok OutboundHandler.success200, Sample.world SMS closed msg_sent) /\
  OutboundHandler.handler Sample.env (Ok SampleCard.noAction)
    (Sample.world SMS closed msg_sent)
  = (Ok OutboundHandler.success200, Sample.world SMS closed msg_sent).
Proof.
  assert (Hty : forall name,
            body_type (SampleCard.press name "t-1" None None)
            <> Some "url_verification") by discriminate.
  assert (Hty0 : body_type SampleCard.noAction <> Some "url_verification")
    by discriminate.
  split; [|split].
  3:{ apply (card_action_without_effect Sample.env SampleCard.noAction
               {| val_action := None; val_threadId := None;
                  val_customerId := None |}
               (Sample.world SMS closed msg_sent) Hty0 eq_refl);
        discriminate. }
  - apply (card_action_without_effect Sample.env
             (SampleCard.press "assign" "t-1" None None)
             {| val_action := Some "assign"; val_threadId := Some "t-1";
                val_customerId := None |}
             (Sample.world SMS closed msg_sent) (Hty _) eq_refl);
      solve [discriminate | reflexivity].
  - apply (card_action_without_effect Sample.env
             (SampleCard.press "open" "t-1" None None)
             {| val_action := Some "open"; val_threadId := Some "t-1";
                val_customerId := None |}
             (Sample.world SMS closed msg_sent) (Hty _) eq_refl);
      discriminate.
Defined.

(** ** The Twilio adapter *)

Lemma append_inj_prefix (p a b : string) :
  (p ++ a = p ++ b)%string -> a = b.
Proof.
  induction p as [|c p IH]; simpl; intros H; [exact H|].
  injection H as H. auto.
Qed.

Lemma indexed_inj (name : string) (i j : nat) :
  TwilioWebhookHandler.indexed name i = TwilioWebhookHandler.indexed name j ->
  i = j.
Proof.
  unfold TwilioWebhookHandler.indexed. intros H.
  apply append_inj_prefix in H.
  apply (f_equal NilEmpty.uint_of_string) in H.
  rewrite !NilEmpty.usu in H. injection H as H.
  apply (f_equal Nat.of_uint) in H.
  now rewrite !DecimalNat.Unsigned.of_to in H.
Qed.

Lemma params_get_In (body : Params) (name : string) :
  truthy (params_get body name) = true -> In name (map fst body).
Proof.
  unfold params_get.
  destruct (find (fun p => fst p =? name) body) as [p|] eqn:E;
    [|discriminate].
  intros _. apply find_some in E. destruct E as [Hin Hk].
  apply String.eqb_eq in Hk. subst name. now apply in_map.
Qed.

Lemma media_run_bounded (body : Params) (i k : nat) :
  (forall j, i <= j < i + k ->
     truthy (params_get body
               (TwilioWebhookHandler.indexed "MediaContentType" j)) = true) ->
  k <= length body.
Proof.
  intros Hrun.
  apply Nat.le_trans
    with (length (map (TwilioWebhookHandler.indexed "MediaContentType")
                    (seq i k))).
  { rewrite length_map, length_seq. lia. }
  rewrite <- (length_map fst body).
  apply NoDup_incl_length.
  - apply NoDup_map_NoDup_ForallPairs; [|apply seq_NoDup].
    intros a b _ _. apply indexed_inj.
  - intros x Hx. apply in_map_iff in Hx. destruct Hx as [j [<- Hj]].
    apply in_seq in Hj. apply params_get_In, Hrun. lia.
Qed.

Lemma parseMediaFrom_run (body : Params) (fuel i : nat) :
  exists k,
    k <= fuel /\
    TwilioWebhookHandler.parseMediaFrom fuel body i
    = map (TwilioWebhookHandler.mediaAt body) (seq i k) /\
    (forall j, i <= j < i + k ->
       truthy (params_get body
                 (TwilioWebhookHandler.indexed "MediaContentType" j)) = true)
    /\
    (k < fuel ->
     truthy (params_get body
               (TwilioWebhookHandler.indexed "MediaContentType" (i + k)))
     = false).
Proof.
  revert i. induction fuel as [|fuel IH]; intros i.
  - exists 0. simpl. repeat split; intros; lia.
  - simpl.
    destruct (truthy (params_get body
                        (TwilioWebhookHandler.indexed "MediaContentType" i)))
      eqn:E.
    + destruct (IH (S i)) as [k [Hk [Hrun [Hall Hgap]]]].
      exists (S k). simpl. rewrite Hrun.
      split; [lia|]. split; [reflexivity|]. split.
      * intros j Hj. destruct (Nat.eq_dec j i) as [->|Hne]; [exact E|].
        apply Hall. lia.
      * intros Hlt. replace (i + S k) with (S i + k) by lia.
        apply Hgap. lia.
    + exists 0. simpl. split; [lia|]. split; [reflexivity|]. split.
      * intros j Hj. lia.
      * intros _. now rewrite Nat.add_0_r.
Qed.

Lemma parseMediaFrom_enough (body : Params) (k : nat) :
  forall fuel i,
    k < fuel ->
    (forall j, i <= j < i + k ->
       truthy (params_get body
                 (TwilioWebhookHandler.indexed "MediaContentType" j)) = true)
    ->
    truthy (params_get body
              (TwilioWebhookHandler.indexed "MediaContentType" (i + k)))
    = false ->
    TwilioWebhookHandler.parseMediaFrom fuel body i
    = map (TwilioWebhookHandler.mediaAt body) (seq i k).
Proof.
  induction k as [|k IH]; intros fuel i Hlt Hall Hgap.
  - destruct fuel as [|fuel]; [lia|]. simpl.
    rewrite Nat.add_0_r in Hgap. now rewrite Hgap.
  - destruct fuel as [|fuel]; [lia|]. simpl.
    rewrite (Hall i) by lia. f_equal.
    apply IH; [lia | |].
    + intros j Hj. apply Hall. lia.
    + replace (S i + k) with (i + S k) by lia. exact Hgap.
Qed.

(** X25: which media of a Twilio event become attachments.  The loop of
    [parseMedia] ends: it returns the attachments of the indices [0] to
    [k - 1], where [k] is the first index whose [MediaContentType]
    parameter is missing or empty, and [k] is at most the number of
    parameters of the body.  Media that follow a gap in the numbering
    are dropped.  Any larger bound on the number of tests gives the same
    list. *)
Theorem parseMedia_leading_run (body : Params) :
  exists k,
    k <= length body /\
    TwilioWebhookHandler.parseMedia body
    = map (TwilioWebhookHandler.mediaAt body) (seq 0 k) /\
    (forall j, j < k ->
       truthy (params_get body
                 (TwilioWebhookHandler.indexed "MediaContentType" j)) = true)
    /\
    truthy (params_get body
              (TwilioWebhookHandler.indexed "MediaContentType" k)) = false /\
    (forall fuel, length body < fuel ->
       TwilioWebhookHandler.parseMediaFrom fuel body 0
       = TwilioWebhookHandler.parseMedia body).
Proof.
  unfold TwilioWebhookHandler.parseMedia.
  destruct (parseMediaFrom_run body (S (length body)) 0)
    as [k [_ [Hrun [Hall Hgap]]]].
  assert (Hk : k <= length body) by apply (media_run_bounded body 0 k Hall).
  exists k. split; [exact Hk|]. split; [exact Hrun|].
  split; [intros j Hj; apply Hall; lia|].
  assert (G : truthy (params_get body
                        (TwilioWebhookHandler.indexed "MediaContentType" k))
              = false) by (apply Hgap; lia).
  split; [exact G|].
  intros fuel Hf. rewrite Hrun.
  apply parseMediaFrom_enough; [lia | exact Hall | exact G].
Qed.

(** ** One customer, one thread per channel *)

Lemma processMessage_other_channel (env : Env) (raw raw' : RawMessage)
    (w : World) (recorded : option (string * string)) :
  identifierHits (identifierType raw) (identifierValue raw) w = [] ->
  freshIds env w ->
  identifierType raw' = identifierType raw ->
  identifierValue raw' = identifierValue raw ->
  raw_channel raw' <> raw_channel raw ->
  ddb_get threadId (uuid_at env (3 + uuid_ix w)) (threads w) = None ->
  uuid_at env (3 + uuid_ix w) <> uuid_at env (1 + uuid_ix w) ->
  exists w2 t2,
    InboundService.processMessage env raw' (afterFirst recorded env raw w)
    = (Ok tt, w2) /\
    customers w2
    = customers w ++ [CustomerRepository.mainItem (firstCustomer env raw w)]
    /\
    threads w2 = threads w ++ [firstThreadStored recorded env raw w; t2] /\
    thr_customerId t2 = uuid_at env (uuid_ix w) /\
    channel t2 = raw_channel raw' /\
    status t2 = open /\ unreadCount t2 = 1.
Proof.
  intros Hhits F Hty Hval Hch Hfresh Hne.
  set (w1 := afterFirst recorded env raw w).
  set (c := firstCustomer env raw w).
  set (t1 := firstThreadStored recorded env raw w).
  destruct (withLark_same recorded
              (setLastMessage (firstThread env raw w) (firstMessage env raw w)
                 (toISOString (clock w)))
              (toISOString (clock w)))
    as [Tid [Tcid [Tch [Tst _]]]].
  fold (firstThreadStored recorded env raw w) in Tid, Tcid, Tch, Tst.
  fold t1 in Tid, Tcid, Tch, Tst. simpl in Tid, Tcid, Tch, Tst.
  assert (Hfound : identifierHits (identifierType raw') (identifierValue raw')
                     w1 = [CustomerRepository.mainItem c]).
  { rewrite Hty, Hval. unfold identifierHits, ddb_query, w1, afterFirst.
    simpl. rewrite filter_app, (identifierHits_none _ _ _ Hhits). simpl.
    fold c. unfold CustomerRepository.identifierKey. simpl.
    now rewrite !String.eqb_refl. }
  assert (Hact : activeThreadHits
                   (customer_id (CustomerRepository.mainItem c))
                   (raw_channel raw') w1 = []).
  { unfold activeThreadHits, ddb_query, w1, afterFirst. simpl.
    rewrite filter_app, (fresh_customer_threads F). simpl. fold t1.
    rewrite Tcid, String.eqb_refl. simpl. rewrite Tch.
    destruct (ChannelType_eqb (raw_channel raw) (raw_channel raw')) eqn:E;
      [|reflexivity].
    apply ChannelType_eqb_eq in E. congruence. }
  assert (Hnew : ddb_get threadId (uuid_at env (uuid_ix w1)) (threads w1)
                 = None).
  { unfold w1, afterFirst. simpl. fold t1. simpl in Hfresh.
    rewrite (ddb_get_last _ threadId _ t1 (threads w) Hfresh), Tid.
    destruct (String.eqb_spec (uuid_at env (S (uuid_ix w)))
                (uuid_at env (S (S (S (uuid_ix w)))))) as [Heq|_];
      [|reflexivity].
    exfalso. apply Hne. symmetry. exact Heq. }
  destruct (processMessage_opens_thread env raw' w1 _ [] Hfound Hact Hnew)
    as [w2 [t2 [E [T [C [_ [Tc [Tch2 [Ts Tu]]]]]]]]].
  exists w2, t2. split; [exact E|].
  split; [rewrite C; reflexivity|].
  split; [rewrite T; unfold w1, afterFirst; simpl; fold t1;
          now rewrite <- app_assoc|].
  auto.
Qed.

(** X26: customers are shared across channels, threads are not.  When the
    first message of an unknown identifier is followed by a message with
    the same identifier type and value on another channel (the Twilio
    adapter gives sms and whatsapp the one type 'phone'), the second
    message creates no customer: it is filed under the customer of the
    first, in a new open thread of its own channel. *)
Theorem one_customer_across_channels (env : Env) (raw raw' : RawMessage)
    (w : World) :
  identifierHits (identifierType raw) (identifierValue raw) w = [] ->
  freshIds env w ->
  identifierType raw' = identifierType raw ->
  identifierValue raw' = identifierValue raw ->
  raw_channel raw' <> raw_channel raw ->
  ddb_get threadId (uuid_at env (3 + uuid_ix w)) (threads w) = None ->
  uuid_at env (3 + uuid_ix w) <> uuid_at env (1 + uuid_ix w) ->
  exists w1 w2 t1 t2,
    InboundService.processMessage env raw w = (Ok tt, w1) /\
    InboundService.processMessage env raw' w1 = (Ok tt, w2) /\
    customers w2
    = customers w ++ [CustomerRepository.mainItem (firstCustomer env raw w)]
    /\
    threads w2 = threads w ++ [t1; t2] /\
    thr_customerId t1 = uuid_at env (uuid_ix w) /\
    thr_customerId t2 = uuid_at env (uuid_ix w) /\
    channel t1 = raw_channel raw /\ channel t2 = raw_channel raw' /\
    status t1 = open /\ status t2 = open.
Proof.
  intros Hhits F Hty Hval Hch Hfresh Hne.
  destruct (processMessage_first env raw w Hhits F) as [recorded E1].
  destruct (processMessage_other_channel env raw raw' w recorded
              Hhits F Hty Hval Hch Hfresh Hne)
    as [w2 [t2 [E2 [C [T [Tc [Tch [Ts _]]]]]]]].
  destruct (withLark_same recorded
              (setLastMessage (firstThread env raw w) (firstMessage env raw w)
                 (toISOString (clock w)))
              (toISOString (clock w)))
    as [_ [Tcid [Tch1 [Tst _]]]].
  exists (afterFirst recorded env raw w), w2,
    (firstThreadStored recorded env raw w), t2.
  repeat split; assumption.
Qed.

(** ** Twilio events, from the webhook to the tables *)

Lemma detectChannel_twilio (env : Env) (source : string)
    (channel : ChannelType) :
  TwilioWebhookHandler.detectChannel env source = Some channel ->
  CHANNEL_PROVIDERS channel = twilio /\
  (TwilioWebhookHandler.getIdentifierType channel = "phone"
   \/ TwilioWebhookHandler.getIdentifierType channel = "line_id"
   \/ TwilioWebhookHandler.getIdentifierType channel = "webchat_id").
Proof.
  unfold TwilioWebhookHandler.detectChannel.
  repeat match goal with
         | |- context [if ?b then _ else _] => destruct b
         end; intros E; try discriminate; injection E as <-; simpl; auto.
Qed.

Lemma parseMedia_nonempty (body : Params) :
  TwilioWebhookHandler.parseMedia body <> []
  <-> truthy (params_get body "MediaContentType0") = true.
Proof.
  unfold TwilioWebhookHandler.parseMedia. simpl.
  change (TwilioWebhookHandler.indexed "MediaContentType" 0)
    with "MediaContentType0".
  destruct (truthy (params_get body "MediaContentType0")); split;
    intros H; try reflexivity; try discriminate; congruence.
Qed.

Lemma parseMediaFrom_types (body : Params) (fuel i : nat)
    (a : MessageAttachment) :
  In a (TwilioWebhookHandler.parseMediaFrom fuel body i) ->
  att_type a = image \/ att_type a = file.
Proof.
  revert i. induction fuel as [|fuel IH]; intros i; simpl; [tauto|].
  destruct (truthy (params_get body
                      (TwilioWebhookHandler.indexed "MediaContentType" i)));
    simpl; [|tauto].
  intros [<-|H]; [|apply (IH (S i) H)].
  unfold TwilioWebhookHandler.mediaAt. cbn [att_type].
  destruct (params_get body
              (TwilioWebhookHandler.indexed "MediaContentType" i)) as [ty|];
    [destruct (startsWith "image" ty)|]; auto.
Qed.

(** X27: what the Twilio adapter hands to [processMessage].  [parseEvent]
    returns at most one message and reads nothing but the clock.  The
    message it builds is always on a channel that [sendReply] routes to
    the Twilio client, identified by the [Author] parameter under the
    type 'phone', 'line_id' or 'webchat_id' of that channel; its
    [externalMessageId] is the [MessageSid] parameter, or [''] when that
    is missing.  Its content type is 'image' exactly when it has an
    attachment, whatever the media type of that attachment is, and every
    attachment is typed 'image' or 'file'. *)
Theorem parseEvent_messages (env : Env) (body : Params) (w : World) :
  exists ms,
    TwilioWebhookHandler.parseEvent env body w = (Ok ms, w) /\
    length ms <= 1 /\
    forall raw,
      In (Some raw) ms ->
      CHANNEL_PROVIDERS (raw_channel raw) = twilio /\
      identifierType raw
      = TwilioWebhookHandler.getIdentifierType (raw_channel raw) /\
      (identifierType raw = "phone" \/ identifierType raw = "line_id"
       \/ identifierType raw = "webchat_id") /\
      identifierValue raw = or_str (params_get body "Author") "" /\
      raw_externalMessageId raw
      = Some (or_str (params_get body "MessageSid") "") /\
      (raw_contentType raw = Some image
       <-> or_default (raw_attachments raw) [] <> []) /\
      (forall a,
         In a (or_default (raw_attachments raw) []) ->
         att_type a = image \/ att_type a = file).
Proof.
  unfold TwilioWebhookHandler.parseEvent.
  destruct (match params_get body "EventType" with
            | Some eventType => eventType =? "onMessageAdded"
            | None => false
            end).
  2:{ exists []. split; [reflexivity|]. split; [simpl; lia|].
      intros raw []. }
  unfold bind, now, gets, ret.
  eexists. split; [reflexivity|]. split; [simpl; lia|].
  intros raw [Hin|[]].
  destruct (TwilioWebhookHandler.detectChannel env
              (or_str (params_get body "Source") "")) as [channel|] eqn:D;
    [|discriminate].
  simpl in Hin. injection Hin as <-.
  destruct (detectChannel_twilio env _ channel D) as [P T].
  simpl. repeat split; auto.
  - intros E. apply parseMedia_nonempty.
    destruct (truthy (params_get body "MediaContentType0"));
      [reflexivity | discriminate].
  - intros E. apply parseMedia_nonempty in E. now rewrite E.
  - apply parseMediaFrom_types.
Qed.

(** The voice note of the sample: one attachment of type file, the
    picture after the gap dropped, and the content type image. *)
Example parseEvent_voice_note :
  TwilioWebhookHandler.parseEvent Sample.env SampleTwilio.voiceNote
    Sample.empty
  = (Ok [Some
           {| raw_channel := WHATSAPP; identifierType := "phone";
              identifierValue := "+81900000001"; raw_content := Some "";
              raw_contentType := Some image;
              raw_attachments :=
                Some [{| att_type := file;
                         att_url := "https://media.example/0";
                         att_filename := None;
                         att_mimeType := Some "audio/ogg";
                         att_size := None |}];
              raw_senderId := Some "+81900000001"; raw_senderName := None;
              raw_senderAvatar := None;
              raw_timestamp := Some (toISOString Sample.noon);
              raw_externalMessageId := Some "IM1";
              raw_metadata := Some [("conversationSid", "CH1")] |}],
     Sample.empty).
Proof. reflexivity. Qed.

Lemma processEach_one (env : Env) (raw : RawMessage) (w : World) :
  InboundHandler.processEach env [Some raw] w
  = if truthy (Some (identifierType raw))
       && truthy (Some (identifierValue raw))
    then InboundService.processMessage env raw w
    else (Ok tt, w).
Proof.
  unfold InboundHandler.processEach, bind, ret.
  destruct (truthy (Some (identifierType raw))
            && truthy (Some (identifierValue raw))); [|reflexivity].
  destruct (InboundService.processMessage env raw w) as [[[]|e] w'];
    reflexivity.
Qed.

Lemma twilio_added (env : Env) (body : Params) (w : World) :
  params_get body "EventType" = Some "onMessageAdded" ->
  InboundHandler.twilio env true body w
  = match InboundHandler.processEach env
            [option_map
               (TwilioWebhookHandler.messageOf body (toISOString (clock w)))
               (TwilioWebhookHandler.detectChannel env
                  (or_str (params_get body "Source") ""))] w with
    | (Ok _, w') =>
        (Ok {| statusCode := 200; resp_body := ProcessedBody 1 |}, w')
    | (Throw _, w') =>
        (Ok {| statusCode := 500; resp_body := InternalErrorBody |}, w')
    end.
Proof.
  intros Hev.
  unfold InboundHandler.twilio, TwilioWebhookHandler.parseEvent, try_catch,
    bind, now, gets, ret.
  rewrite Hev. change (negb true) with false. cbv beta iota.
  rewrite String.eqb_refl. cbv beta iota.
  destruct (InboundHandler.processEach env _ w) as [[[]|e] w']; reflexivity.
Qed.

(** X28: what the inbound handler does with a Twilio event.  A request
    whose signature does not verify is answered 401 and nothing is read
    or written.  A verified [onMessageAdded] event is always answered 200
    with [processed: 1]: when the [Author] parameter is missing or empty
    the message is dropped and every table is left as it was; otherwise,
    the message the adapter built is taken through [processMessage], and
    the state left is the one [processMessage] leaves. *)
Theorem twilio_event_outcome (env : Env) (body : Params) (w : World) :
  InboundHandler.twilio env false body w
  = (Ok {| statusCode := 401; resp_body := InvalidSignatureBody |}, w) /\
  (params_get body "EventType" = Some "onMessageAdded" ->
   exists w',
     InboundHandler.twilio env true body w
     = (Ok {| statusCode := 200; resp_body := ProcessedBody 1 |}, w') /\
     (truthy (params_get body "Author") = false -> w' = w) /\
     (forall channel,
        TwilioWebhookHandler.detectChannel env
          (or_str (params_get body "Source") "") = Some channel ->
        truthy (params_get body "Author") = true ->
        InboundService.processMessage env
          (TwilioWebhookHandler.messageOf body (toISOString (clock w))
             channel) w
        = (Ok tt, w'))).
Proof.
  split; [reflexivity|]. intros Hev.
  rewrite (twilio_added env body w Hev).
  destruct (TwilioWebhookHandler.detectChannel env
              (or_str (params_get body "Source") "")) as [channel|] eqn:D.
  2:{ exists w. split; [reflexivity|]. split; [reflexivity|].
      intros channel E. discriminate. }
  simpl option_map. rewrite processEach_one.
  destruct (detectChannel_twilio env _ channel D) as [_ T].
  assert (Ty : truthy (Some (identifierType
                 (TwilioWebhookHandler.messageOf body (toISOString (clock w))
                    channel))) = true).
  { simpl identifierType. destruct T as [-> | [-> | ->]]; reflexivity. }
  assert (Tv : truthy (Some (identifierValue
                 (TwilioWebhookHandler.messageOf body (toISOString (clock w))
                    channel))) = truthy (params_get body "Author")).
  { simpl identifierValue. unfold truthy. apply truthy_or_str. }
  rewrite Ty, Tv. simpl andb.
  destruct (truthy (params_get body "Author")) eqn:A.
  - destruct (resolveCustomer_total env
                (TwilioWebhookHandler.messageOf body (toISOString (clock w))
                   channel) w) as [c [wc Hc]].
    destruct (resolveThread_total env
                (TwilioWebhookHandler.messageOf body (toISOString (clock w))
                   channel) c wc) as [t [wt [stored [Ht Hs]]]].
    rewrite (processMessage_steps_exact env _ w wc wt c t stored Hc Ht Hs).
    eexists. split; [reflexivity|]. split; [discriminate|].
    intros channel' E _. injection E as <-.
    apply (processMessage_steps_exact env _ w wc wt c t stored Hc Ht Hs).
  - exists w. split; [reflexivity|]. split; [reflexivity|].
    intros channel' _ E. discriminate.
Qed.

(** The sms event of scenario 1 on the empty world, and an event without
    author. *)
Lemma twilio_event_outcome_sample :
  (exists w',
     InboundHandler.twilio Sample.env true
       (SampleTwilio.added "SMS" "+81900000001" "IM1" "hello" [])
       Sample.empty
     = (Ok {| statusCode := 200; resp_body := ProcessedBody 1 |}, w') /\
     InboundService.processMessage Sample.env
       (TwilioWebhookHandler.messageOf
          (SampleTwilio.added "SMS" "+81900000001" "IM1" "hello" [])
          (toISOString Sample.noon) SMS)
       Sample.empty
     = (Ok tt, w')) /\
  InboundHandler.twilio Sample.env true
    (SampleTwilio.added "SMS" "" "IM1" "hello" []) Sample.empty
  = (Ok {| statusCode := 200; resp_body := ProcessedBody 1 |}, Sample.empty).
Proof.
  split.
  - destruct (proj2 (twilio_event_outcome Sample.env
                       (SampleTwilio.added "SMS" "+81900000001" "IM1" "hello"
                          [])
                       Sample.empty) eq_refl) as [w' [E [_ P]]].
    exists w'. split; [exact E|]. apply (P SMS eq_refl eq_refl).
  - destruct (proj2 (twilio_event_outcome Sample.env
                       (SampleTwilio.added "SMS" "" "IM1" "hello" [])
                       Sample.empty) eq_refl) as [w' [E [D _]]].
    rewrite E, (D eq_refl). reflexivity.
Defined.

(** The same phone number on sms and then on whatsapp, as the Twilio
    adapter reports the two events. *)
Lemma one_customer_across_channels_phone :
  exists w1 w2 t1 t2,
    InboundService.processMessage Sample.env
      (TwilioWebhookHandler.messageOf
         (SampleTwilio.added "SMS" "+81900000001" "IM1" "hello" [])
         (toISOString Sample.noon) SMS)
      Sample.empty = (Ok tt, w1) /\
    InboundService.processMessage Sample.env
      (TwilioWebhookHandler.messageOf
         (SampleTwilio.added "WhatsApp" "+81900000001" "IM2" "hello again" [])
         (toISOString Sample.noon) WHATSAPP)
      w1 = (Ok tt, w2) /\
    length (customers w2) = 1 /\
    threads w2 = [t1; t2] /\
    thr_customerId t1 = "uuid-0" /\ thr_customerId t2 = "uuid-0" /\
    channel t1 = SMS /\ channel t2 = WHATSAPP.
Proof.
  assert (F : freshIds Sample.env Sample.empty)
    by (constructor; solve [reflexivity | discriminate]).
  assert (Hch : WHATSAPP <> SMS) by discriminate.
  assert (Hne : uuid_at Sample.env (3 + uuid_ix Sample.empty)
                <> uuid_at Sample.env (1 + uuid_ix Sample.empty))
    by discriminate.
  destruct (one_customer_across_channels Sample.env
              (TwilioWebhookHandler.messageOf
                 (SampleTwilio.added "SMS" "+81900000001" "IM1" "hello" [])
                 (toISOString Sample.noon) SMS)
              (TwilioWebhookHandler.messageOf
                 (SampleTwilio.added "WhatsApp" "+81900000001" "IM2"
                    "hello again" [])
                 (toISOString Sample.noon) WHATSAPP)
              Sample.empty eq_refl F eq_refl eq_refl Hch eq_refl Hne)
    as [w1 [w2 [t1 [t2 [E1 [E2 [C [T [C1 [C2 [H1 [H2 _]]]]]]]]]]]].
  exists w1, w2, t1, t2.
  repeat split; try assumption. rewrite C. reflexivity.
Defined.

Lemma twilio_processed (env : Env) (body : Params) (w w' : World)
    (channel : ChannelType) :
  params_get body "EventType" = Some "onMessageAdded" ->
  TwilioWebhookHandler.detectChannel env
    (or_str (params_get body "Source") "") = Some channel ->
  truthy (params_get body "Author") = true ->
  InboundService.processMessage env
    (TwilioWebhookHandler.messageOf body (toISOString (clock w)) channel) w
  = (Ok tt, w') ->
  InboundHandler.twilio env true body w
  = (Ok {| statusCode := 200; resp_body := ProcessedBody 1 |}, w').
Proof.
  intros Hev D A E.
  rewrite (twilio_added env body w Hev), D. simpl option_map.
  rewrite processEach_one.
  destruct (detectChannel_twilio env _ channel D) as [_ T].
  assert (Ty : truthy (Some (identifierType
                 (TwilioWebhookHandler.messageOf body (toISOString (clock w))
                    channel))) = true).
  { simpl identifierType. destruct T as [-> | [-> | ->]]; reflexivity. }
  assert (Tv : truthy (Some (identifierValue
                 (TwilioWebhookHandler.messageOf body (toISOString (clock w))
                    channel))) = truthy (params_get body "Author")).
  { simpl identifierValue. unfold truthy. apply truthy_or_str. }
  rewrite Ty, Tv, A. simpl andb. cbv iota. rewrite E. reflexivity.
Qed.

(** X29: where a reply to a Twilio conversation is sent.  A verified
    [onMessageAdded] event of an unknown author opens a thread whose
    [externalConversationId] is the [MessageSid] of the event; the
    [ConversationSid] only reaches the metadata of the stored message.
    So a reply to that thread asks the Twilio API to create the message
    in the conversation named by the [MessageSid], and fails with 'No
    conversation ID', before any API call, when the event had no
    [MessageSid]. *)
Theorem twilio_reply_goes_to_message_sid (base : Env)
    (create : TwilioClient.MessagesCreate) (metaPost : MetaClient.Post)
    (linkedInPost : LinkedInClient.Post) (at_ : string) (body : Params)
    (channel : ChannelType) (w : World) (request : OutboundMessageRequest) :
  params_get body "EventType" = Some "onMessageAdded" ->
  TwilioWebhookHandler.detectChannel base
    (or_str (params_get body "Source") "") = Some channel ->
  truthy (params_get body "Author") = true ->
  identifierHits (TwilioWebhookHandler.getIdentifierType channel)
    (or_str (params_get body "Author") "") w = [] ->
  freshIds (withClients base create metaPost linkedInPost at_) w ->
  req_threadId request = uuid_at base (1 + uuid_ix w) ->
  exists w1 w2,
    InboundHandler.twilio (withClients base create metaPost linkedInPost at_)
      true body w
    = (Ok {| statusCode := 200; resp_body := ProcessedBody 1 |}, w1) /\
    OutboundService.sendReply
      (withClients base create metaPost linkedInPost at_) request w1
    = (Ok (if or_str (params_get body "MessageSid") "" =? ""
           then failedResult "No conversation ID" at_
           else
             match create (or_str (params_get body "MessageSid") "")
                     {| TwilioClient.body := req_content request;
                        TwilioClient.mediaSid :=
                          if hasAttachments (req_attachments request)
                          then Some (map att_url
                                       (or_default (req_attachments request)
                                          []))
                          else None |} with
             | Ok sid => sentResult (Some sid) at_
             | Throw error_ => failedResult (message_of error_) at_
             end),
       w2).
Proof.
  intros Hev D A Hhits F Hid.
  set (env := withClients base create metaPost linkedInPost at_) in *.
  set (raw := TwilioWebhookHandler.messageOf body (toISOString (clock w))
                channel).
  assert (D' : TwilioWebhookHandler.detectChannel env
                 (or_str (params_get body "Source") "") = Some channel)
    by exact D.
  destruct (processMessage_first env raw w Hhits F) as [recorded E].
  pose proof (twilio_processed env body w _ channel Hev D' A E) as H1.
  destruct (firstThreadStored_fields recorded env raw w)
    as [_ [Tch [Tx Tm]]].
  pose proof (firstThreadStored_get recorded env raw w F) as G.
  change (uuid_at env (1 + uuid_ix w)) with (uuid_at base (1 + uuid_ix w))
    in G.
  rewrite <- Hid in G.
  destruct (detectChannel_twilio base _ channel D) as [P _].
  assert (Ans : providerAnswer env (firstThreadStored recorded env raw w)
                  request
                = Some (TwilioClient.sendMessage create at_
                          (firstThreadStored recorded env raw w)
                          (req_content request) (req_attachments request))).
  { unfold providerAnswer. rewrite Tch. simpl raw_channel. rewrite P.
    reflexivity. }
  assert (Ans' : providerAnswer env (firstThreadStored recorded env raw w)
                   request
                 = Some (Ok (if or_str (params_get body "MessageSid") "" =? ""
                             then failedResult "No conversation ID" at_
                             else
                               match
                                 create
                                   (or_str (params_get body "MessageSid") "")
                                   {| TwilioClient.body := req_content request;
                                      TwilioClient.mediaSid :=
                                        if hasAttachments
                                             (req_attachments request)
                                        then
                                          Some (map att_url
                                                  (or_default
                                                     (req_attachments request)
                                                     []))
                                        else None |} with
                               | Ok sid => sentResult (Some sid) at_
                               | Throw error_ =>
                                   failedResult (message_of error_) at_
                               end))).
  { rewrite Ans. unfold TwilioClient.sendMessage. rewrite Tx.
    unfold raw. cbn [raw_externalMessageId TwilioWebhookHandler.messageOf].
    destruct (or_str (params_get body "MessageSid") "" =? "");
      [reflexivity|].
    destruct (create _ _); reflexivity. }
  destruct (sendReply_provider_returns env request _ _ _ G Ans')
    as [w2 [E2 _]].
  exists (afterFirst recorded env raw w), w2. split; assumption.
Qed.

(** The sms event of the sample, in the conversation [CH1], then a
    reply: the Twilio API is asked for the conversation [IM1]. *)
Lemma twilio_reply_goes_to_message_sid_sample :
  exists w1 w2,
    InboundHandler.twilio
      (withClients Sample.env
         (fun sid _ => if sid =? "CH1" then Ok "IM9"
                       else Throw (JsError "The requested resource was not found"))
         (fun _ => Resolved None) (fun _ => Resolved None)
         "2025-12-05T03:00:01.000Z")
      true (SampleTwilio.added "SMS" "+81900000001" "IM1" "hello" [])
      Sample.empty
    = (Ok {| statusCode := 200; resp_body := ProcessedBody 1 |}, w1) /\
    OutboundService.sendReply
      (withClients Sample.env
         (fun sid _ => if sid =? "CH1" then Ok "IM9"
                       else Throw (JsError "The requested resource was not found"))
         (fun _ => Resolved None) (fun _ => Resolved None)
         "2025-12-05T03:00:01.000Z")
      (SampleReply.reply "uuid-1") w1
    = (Ok (failedResult "The requested resource was not found"
             "2025-12-05T03:00:01.000Z"), w2).
Proof.
  assert (F : freshIds
                (withClients Sample.env
                   (fun sid _ =>
                      if sid =? "CH1" then Ok "IM9"
                      else Throw (JsError
                                    "The requested resource was not found"))
                   (fun _ => Resolved None) (fun _ => Resolved None)
                   "2025-12-05T03:00:01.000Z") Sample.empty)
    by (constructor; solve [reflexivity | discriminate]).
  exact (twilio_reply_goes_to_message_sid Sample.env
           (fun sid _ => if sid =? "CH1" then Ok "IM9"
                         else Throw (JsError
                                       "The requested resource was not found"))
           (fun _ => Resolved None) (fun _ => Resolved None)
           "2025-12-05T03:00:01.000Z"
           (SampleTwilio.added "SMS" "+81900000001" "IM1" "hello" [])
           SMS Sample.empty (SampleReply.reply "uuid-1")
           eq_refl eq_refl eq_refl eq_refl F eq_refl).
Defined.
